(** * LifeEmbedding: reduction, clustering and similarity pipeline

    A shallow embedding of [scripts/dim_reduction.py] (offline training)
    and [backend/main.py] (online query path).

    Modelling conventions.
    - Python [float]s are read as real numbers ([R]); Python [int]s are [Z];
      lengths and positions are [nat].
    - A call either returns or raises: [result].  Code that mutates [self],
      module globals or a store runs in the monad [M], which keeps the
      state reached when an exception is raised, as Python does.
    - scikit-learn, umap-learn, BigQuery, the embedding provider and the
      record-lookup layer are collaborators outside the repository: their
      operations are the fields of the classes [Library], [BigQuery] and
      [Collaborators].
    - Console output and the matplotlib figure are left out. *)

From Stdlib Require Import List String ZArith Reals Lra Lia Bool.
From Stdlib Require Import DecimalString Permutation Sorted.
Import ListNotations.

Set Implicit Arguments.

(** ** Python values and control *)

Module Py.

Inductive exn : Type :=
| ValueError (msg : string)
| IndexError (msg : string)
| KeyError (msg : string)
| TypeError (msg : string)
| AttributeError (msg : string)
| DimensionMismatchError (msg : string)
| ModelUnavailableError (msg : string)
| ExternalError (msg : string)
| HTTPException (status_code : Z) (detail : string).

(** [str(e)] *)
Definition str (e : exn) : string :=
  match e with
  | ValueError m | IndexError m | KeyError m | TypeError m
  | AttributeError m | DimensionMismatchError m
  | ModelUnavailableError m | ExternalError m => m
  | HTTPException _ d => d
  end.

(** [isinstance(e, HTTPException)] *)
Definition is_HTTPException (e : exn) : bool :=
  match e with HTTPException _ _ => true | _ => false end.

Inductive result (A : Type) : Type :=
| Return (a : A)
| Raise (e : exn).
Arguments Raise {A} e.

Definition rbind {A B} (r : result A) (k : A -> result B) : result B :=
  match r with Return a => k a | Raise e => Raise e end.

(** Stateful, fallible code over a state [S]. *)
Definition M (S A : Type) : Type := S -> result A * S.

Definition ret {S A} (a : A) : M S A := fun s => (Return a, s).
Definition raise {S A} (e : exn) : M S A := fun s => (Raise e, s).
Definition bind {S A B} (c : M S A) (k : A -> M S B) : M S B :=
  fun s => match c s with
           | (Return a, s') => k a s'
           | (Raise e, s') => (Raise e, s')
           end.
Definition get {S} : M S S := fun s => (Return s, s).
Definition gets {S A} (f : S -> A) : M S A := fun s => (Return (f s), s).
Definition modify {S} (f : S -> S) : M S unit := fun s => (Return tt, f s).
Definition lift {S A} (r : result A) : M S A := fun s => (r, s).

(** [try: c  except Exception as e: h e] *)
Definition try_except {S A} (c : M S A) (h : exn -> M S A) : M S A :=
  fun s => match c s with
           | (Return a, s') => (Return a, s')
           | (Raise e, s') => h e s'
           end.

(** [for x in l: body x] *)
Fixpoint for_each {S A} (l : list A) (body : A -> M S unit) : M S unit :=
  match l with
  | [] => ret tt
  | x :: t => bind (body x) (fun _ => for_each t body)
  end.

(** [[f x for x in l]] with a fallible [f] *)
Fixpoint rmap {A B} (f : A -> result B) (l : list A) : result (list B) :=
  match l with
  | [] => Return []
  | x :: t => rbind (f x) (fun y => rbind (rmap f t) (fun ys => Return (y :: ys)))
  end.

(** [range(a, b)] *)
Definition range (a b : Z) : list Z :=
  map (fun i => (a + Z.of_nat i)%Z) (seq 0 (Z.to_nat (b - a))).

(** [len(l)] *)
Definition len {A} (l : list A) : Z := Z.of_nat (List.length l).

(** [l[i]] for [0 <= i] *)
Definition getitem {A} (l : list A) (i : nat) : result A :=
  match nth_error l i with
  | Some x => Return x
  | None => Raise (IndexError "index out of bounds")
  end.

(** [l[i]] for a Python [int] index; negative indices count from the end. *)
Definition getitemZ {A} (l : list A) (i : Z) : result A :=
  if (0 <=? i)%Z then getitem l (Z.to_nat i)
  else if (0 <=? len l + i)%Z then getitem l (Z.to_nat (len l + i))
  else Raise (IndexError "index out of bounds").

(** [", ".join(l)] *)
Definition join (sep : string) (l : list string) : string := String.concat sep l.

(** [str(n)] for an [int] *)
Definition str_of_int (n : Z) : string := NilZero.string_of_int (Z.to_int n).

(** A [dict]: keys in insertion order, each key once. *)
Definition dict (K V : Type) : Type := list (K * V).

Section Dict.
Context {K V : Type} (eqb : K -> K -> bool).

Fixpoint dict_find (d : dict K V) (k : K) : option V :=
    match d with
    | [] => None
    | (k', v) :: t => if eqb k' k then Some v else dict_find t k
    end.

(** [d.get(k, dflt)] *)
Definition dict_get_default (d : dict K V) (k : K) (dflt : V) : V :=
    match dict_find d k with Some v => v | None => dflt end.

(** [d[k]] *)
Definition dict_getitem (d : dict K V) (k : K) : result V :=
    match dict_find d k with
    | Some v => Return v
    | None => Raise (KeyError "key not found")
    end.

(** [d[k] = v]: an existing key keeps its position. *)
Fixpoint dict_setitem (d : dict K V) (k : K) (v : V) : dict K V :=
    match d with
    | [] => [(k, v)]
    | (k', v') :: t =>
        if eqb k' k then (k', v) :: t else (k', v') :: dict_setitem t k v
    end.
End Dict.

(** [sorted(items, key=lambda x: x[1], reverse=True)]: stable, so items
    with equal keys keep their original order. *)
Fixpoint insert_desc {A} (x : A * Z) (l : list (A * Z)) : list (A * Z) :=
  match l with
  | [] => [x]
  | y :: t => if (snd x <? snd y)%Z then y :: insert_desc x t else x :: y :: t
  end.

Definition sorted_by_value_desc {A} (l : list (A * Z)) : list (A * Z) :=
  fold_right insert_desc [] l.

End Py.

Import Py.

Declare Scope py_scope.
Delimit Scope py_scope with py.
Notation "x <- c ;; k" := (bind c (fun x => k))
  (at level 61, c at next level, right associativity) : py_scope.
Notation "c ;;; k" := (bind c (fun _ => k))
  (at level 61, right associativity) : py_scope.

(** ** numpy *)

Module Np.

Local Open Scope R_scope.

(** A two-dimensional array, row by row. *)
Definition ndarray : Type := list (list R).

(** [a[i, j]] *)
Definition getitem2 (a : ndarray) (i j : nat) : result R :=
  rbind (getitem a i) (fun row => getitem row j).

(** [np.sum(l)] *)
Definition sum (l : list R) : R := fold_right Rplus 0 l.

(** [np.diff(l)] *)
Fixpoint diff (l : list R) : list R :=
  match l with
  | x :: ((y :: _) as t) => (y - x) :: diff t
  | _ => []
  end.

(** [np.abs(l)] *)
Definition abs (l : list R) : list R := map Rabs l.

(** Position of the first maximum of [x :: l], [x] standing at [besti]
    and [l] starting at [i]. *)
Fixpoint argmax_from (best : R) (besti i : nat) (l : list R) : nat :=
  match l with
  | [] => besti
  | x :: t =>
      if Rlt_dec best x then argmax_from x i (S i) t
      else argmax_from best besti (S i) t
  end.

(** [np.argmax(l)]: the first position holding the maximum; an empty
    sequence raises [ValueError]. *)
Definition argmax (l : list R) : result Z :=
  match l with
  | [] => Raise (ValueError "attempt to get argmax of an empty sequence")
  | x :: t => Return (Z.of_nat (argmax_from x 0 1 t))
  end.

End Np.

(** ** Collaborators of the training script *)

(** A fitted [sklearn.decomposition.PCA]: the stage-1 parameters. *)
Record PCAModel : Type := mkPCA {
  mean_ : list R;
  components_ : Np.ndarray;
  explained_variance_ratio_ : list R
}.

(** scikit-learn, umap-learn and matplotlib, as the scripts call them. *)
Class Library : Type := {
  UMAPModel : Type;
  KMeansModel : Type;
  (** [PCA(n_components, random_state).fit_transform(X)] *)
  PCA_fit_transform : Z -> Z -> Np.ndarray -> result (PCAModel * Np.ndarray);
  (** [umap.UMAP(n_components, n_neighbors, min_dist, metric,
      random_state).fit_transform(X)] *)
  UMAP_fit_transform :
    Z -> Z -> R -> string -> Z -> Np.ndarray -> result (UMAPModel * Np.ndarray);
  (** [umap_model.transform(X)] *)
  UMAP_transform : UMAPModel -> Np.ndarray -> result Np.ndarray;
  (** [KMeans(n_clusters, random_state, n_init, max_iter).fit_predict(X)] *)
  KMeans_fit_predict :
    Z -> Z -> Z -> Z -> Np.ndarray -> result (KMeansModel * list Z);
  inertia_ : KMeansModel -> R;
  silhouette_score : Np.ndarray -> list Z -> result R;
  davies_bouldin_score : Np.ndarray -> list Z -> result R;
  (** the scatter plot of [visualize_3d_clusters], written to a file *)
  savefig : Np.ndarray -> list Z -> Z -> result unit
}.

(** A row of the [embeddings JOIN persons] query. *)
Record Row : Type := mkRow {
  row_person_id : string;
  row_embedding_vector : list R;
  row_embedding_model : string;
  row_embedding_dim : Z;
  row_name : string;
  row_description : string;
  row_occupation : list string
}.

(** A record of the [coordinates_3d] table. *)
Record CoordinateRecord : Type := mkCoordinateRecord {
  rec_person_id : string;
  rec_x : R;
  rec_y : R;
  rec_z : R;
  rec_cluster_id : Z;
  rec_cluster_label : string;
  rec_reduction_method : string;
  rec_created_at : string
}.

(** The BigQuery client and the clock, as [dim_reduction.py] uses them.
    The content of the [coordinates_3d] table is part of the state below. *)
Class BigQuery : Type := {
  (** result of the [SELECT ... ORDER BY p.name] query *)
  query_embeddings : result (list Row);
  (** errors [insert_rows_json] reports for these rows; none: all inserted *)
  insert_errors : list CoordinateRecord -> list string;
  (** [datetime.utcnow().isoformat()] *)
  utcnow_isoformat : string
}.

(** ** scripts/dim_reduction.py *)

Module DimReduction.

Local Open Scope string_scope.
Local Open Scope Z_scope.
Local Open Scope py_scope.

(** An entry of [self.embeddings_data]. *)
Record PersonData : Type := mkPersonData {
  person_id : string;
  name : string;
  description : string;
  occupation : list string;
  embedding_model : string;
  embedding_dim : Z
}.

(** An entry of ['coordinates'] in [coordinates_3d.json]. *)
Record LocalCoordinate : Type := mkLocalCoordinate {
  lc_person_id : string;
  lc_name : string;
  lc_occupation : list string;
  lc_x : R;
  lc_y : R;
  lc_z : R;
  lc_cluster_id : Z;
  lc_cluster_label : string
}.

Record Metadata : Type := mkMetadata {
  num_persons : Z;
  num_clusters : Z;
  reduction_method : string;
  pca_explained_variance : R;
  umap_params : Z * R * string;
  timestamp : string
}.

(** The content of [data/processed/coordinates_3d.json]. *)
Record LocalData : Type := mkLocalData {
  metadata : Metadata;
  ld_cluster_labels : dict Z string;
  coordinates : list LocalCoordinate
}.

(** Parameters set once by [__init__]. *)
Definition pca_components : Z := 50.
Definition umap_components : Z := 3.
Definition umap_n_neighbors : Z := 15.
Definition umap_min_dist : R := (1 / 10)%R.
Definition umap_metric : string := "cosine".

Section Pipeline.
Context {L : Library} {B : BigQuery}.

(** The attributes of a [DimensionalityReducer] that change;
    [coordinates_saved_locally] stands for
    [hasattr(self, '_coordinates_saved_locally')]. *)
Record Reducer : Type := mkReducer {
  pca_model : option PCAModel;
  umap_model : option UMAPModel;
  n_clusters : Z;
  kmeans_model : option KMeansModel;
  embeddings_data : list PersonData;
  embeddings_768d : option Np.ndarray;
  embeddings_50d : option Np.ndarray;
  coordinates_3d : option Np.ndarray;
  cluster_labels : option (list Z);
  coordinates_saved_locally : bool
}.

(** What outlives a run: the BigQuery table and the files under
    [data/processed]. A pickle file holds the pickled attribute, which may
    be [None]. *)
Record Store : Type := mkStore {
  table_coordinates_3d : list CoordinateRecord;
  file_coordinates_3d_json : option LocalData;
  file_pca_model_pkl : option (option PCAModel);
  file_umap_model_pkl : option (option UMAPModel);
  file_visualization_3d_png : bool
}.

Record World : Type := mkWorld {
  self : Reducer;
  store : Store
}.

(** [DimensionalityReducer.__init__] *)
Definition init : Reducer :=
  {| pca_model := None; umap_model := None; n_clusters := 8;
     kmeans_model := None; embeddings_data := [];
     embeddings_768d := None; embeddings_50d := None;
     coordinates_3d := None; cluster_labels := None;
     coordinates_saved_locally := false |}.

(** Attribute assignments [self.f = v]. *)
Definition on_self (f : Reducer -> Reducer) : M World unit :=
  modify (fun w => {| self := f (self w); store := store w |}).
Definition on_store (f : Store -> Store) : M World unit :=
  modify (fun w => {| self := self w; store := f (store w) |}).

Definition set_pca_model v (r : Reducer) : Reducer :=
  mkReducer v (umap_model r) (n_clusters r) (kmeans_model r)
    (embeddings_data r) (embeddings_768d r) (embeddings_50d r)
    (coordinates_3d r) (cluster_labels r) (coordinates_saved_locally r).
Definition set_umap_model v (r : Reducer) : Reducer :=
  mkReducer (pca_model r) v (n_clusters r) (kmeans_model r)
    (embeddings_data r) (embeddings_768d r) (embeddings_50d r)
    (coordinates_3d r) (cluster_labels r) (coordinates_saved_locally r).
Definition set_n_clusters v (r : Reducer) : Reducer :=
  mkReducer (pca_model r) (umap_model r) v (kmeans_model r)
    (embeddings_data r) (embeddings_768d r) (embeddings_50d r)
    (coordinates_3d r) (cluster_labels r) (coordinates_saved_locally r).
Definition set_kmeans_model v (r : Reducer) : Reducer :=
  mkReducer (pca_model r) (umap_model r) (n_clusters r) v
    (embeddings_data r) (embeddings_768d r) (embeddings_50d r)
    (coordinates_3d r) (cluster_labels r) (coordinates_saved_locally r).
Definition set_embeddings_data v (r : Reducer) : Reducer :=
  mkReducer (pca_model r) (umap_model r) (n_clusters r) (kmeans_model r)
    v (embeddings_768d r) (embeddings_50d r)
    (coordinates_3d r) (cluster_labels r) (coordinates_saved_locally r).
Definition set_embeddings_768d v (r : Reducer) : Reducer :=
  mkReducer (pca_model r) (umap_model r) (n_clusters r) (kmeans_model r)
    (embeddings_data r) v (embeddings_50d r)
    (coordinates_3d r) (cluster_labels r) (coordinates_saved_locally r).
Definition set_embeddings_50d v (r : Reducer) : Reducer :=
  mkReducer (pca_model r) (umap_model r) (n_clusters r) (kmeans_model r)
    (embeddings_data r) (embeddings_768d r) v
    (coordinates_3d r) (cluster_labels r) (coordinates_saved_locally r).
Definition set_coordinates_3d v (r : Reducer) : Reducer :=
  mkReducer (pca_model r) (umap_model r) (n_clusters r) (kmeans_model r)
    (embeddings_data r) (embeddings_768d r) (embeddings_50d r)
    v (cluster_labels r) (coordinates_saved_locally r).
Definition set_cluster_labels v (r : Reducer) : Reducer :=
  mkReducer (pca_model r) (umap_model r) (n_clusters r) (kmeans_model r)
    (embeddings_data r) (embeddings_768d r) (embeddings_50d r)
    (coordinates_3d r) v (coordinates_saved_locally r).
Definition set_coordinates_saved_locally v (r : Reducer) : Reducer :=
  mkReducer (pca_model r) (umap_model r) (n_clusters r) (kmeans_model r)
    (embeddings_data r) (embeddings_768d r) (embeddings_50d r)
    (coordinates_3d r) (cluster_labels r) v.

Definition set_table v (s : Store) : Store :=
  mkStore v (file_coordinates_3d_json s) (file_pca_model_pkl s)
    (file_umap_model_pkl s) (file_visualization_3d_png s).
Definition set_file_coordinates v (s : Store) : Store :=
  mkStore (table_coordinates_3d s) v (file_pca_model_pkl s)
    (file_umap_model_pkl s) (file_visualization_3d_png s).
Definition set_file_pca v (s : Store) : Store :=
  mkStore (table_coordinates_3d s) (file_coordinates_3d_json s) v
    (file_umap_model_pkl s) (file_visualization_3d_png s).
Definition set_file_umap v (s : Store) : Store :=
  mkStore (table_coordinates_3d s) (file_coordinates_3d_json s)
    (file_pca_model_pkl s) v (file_visualization_3d_png s).
Definition set_file_png v (s : Store) : Store :=
  mkStore (table_coordinates_3d s) (file_coordinates_3d_json s)
    (file_pca_model_pkl s) (file_umap_model_pkl s) v.

(** Using an attribute that is still [None] where an array is needed. *)
Definition need {A} (o : option A) : result A :=
  match o with
  | Some a => Return a
  | None => Raise (TypeError "NoneType")
  end.

(** [try: c  except Exception as e: print(...); raise] *)
Definition reraising {A} (c : M World A) : M World A :=
  try_except c (fun e => raise e).

Definition person_of_row (row : Row) : PersonData :=
  {| person_id := row_person_id row; name := row_name row;
     description := row_description row; occupation := row_occupation row;
     embedding_model := row_embedding_model row;
     embedding_dim := row_embedding_dim row |}.

(** [load_embeddings_from_bigquery]: every row of the query is kept, and
    [np.array] receives the vectors as they come; a ragged list is left to
    the library call that consumes the array. *)
Definition load_embeddings_from_bigquery : M World Z :=
  reraising (
    results <- lift query_embeddings ;;
    on_self (set_embeddings_data (map person_of_row results)) ;;;
    on_self (set_embeddings_768d (Some (map row_embedding_vector results))) ;;;
    data <- gets (fun w => embeddings_data (self w)) ;;
    ret (len data)).

(** [apply_pca]; an estimator whose fit raised is not kept in
    [self.pca_model]. *)
Definition apply_pca : M World Np.ndarray :=
  reraising (
    X <- gets (fun w => embeddings_768d (self w)) ;;
    X <- lift (need X) ;;
    fitted <- lift (PCA_fit_transform pca_components 42 X) ;;
    on_self (set_pca_model (Some (fst fitted))) ;;;
    on_self (set_embeddings_50d (Some (snd fitted))) ;;;
    ret (snd fitted)).

(** [apply_umap]; as for [apply_pca]. *)
Definition apply_umap : M World Np.ndarray :=
  reraising (
    X <- gets (fun w => embeddings_50d (self w)) ;;
    X <- lift (need X) ;;
    fitted <- lift (UMAP_fit_transform umap_components umap_n_neighbors
                      umap_min_dist umap_metric 42 X) ;;
    on_self (set_umap_model (Some (fst fitted))) ;;;
    on_self (set_coordinates_3d (Some (snd fitted))) ;;;
    ret (snd fitted)).

(** The loop of [determine_optimal_clusters]: one k-means fit and one
    silhouette score per candidate, in the order of the candidates. *)
Fixpoint evaluate_candidates (coords : Np.ndarray) (k_range : list Z)
  : result (list R * list R) :=
  match k_range with
  | [] => Return ([], [])
  | k :: rest =>
      rbind (KMeans_fit_predict k 42 10 300 coords) (fun kmeans =>
      rbind (silhouette_score coords (snd kmeans)) (fun score =>
      rbind (evaluate_candidates coords rest) (fun acc =>
      Return (inertia_ (fst kmeans) :: fst acc, score :: snd acc))))
  end.

(** The candidates: [range(2, min(max_k + 1, len(self.coordinates_3d)))] *)
Definition k_range (max_k : Z) (coords : Np.ndarray) : list Z :=
  range 2 (Z.min (max_k + 1) (len coords)).

(** The elbow heuristic: largest absolute second difference of the
    inertia curve, or 2 when there are fewer than three inertias. *)
Definition optimal_k_elbow (inertias : list R) : result Z :=
  if 2 <? len inertias
  then rbind (Np.argmax (Np.abs (Np.diff (Np.diff inertias))))
         (fun i => Return (i + 2))
  else Return 2.

(** [determine_optimal_clusters(max_k)] *)
Definition determine_optimal_clusters (max_k : Z) : M World Z :=
  coords <- gets (fun w => coordinates_3d (self w)) ;;
  coords <- lift (need coords) ;;
  scores <- lift (evaluate_candidates coords (k_range max_k coords)) ;;
  _elbow <- lift (optimal_k_elbow (fst scores)) ;;
  best <- lift (Np.argmax (snd scores)) ;;
  let optimal_k_silhouette := best + 2 in
  let optimal_k := optimal_k_silhouette in
  ret optimal_k.

(** [perform_clustering(n_clusters)]; [None] asks for the automatic
    choice. An estimator whose fit raised is not kept in
    [self.kmeans_model]. *)
Definition perform_clustering (n : option Z) : M World (list Z) :=
  n <- match n with
       | None => determine_optimal_clusters 15
       | Some n => ret n
       end ;;
  on_self (set_n_clusters n) ;;;
  reraising (
    k <- gets (fun w => n_clusters (self w)) ;;
    coords <- gets (fun w => coordinates_3d (self w)) ;;
    coords <- lift (need coords) ;;
    fitted <- lift (KMeans_fit_predict k 42 20 300 coords) ;;
    on_self (set_kmeans_model (Some (fst fitted))) ;;;
    on_self (set_cluster_labels (Some (snd fitted))) ;;;
    _silhouette <- lift (silhouette_score coords (snd fitted)) ;;
    _davies_bouldin <- lift (davies_bouldin_score coords (snd fitted)) ;;
    ret (snd fitted)).

(** [[data[i] for i in range(len(data)) if mask[i]]]: position [i] of
    [data] is kept when [mask[i]] holds; a mask shorter than [data] is
    indexed out of bounds. *)
Fixpoint select_masked {A} (data : list A) (mask : list bool)
  : result (list A) :=
  match data, mask with
  | [], _ => Return []
  | _ :: _, [] => Raise (IndexError "index out of bounds")
  | x :: data', b :: mask' =>
      rbind (select_masked data' mask') (fun kept =>
      Return (if b then x :: kept else kept))
  end.

(** The members of a cluster, as [generate_cluster_labels] collects them
    with [cluster_mask = self.cluster_labels == cluster_id]. *)
Definition cluster_persons (data : list PersonData)
  (labels : option (list Z)) (cluster_id : Z) : result (list PersonData) :=
  match labels with
  | Some labels => select_masked data (map (fun l => l =? cluster_id) labels)
  | None =>
      match data with
      | [] => Return []
      | _ :: _ => Raise (TypeError "'bool' object is not subscriptable")
      end
  end.

(** [occupation_counts], in the order in which occupations are first met. *)
Definition count_occupations (persons : list PersonData) : dict string Z :=
  fold_left
    (fun counts person =>
       fold_left
         (fun counts occ =>
            dict_setitem String.eqb counts occ
              (dict_get_default String.eqb counts occ 0 + 1))
         (occupation person) counts)
    persons [].

(** The label of one cluster: its three most frequent occupations, or
    ["Cluster <id>"] when its members carry none. *)
Definition label_of_cluster (cluster_id : Z) (persons : list PersonData)
  : string :=
  match count_occupations persons with
  | [] => "Cluster " ++ str_of_int cluster_id
  | occupation_counts =>
      join ", " (map fst (firstn 3 (sorted_by_value_desc occupation_counts)))
  end.

(** The dictionary [generate_cluster_labels] builds: one entry per id of
    [range(n_clusters)]; the ids are distinct, so every assignment adds an
    entry. *)
Definition cluster_label_map (r : Reducer) : result (dict Z string) :=
  rmap
    (fun cluster_id =>
       rbind (cluster_persons (embeddings_data r) (cluster_labels r) cluster_id)
         (fun persons =>
       Return (cluster_id, label_of_cluster cluster_id persons)))
    (range 0 (n_clusters r)).

(** [generate_cluster_labels] *)
Definition generate_cluster_labels : M World (dict Z string) :=
  w <- get ;;
  lift (cluster_label_map (self w)).

(** [f'PCA({self.pca_components}D) + UMAP(3D)'] *)
Definition reduction_method_string : string :=
  "PCA(" ++ str_of_int pca_components ++ "D) + UMAP(3D)".

(** [enumerate(l)] *)
Definition enumerate {A} (l : list A) : list (nat * A) :=
  combine (seq 0 (List.length l)) l.

(** One record of the loop in [save_coordinates_to_bigquery]. *)
Definition coordinate_record (r : Reducer) (cluster_label_map : dict Z string)
  (created_at : string) (i : nat) (person_data : PersonData)
  : result CoordinateRecord :=
  rbind (need (coordinates_3d r)) (fun coords =>
  rbind (Np.getitem2 coords i 0) (fun x =>
  rbind (Np.getitem2 coords i 1) (fun y =>
  rbind (Np.getitem2 coords i 2) (fun z =>
  rbind (need (cluster_labels r)) (fun labels =>
  rbind (getitem labels i) (fun cluster_id =>
  rbind (dict_getitem Z.eqb cluster_label_map cluster_id) (fun label =>
  Return {| rec_person_id := person_id person_data;
            rec_x := x; rec_y := y; rec_z := z;
            rec_cluster_id := cluster_id;
            rec_cluster_label := label;
            rec_reduction_method := reduction_method_string;
            rec_created_at := created_at |}))))))).

(** One entry of the loop in [save_coordinates_locally]. *)
Definition local_coordinate (r : Reducer) (cluster_label_map : dict Z string)
  (i : nat) (person_data : PersonData) : result LocalCoordinate :=
  rbind (need (cluster_labels r)) (fun labels =>
  rbind (getitem labels i) (fun cluster_id =>
  rbind (need (coordinates_3d r)) (fun coords =>
  rbind (Np.getitem2 coords i 0) (fun x =>
  rbind (Np.getitem2 coords i 1) (fun y =>
  rbind (Np.getitem2 coords i 2) (fun z =>
  rbind (dict_getitem Z.eqb cluster_label_map cluster_id) (fun label =>
  Return {| lc_person_id := person_id person_data;
            lc_name := name person_data;
            lc_occupation := occupation person_data;
            lc_x := x; lc_y := y; lc_z := z;
            lc_cluster_id := cluster_id;
            lc_cluster_label := label |}))))))).

(** The ['coordinates'] of the local file: one entry per entry of
    [self.embeddings_data]. *)
Definition local_coordinates (r : Reducer) (cluster_label_map : dict Z string)
  : result (list LocalCoordinate) :=
  rmap (fun ip => local_coordinate r cluster_label_map (fst ip) (snd ip))
    (enumerate (embeddings_data r)).

(** The ['metadata'] of the local file. *)
Definition local_metadata (r : Reducer) (pca : PCAModel) : Metadata :=
  {| num_persons := len (embeddings_data r);
     num_clusters := n_clusters r;
     reduction_method := reduction_method_string;
     pca_explained_variance := Np.sum (explained_variance_ratio_ pca);
     umap_params := (umap_n_neighbors, umap_min_dist, umap_metric);
     timestamp := utcnow_isoformat |}.

(** [save_coordinates_locally]: [self] never gets a [cluster_label_map]
    attribute, so the labels are generated again; the file is rewritten as
    a whole. *)
Definition save_coordinates_locally : M World unit :=
  cluster_label_map <- generate_cluster_labels ;;
  w <- get ;;
  pca <- lift (match pca_model (self w) with
               | Some pca => Return pca
               | None => Raise (AttributeError "explained_variance_ratio_")
               end) ;;
  coords <- lift (local_coordinates (self w) cluster_label_map) ;;
  on_store (set_file_coordinates
              (Some {| metadata := local_metadata (self w) pca;
                       ld_cluster_labels := cluster_label_map;
                       coordinates := coords |})) ;;;
  on_self (set_coordinates_saved_locally true).

(** The records [save_coordinates_to_bigquery] prepares: one per entry of
    [self.embeddings_data]. *)
Definition prepare_records (r : Reducer) (cluster_label_map : dict Z string)
  : result (list CoordinateRecord) :=
  rmap (fun ip => coordinate_record r cluster_label_map utcnow_isoformat
                    (fst ip) (snd ip))
    (enumerate (embeddings_data r)).

(** [save_coordinates_to_bigquery]. The table is written only when it is
    empty: with rows of an earlier run in it the insert is skipped and the
    new coordinates go to the local file alone. [insert_rows_json] adds all
    the rows when it reports no error and none otherwise. *)
Definition save_coordinates_to_bigquery : M World Z :=
  cluster_label_map <- generate_cluster_labels ;;
  w <- get ;;
  records <- lift (prepare_records (self w) cluster_label_map) ;;
  reraising (
    row_count <- gets (fun w => len (table_coordinates_3d (store w))) ;;
    if 0 <? row_count then
      save_coordinates_locally ;;;
      on_self (set_coordinates_saved_locally true) ;;;
      ret row_count
    else
      match insert_errors records with
      | _ :: _ => ret 0
      | [] =>
          on_store (fun s => set_table (table_coordinates_3d s ++ records) s) ;;;
          ret (len records)
      end).

(** [save_models] *)
Definition save_models : M World unit :=
  reraising (
    w <- get ;;
    on_store (set_file_pca (Some (pca_model (self w)))) ;;;
    on_store (set_file_umap (Some (umap_model (self w))))).

(** [visualize_3d_clusters]: only the success of the plot is kept. *)
Definition visualize_3d_clusters : M World unit :=
  w <- get ;;
  coords <- lift (need (coordinates_3d (self w))) ;;
  labels <- lift (need (cluster_labels (self w))) ;;
  lift (savefig coords labels (n_clusters (self w))) ;;;
  on_store (set_file_png true).

(** [run_full_pipeline(n_clusters)] *)
Definition run_full_pipeline (n : option Z) : M World unit :=
  num_embeddings <- load_embeddings_from_bigquery ;;
  if num_embeddings =? 0 then
    ret tt
  else
    apply_pca ;;;
    apply_umap ;;;
    perform_clustering n ;;;
    num_inserted <- save_coordinates_to_bigquery ;;
    saved <- gets (fun w => coordinates_saved_locally (self w)) ;;
    (if (num_inserted =? 0) || negb saved
     then save_coordinates_locally else ret tt) ;;;
    save_models ;;;
    visualize_3d_clusters ;;;
    ret tt.

(** [main()] with [--clusters] parsed: the exit status of the process and
    the store it leaves. *)
Definition main (clusters : Z) (s : Store) : Z * Store :=
  let n := if clusters =? 0 then None else Some clusters in
  match run_full_pipeline n {| self := init; store := s |} with
  | (Return _, w) => (0, store w)
  | (Raise _, w) => (1, store w)
  end.

End Pipeline.
End DimReduction.

(** ** backend/main.py *)

Module Main.

Local Open Scope string_scope.
Local Open Scope py_scope.

(** [models.Coordinate3D] *)
Record Coordinate3D : Type := mkCoordinate3D { x : R; y : R; z : R }.

(** A cluster as [db.get_clusters_info()] returns it. *)
Record ClusterInfo : Type := mkClusterInfo {
  cluster_id : Z;
  cluster_label : string;
  person_count : Z;
  top_occupations : list string;
  avg_coordinates : Coordinate3D
}.

(** The entries of a person that the embedding endpoint reads from
    [db.get_person_by_id()]. *)
Record Person : Type := mkPerson {
  p_person_id : string;
  p_name : string;
  p_description : option string;
  p_occupation : list string;
  p_cluster_id : option Z;
  p_cluster_label : option string
}.

(** [models.SimilarPerson] *)
Record SimilarPerson : Type := mkSimilarPerson {
  sp_person_id : string;
  sp_name : string;
  sp_description : option string;
  sp_occupation : list string;
  sp_distance : R;
  sp_similarity_score : R;
  sp_cluster_id : option Z;
  sp_cluster_label : option string
}.

(** [models.UserEmbeddingRequest]; an event is what [event.dict()] gives. *)
Record UserEmbeddingRequest : Type := mkUserEmbeddingRequest {
  life_events : list (dict string string);
  name : option string;
  description : option string
}.

(** [models.UserEmbeddingResponse] *)
Record UserEmbeddingResponse : Type := mkUserEmbeddingResponse {
  user_coordinates : Coordinate3D;
  nearest_cluster : ClusterInfo;
  similar_persons : list SimilarPerson;
  narrative_text : string;
  embedding_dimension : Z;
  processing_time_ms : R
}.

(** The narrative builder, the embedding provider, the record lookups and
    the clock: outside the core, each a call that returns or raises. *)
Class Collaborators : Type := {
  create_narrative_from_events :
    list (dict string string) -> option string -> option string -> result string;
  generate_embedding : string -> result (list R);
  get_clusters_info : result (list ClusterInfo);
  get_all_coordinates : result (list string * list Coordinate3D);
  get_person_by_id : string -> result (option Person);
  (** [(time.time() - start_time) * 1000] *)
  elapsed_ms : R
}.

Local Open Scope R_scope.

(** [max(a, b)] of Python: [a] unless [b] is greater. *)
Definition py_max (a b : R) : R := if Rlt_dec a b then b else a.

(** [max_distance = 20.0] *)
Definition max_distance : R := 20.

(** [similarity_score = max(0.0, 1.0 - (distance / max_distance))] *)
Definition similarity_score (distance : R) : R :=
  py_max 0 (1 - distance / max_distance).

(** The required length of a query vector ([config.EMBEDDING_DIMENSION]). *)
Definition EMBEDDING_DIMENSION : nat := 768.

(** Modelled from the spec: the Euclidean distance of the Similarity
    Engine ([embeddings.py] is not among the sources). *)
Definition euclidean (p q : Coordinate3D) : R :=
  sqrt ((x p - x q) * (x p - x q) + (y p - y q) * (y p - y q)
        + (z p - z q) * (z p - z q)).

(** Modelled from the spec: the order of the results of [top_k_similar]
    ([embeddings.py] is not among the sources), by distance, then by id. *)
Definition entry_leb (a b : string * R) : bool :=
  if Rlt_dec (snd a) (snd b) then true
  else if Rlt_dec (snd b) (snd a) then false
  else String.leb (fst a) (fst b).

Definition entry_le (a b : string * R) : Prop := entry_leb a b = true.

(** Modelled from the spec: the ascending sort of [top_k_similar]
    ([embeddings.py] is not among the sources), by insertion. *)
Fixpoint insert_entry (e : string * R) (l : list (string * R))
  : list (string * R) :=
  match l with
  | [] => [e]
  | h :: t => if entry_leb e h then e :: h :: t else h :: insert_entry e t
  end.

Definition sort_entries (l : list (string * R)) : list (string * R) :=
  fold_right insert_entry [] l.

(** Modelled from the spec: [top_k_similar] of the Similarity Engine, whose
    code ([embeddings.py]) is not among the sources. The (id, distance)
    pairs of the corpus in ascending Euclidean distance, ties by ascending
    id, cut to the first [k]. *)
Definition top_k_similar (point : Coordinate3D)
  (corpus_points : list (string * Coordinate3D)) (k : nat)
  : list (string * R) :=
  firstn k (sort_entries
              (map (fun ic => (fst ic, euclidean point (snd ic))) corpus_points)).

(** Of two clusters the one whose centroid is nearer to [point]; at the
    same distance the lower id. *)
Definition closer (point : Coordinate3D) (a b : ClusterInfo) : ClusterInfo :=
  let da := euclidean point (avg_coordinates a) in
  let db := euclidean point (avg_coordinates b) in
  if Rlt_dec da db then a
  else if Rlt_dec db da then b
  else if (cluster_id a <=? cluster_id b)%Z then a else b.

(** Modelled from the spec: [nearest_cluster] of the Similarity Engine
    ([find_nearest_cluster] in [main.py]; its body is in [embeddings.py],
    not among the sources). The cluster whose centroid is nearest; of two
    at the same distance the lower id wins. The spec is silent on a model
    without clusters: an error here. *)
Definition find_nearest_cluster (point : Coordinate3D)
  (clusters : list ClusterInfo) : result ClusterInfo :=
  match clusters with
  | [] => Raise (ValueError "no clusters")
  | c :: rest => Return (fold_left (closer point) rest c)
  end.

Section Service.
Context {L : Library} {C : Collaborators}.

(** Modelled from the spec: the Projection Service ([EmbeddingService] in
    [embeddings.py], not among the sources); [main.py] reads its
    [pca_model] attribute. Unready: no model. *)
Record EmbeddingService : Type := mkEmbeddingService {
  pca_model : option PCAModel;
  umap_model : option UMAPModel
}.

(** Modelled from the spec: the explicit load operation, Unready to Ready. *)
Definition load_reduction_models (pca : option PCAModel)
  (umap : option UMAPModel) (_ : EmbeddingService) : EmbeddingService :=
  {| pca_model := pca; umap_model := umap |}.

(** Modelled from the spec: stage 1 of [transform], the affine projection
    of a vector on the basis after removal of the mean. *)
Definition dot (u v : list R) : R :=
  Np.sum (map (fun ab => fst ab * snd ab) (combine u v)).

Definition pca_transform (pca : PCAModel) (v : list R) : list R :=
  let centred := map (fun ab => fst ab - snd ab) (combine v (mean_ pca)) in
  map (dot centred) (components_ pca).

(** Modelled from the spec: [ReductionModel.transform], stage 1 then the
    inference mapping of stage 2. *)
Definition transform (pca : PCAModel) (umap : UMAPModel) (v : list R)
  : result Coordinate3D :=
  rbind (UMAP_transform umap [pca_transform pca v]) (fun out =>
  rbind (Np.getitem2 out 0 0) (fun cx =>
  rbind (Np.getitem2 out 0 1) (fun cy =>
  rbind (Np.getitem2 out 0 2) (fun cz =>
  Return {| x := cx; y := cy; z := cz |})))).

(** Modelled from the spec: [project] ([project_to_3d] in [main.py]; its
    body is in [embeddings.py]). Unready: [ModelUnavailableError]; a
    vector whose length is not 768: [DimensionMismatchError]; otherwise
    the loaded model's [transform]. *)
Definition project_to_3d (svc : EmbeddingService) (v : list R)
  : result Coordinate3D :=
  match pca_model svc, umap_model svc with
  | Some pca, Some umap =>
      if Nat.eqb (List.length v) EMBEDDING_DIMENSION
      then transform pca umap v
      else Raise (DimensionMismatchError "expected a vector of length 768")
  | _, _ => Raise (ModelUnavailableError "no reduction model loaded")
  end.

(** Modelled from the spec: [find_similar_persons(point, ids, coordinates,
    top_k)], whose body is in [embeddings.py], not among the sources;
    [main.py] passes the ids and their coordinates as two sequences, and
    the spec's [top_k_similar] is applied to the mapping they form. *)
Definition find_similar_persons (point : Coordinate3D) (ids : list string)
  (coords : list Coordinate3D) (top_k : nat) : list (string * R) :=
  top_k_similar point (combine ids coords) top_k.

(** The module globals and the service object. *)
Record App : Type := mkApp {
  _models_loaded : bool;
  _pca_model : option PCAModel;
  _umap_model : option UMAPModel;
  embedding_service : EmbeddingService
}.

(** The state of the module once imported. *)
Definition initial : App :=
  {| _models_loaded := false; _pca_model := None; _umap_model := None;
     embedding_service := {| pca_model := None; umap_model := None |} |}.

(** The two pickle files at startup: absent, or present with what
    [pickle.load] makes of them. *)
Record Files : Type := mkFiles {
  pca_model_pkl : option (result (option PCAModel));
  umap_model_pkl : option (result (option UMAPModel))
}.

Definition set_models_loaded v (a : App) : App :=
  mkApp v (_pca_model a) (_umap_model a) (embedding_service a).
Definition set_pca_model v (a : App) : App :=
  mkApp (_models_loaded a) v (_umap_model a) (embedding_service a).
Definition set_umap_model v (a : App) : App :=
  mkApp (_models_loaded a) (_pca_model a) v (embedding_service a).
Definition set_embedding_service v (a : App) : App :=
  mkApp (_models_loaded a) (_pca_model a) (_umap_model a) v.

(** [startup_event]: an exception while loading is caught and reported;
    the handler returns in every case. *)
Definition startup_event (fs : Files) : M App unit :=
  match pca_model_pkl fs, umap_model_pkl fs with
  | Some load_pca, Some load_umap =>
      try_except (
        pca <- lift load_pca ;;
        modify (set_pca_model pca) ;;;
        umap <- lift load_umap ;;
        modify (set_umap_model umap) ;;;
        modify (fun a => set_embedding_service
                           (load_reduction_models pca umap (embedding_service a)) a) ;;;
        modify (set_models_loaded true))
        (fun _ => ret tt)
  | _, _ => ret tt
  end.

(** The loop over [similar_persons_data]: persons the lookup does not find
    are skipped. *)
Fixpoint similar_persons_of (data : list (string * R))
  : result (list SimilarPerson) :=
  match data with
  | [] => Return []
  | (pid, d) :: rest =>
      rbind (get_person_by_id pid) (fun person =>
      rbind (similar_persons_of rest) (fun others =>
      match person with
      | Some person =>
          Return ({| sp_person_id := p_person_id person;
                     sp_name := p_name person;
                     sp_description := p_description person;
                     sp_occupation := p_occupation person;
                     sp_distance := d;
                     sp_similarity_score := similarity_score d;
                     sp_cluster_id := p_cluster_id person;
                     sp_cluster_label := p_cluster_label person |} :: others)
      | None => Return others
      end))
  end.

(** The [try] block of [generate_user_embedding]. *)
Definition generate_user_embedding_body (request : UserEmbeddingRequest)
  : M App UserEmbeddingResponse :=
  narrative <- lift (create_narrative_from_events (life_events request)
                       (name request) (description request)) ;;
  embedding_768d <- lift (generate_embedding narrative) ;;
  svc <- gets embedding_service ;;
  match pca_model svc with
  | None =>
      raise (HTTPException 503
               "PCA/UMAP models not available. Run dim_reduction.py first.")
  | Some _ =>
      coordinates_3d <- lift (project_to_3d svc embedding_768d) ;;
      clusters <- lift get_clusters_info ;;
      nearest <- lift (find_nearest_cluster coordinates_3d clusters) ;;
      all <- lift get_all_coordinates ;;
      let similar_persons_data :=
        find_similar_persons coordinates_3d (fst all) (snd all) 10 in
      similar <- lift (similar_persons_of similar_persons_data) ;;
      ret {| user_coordinates := coordinates_3d;
             nearest_cluster := nearest;
             similar_persons := similar;
             narrative_text := narrative;
             embedding_dimension := 768;
             processing_time_ms := elapsed_ms |}
  end.

(** [generate_user_embedding(request)]: the handler of
    [POST /api/v1/generate-embedding]. *)
Definition generate_user_embedding (request : UserEmbeddingRequest)
  : M App UserEmbeddingResponse :=
  loaded <- gets _models_loaded ;;
  if negb loaded then
    raise (HTTPException 503
             "Reduction models not loaded. Cannot generate user embeddings.")
  else
    try_except (generate_user_embedding_body request)
      (fun e =>
         if is_HTTPException e then raise e
         else raise (HTTPException 500
                       ("Error generating embedding: " ++ str e))).

(** What the caller of the endpoint receives. The framework turns an
    [HTTPException] into a response carrying its status code and detail,
    and goes on serving. *)
Inductive HTTPResponse : Type :=
| OK (body : UserEmbeddingResponse)
| Failed (status_code : Z) (detail : string).

Definition respond (request : UserEmbeddingRequest) (app : App)
  : HTTPResponse * App :=
  match generate_user_embedding request app with
  | (Return body, app') => (OK body, app')
  | (Raise (HTTPException status detail), app') => (Failed status detail, app')
  | (Raise _, app') => (Failed 500 "Internal server error", app')
  end.

(** A sequence of queries served one after the other. *)
Fixpoint serve (requests : list UserEmbeddingRequest) (app : App)
  : list HTTPResponse * App :=
  match requests with
  | [] => ([], app)
  | request :: rest =>
      let (response, app') := respond request app in
      let (responses, app'') := serve rest app' in
      (response :: responses, app'')
  end.

(** A computation that leaves the globals and the service as it found
    them. *)
Definition read_only {A} (c : M App A) : Prop :=
  forall s, snd (c s) = s.

(** A load that does not go through: a file is missing or [pickle.load]
    raises. *)
Definition load_fails (fs : Files) : bool :=
  match pca_model_pkl fs, umap_model_pkl fs with
  | Some (Return _), Some (Return _) => false
  | _, _ => true
  end.

End Service.
End Main.

(** ** A small concrete setting

    Stand-ins for the collaborators, used to run the model on concrete
    inputs: the stage-1 and stage-2 fits keep the leading columns, k-means
    deals the points round the clusters in turn. *)

Module Toy.

Local Open Scope string_scope.

Definition library : Library :=
  {| UMAPModel := unit;
     KMeansModel := R;
     PCA_fit_transform := fun n _ X =>
       Return (mkPCA [] [] [], map (firstn (Z.to_nat n)) X);
     UMAP_fit_transform := fun n _ _ _ _ X =>
       Return (tt, map (firstn (Z.to_nat n)) X);
     UMAP_transform := fun _ X => Return (map (firstn 3) X);
     KMeans_fit_predict := fun k _ _ _ X =>
       Return (0%R, map (fun i => (Z.of_nat i mod k)%Z) (seq 0 (List.length X)));
     inertia_ := fun m => m;
     silhouette_score := fun _ _ => Return 0%R;
     davies_bouldin_score := fun _ _ => Return 0%R;
     savefig := fun _ _ _ => Return tt |}.

Definition bigquery (rows : list Row) : BigQuery :=
  {| query_embeddings := Return rows;
     insert_errors := fun _ => [];
     utcnow_isoformat := "2025-10-22T00:00:00" |}.

Definition row (id : string) (v : list R) : Row :=
  {| row_person_id := id; row_embedding_vector := v;
     row_embedding_model := "text-embedding-004"; row_embedding_dim := 768;
     row_name := id; row_description := ""; row_occupation := [] |}.

(** A corpus of three persons whose vectors have 767 components. *)
Definition short_vector : list R := repeat 0%R 767.
Definition corpus : list Row :=
  [row "Q1" short_vector; row "Q2" short_vector; row "Q3" short_vector].

(** A record left in the table by an earlier run. *)
Definition earlier_record : CoordinateRecord :=
  {| rec_person_id := "Q0"; rec_x := 1%R; rec_y := 1%R; rec_z := 1%R;
     rec_cluster_id := 0; rec_cluster_label := "Cluster 0";
     rec_reduction_method := "PCA(50D) + UMAP(3D)";
     rec_created_at := "2025-10-21T00:00:00" |}.

Definition empty_store : DimReduction.Store (L := library) :=
  DimReduction.mkStore (L := library) [] None None None false.

Definition used_store : DimReduction.Store (L := library) :=
  DimReduction.mkStore (L := library) [earlier_record] None None None false.

Definition start (s : DimReduction.Store (L := library))
  : DimReduction.World (L := library) :=
  {| DimReduction.self := DimReduction.init; DimReduction.store := s |}.

(** Two coordinates: too few for the automatic choice of the cluster
    count. *)
Definition two_points : Np.ndarray := [[0; 0; 0]; [1; 0; 0]]%R.
Definition three_points : Np.ndarray := [[0; 0; 0]; [1; 0; 0]; [0; 1; 0]]%R.

Definition with_coordinates (coords : Np.ndarray)
  : DimReduction.World (L := library) :=
  {| DimReduction.self :=
       DimReduction.set_coordinates_3d (Some coords) DimReduction.init;
     DimReduction.store := empty_store |}.

(** Collaborators of the backend whose provider returns the vector [v]. *)
Definition collaborators (v : list R) : Main.Collaborators :=
  {| Main.create_narrative_from_events := fun _ _ _ => Return "narrative";
     Main.generate_embedding := fun _ => Return v;
     Main.get_clusters_info := Return [];
     Main.get_all_coordinates := Return ([], []);
     Main.get_person_by_id := fun _ => Return None;
     Main.elapsed_ms := 0%R |}.

Definition request : Main.UserEmbeddingRequest :=
  {| Main.life_events := []; Main.name := None; Main.description := None |}.

(** A service in state Ready. *)
Definition ready : Main.App (L := library) :=
  Main.mkApp (L := library) true (Some (mkPCA [] [] [])) (Some tt)
    (Main.mkEmbeddingService (L := library) (Some (mkPCA [] [] [])) (Some tt)).

(** Files of which the second cannot be unpickled. *)
Definition broken_files : Main.Files (L := library) :=
  Main.mkFiles (L := library)
    (Some (Return (Some (mkPCA [] [] []))))
    (Some (Raise (ExternalError "unpickling failed"))).

End Toy.

(** ** What a training step may do to the coordinate table *)

Module Invariants.
Section Table.
Context {L : Library}.

(** A step that leaves a table holding rows as it is, and in any case
    keeps the rows it finds, in place, before those it adds. *)
Definition keeps_rows {A} (c : M DimReduction.World A) : Prop :=
  forall w,
    (DimReduction.table_coordinates_3d (DimReduction.store w) <> [] ->
     DimReduction.table_coordinates_3d (DimReduction.store (snd (c w))) =
     DimReduction.table_coordinates_3d (DimReduction.store w))
    /\ exists added,
         DimReduction.table_coordinates_3d (DimReduction.store (snd (c w))) =
         DimReduction.table_coordinates_3d (DimReduction.store w) ++ added.

End Table.
End Invariants.

(** ** backend/main.py: the record endpoints *)

Module Api.

Local Open Scope string_scope.
Local Open Scope Z_scope.

(** [l[a:b]] of Python: an index below zero counts from the end, and both
    ends are cut to the sequence. *)
Definition clamp (n i : Z) : Z :=
  if i <? 0 then Z.max 0 (i + n) else Z.min i n.

Definition slice {A} (l : list A) (a b : Z) : list A :=
  let lo := clamp (len l) a in
  let hi := clamp (len l) b in
  firstn (Z.to_nat (hi - lo)) (skipn (Z.to_nat lo) l).

(** A person as the listing lookups return it; an entry read with
    [p.get(...)] may be missing. *)
Record PersonRow : Type := mkPersonRow {
  person_id : string;
  name : string;
  description : option string;
  occupation : option (list string);
  cluster_id : option Z;
  cluster_label : option string;
  coordinates : option Main.Coordinate3D
}.

(** [models.PersonSummary] *)
Record PersonSummary : Type := mkPersonSummary {
  ps_person_id : string;
  ps_name : string;
  ps_description : option string;
  ps_occupation : list string;
  ps_cluster_id : option Z;
  ps_cluster_label : option string;
  ps_coordinates : option Main.Coordinate3D
}.

(** A person as [db.get_person_by_id] returns it to the person endpoint.
    The types of the values are those of [models.py], which is not among
    the sources: strings and integers here. *)
Record PersonDetailRow : Type := mkPersonDetailRow {
  d_person_id : string;
  d_wikidata_id : string;
  d_name : string;
  d_description : option string;
  d_occupation : option (list string);
  d_field_of_work : option (list string);
  d_birth_date : option string;
  d_death_date : option string;
  d_birth_place : option string;
  d_death_place : option string;
  d_coordinates : option Main.Coordinate3D;
  d_cluster_id : option Z;
  d_cluster_label : option string;
  d_total_events : Z;
  d_event_types : list string
}.

(** [models.PersonDetail] *)
Record PersonDetail : Type := mkPersonDetail {
  pd_person_id : string;
  pd_wikidata_id : string;
  pd_name : string;
  pd_description : option string;
  pd_occupation : list string;
  pd_field_of_work : list string;
  pd_birth_date : option string;
  pd_death_date : option string;
  pd_birth_place : option string;
  pd_death_place : option string;
  pd_coordinates : option Main.Coordinate3D;
  pd_cluster_id : option Z;
  pd_cluster_label : option string;
  pd_total_events : Z;
  pd_event_types : list string
}.

(** The [metadata] of [models.VisualizationData]. *)
Record VisualizationMetadata : Type := mkVisualizationMetadata {
  total_persons : Z;
  num_clusters : Z;
  reduction_method : string;
  vm_timestamp : string
}.

(** [models.HealthResponse] *)
Record HealthResponse : Type := mkHealthResponse {
  status : string;
  timestamp : string;
  version : string;
  services : dict string string
}.

(** The lookups of [database.py] that the record endpoints call, and the
    clock. [get_all_persons] takes the limit and, when given, the offset.
    A row of [get_visualization_data] has the entries of
    [models.VisualizationPerson] and is passed on as it is. *)
Class Database : Type := {
  VisualizationPerson : Type;
  get_all_persons : Z -> option Z -> result (list PersonRow);
  get_persons_by_cluster : Z -> result (list PersonRow);
  get_person_by_id : string -> result (option PersonDetailRow);
  get_visualization_data : result (list VisualizationPerson);
  (** [datetime.utcnow()] *)
  utcnow : string
}.

(** [p.get(key, [])] *)
Definition get_or_empty {A} (o : option (list A)) : list A :=
  match o with Some l => l | None => [] end.

(** The [PersonSummary(...)] built from a row. *)
Definition person_summary (p : PersonRow) : PersonSummary :=
  {| ps_person_id := person_id p;
     ps_name := name p;
     ps_description := description p;
     ps_occupation := get_or_empty (occupation p);
     ps_cluster_id := cluster_id p;
     ps_cluster_label := cluster_label p;
     ps_coordinates := coordinates p |}.

(** The [PersonDetail(...)] built from a row. *)
Definition person_detail (person : PersonDetailRow) : PersonDetail :=
  {| pd_person_id := d_person_id person;
     pd_wikidata_id := d_wikidata_id person;
     pd_name := d_name person;
     pd_description := d_description person;
     pd_occupation := get_or_empty (d_occupation person);
     pd_field_of_work := get_or_empty (d_field_of_work person);
     pd_birth_date := d_birth_date person;
     pd_death_date := d_death_date person;
     pd_birth_place := d_birth_place person;
     pd_death_place := d_death_place person;
     pd_coordinates := d_coordinates person;
     pd_cluster_id := d_cluster_id person;
     pd_cluster_label := d_cluster_label person;
     pd_total_events := d_total_events person;
     pd_event_types := d_event_types person |}.

(** [try: r  except Exception as e: raise HTTPException(500, prefix + str(e))] *)
Definition or_500 {A} (prefix : string) (r : result A) : result A :=
  match r with
  | Return a => Return a
  | Raise e => Raise (HTTPException 500 (prefix ++ str e))
  end.

(** The same with [except HTTPException: raise] before. *)
Definition or_500_keeping_http {A} (prefix : string) (r : result A)
  : result A :=
  match r with
  | Return a => Return a
  | Raise e =>
      if is_HTTPException e then Raise e
      else Raise (HTTPException 500 (prefix ++ str e))
  end.

Section Endpoints.
Context {L : Library} {C : Main.Collaborators} {D : Database}.

(** [health_check]: a failure of the lookup is reported in the entry for
    BigQuery, and the response is returned all the same. *)
Definition health_check (app : Main.App) : HealthResponse :=
  let bigquery_status :=
    match get_all_persons 1 None with
    | Return _ => "healthy"
    | Raise e => "unhealthy: " ++ str e
    end in
  {| status := "healthy";
     timestamp := utcnow;
     version := "1.0.0";
     services :=
       [("bigquery", bigquery_status);
        ("vertex_ai", "configured");
        ("reduction_models",
         if Main._models_loaded app then "loaded" else "not loaded")] |}.

(** [get_persons(limit, offset, cluster_id)] *)
Definition get_persons (limit offset : Z) (cluster : option Z)
  : result (list PersonSummary) :=
  or_500 "Error fetching persons: "
    (rbind
       (match cluster with
        | Some c =>
            rbind (get_persons_by_cluster c) (fun persons =>
            Return (slice persons offset (offset + limit)))
        | None => get_all_persons limit (Some offset)
        end)
       (fun persons => Return (map person_summary persons))).

(** [get_person(person_id)] *)
Definition get_person (id : string) : result PersonDetail :=
  or_500_keeping_http "Error fetching person: "
    (rbind (get_person_by_id id) (fun person =>
     match person with
     | None => Raise (HTTPException 404 ("Person " ++ id ++ " not found"))
     | Some person => Return (person_detail person)
     end)).

(** [get_visualization_data()] *)
Definition get_visualization_data_endpoint
  : result (list VisualizationPerson * VisualizationMetadata) :=
  or_500 "Error fetching visualization data: "
    (rbind get_visualization_data (fun persons =>
     rbind Main.get_clusters_info (fun clusters =>
     Return (persons,
             {| total_persons := len persons;
                num_clusters := len clusters;
                reduction_method := "PCA(50D) + UMAP(3D)";
                vm_timestamp := utcnow |})))).

(** [get_clusters()] *)
Definition get_clusters : result (list Main.ClusterInfo) :=
  or_500 "Error fetching clusters: "
    (rbind Main.get_clusters_info (fun clusters => Return clusters)).

(** [next((c for c in clusters if c['cluster_id'] == cluster_id), None)] *)
Definition first_with_id (clusters : list Main.ClusterInfo) (id : Z)
  : option Main.ClusterInfo :=
  find (fun c => Main.cluster_id c =? id) clusters.

(** [get_cluster(cluster_id)] *)
Definition get_cluster (id : Z) : result Main.ClusterInfo :=
  or_500_keeping_http "Error fetching cluster: "
    (rbind Main.get_clusters_info (fun clusters =>
     match first_with_id clusters id with
     | None =>
         Raise (HTTPException 404 ("Cluster " ++ str_of_int id ++ " not found"))
     | Some cluster => Return cluster
     end)).

End Endpoints.
End Api.

(** ** Further concrete settings *)

Module Samples.

Local Open Scope string_scope.
Local Open Scope Z_scope.

(** scikit-learn on a corpus of fewer persons than components: the
    stage-1 fit raises. *)
Definition few_samples_library : Library :=
  {| UMAPModel := unit;
     KMeansModel := R;
     PCA_fit_transform := fun _ _ _ =>
       Raise (ValueError "n_components=50 must be between 0 and min(n_samples, n_features)");
     UMAP_fit_transform := fun n _ _ _ _ X =>
       Return (tt, map (firstn (Z.to_nat n)) X);
     UMAP_transform := fun _ X => Return (map (firstn 3) X);
     KMeans_fit_predict := fun k _ _ _ X =>
       Return (0%R, map (fun i => Z.of_nat i mod k) (seq 0 (List.length X)));
     inertia_ := fun m => m;
     silhouette_score := fun _ _ => Return 0%R;
     davies_bouldin_score := fun _ _ => Return 0%R;
     savefig := fun _ _ _ => Return tt |}.

(** The stand-in library on a machine where the figure cannot be
    written. *)
Definition no_figure_library : Library :=
  {| UMAPModel := unit;
     KMeansModel := R;
     PCA_fit_transform := fun n _ X =>
       Return (mkPCA [] [] [], map (firstn (Z.to_nat n)) X);
     UMAP_fit_transform := fun n _ _ _ _ X =>
       Return (tt, map (firstn (Z.to_nat n)) X);
     UMAP_transform := fun _ X => Return (map (firstn 3) X);
     KMeans_fit_predict := fun k _ _ _ X =>
       Return (0%R, map (fun i => Z.of_nat i mod k) (seq 0 (List.length X)));
     inertia_ := fun m => m;
     silhouette_score := fun _ _ => Return 0%R;
     davies_bouldin_score := fun _ _ => Return 0%R;
     savefig := fun _ _ _ => Raise (ExternalError "cannot write the figure") |}.

Definition no_figure_store : DimReduction.Store (L := no_figure_library) :=
  DimReduction.mkStore (L := no_figure_library) [] None None None false.

Definition few_samples_store : DimReduction.Store (L := few_samples_library) :=
  DimReduction.mkStore (L := few_samples_library) [] None None None false.

(** A corpus of two persons. *)
Definition two_rows : list Row :=
  [Toy.row "Q1" Toy.short_vector; Toy.row "Q2" Toy.short_vector].

(** Members of a cluster, with their occupations. *)
Definition members : list DimReduction.PersonData :=
  [DimReduction.mkPersonData "Q1" "A" "" ["poet"; "physicist"] "m" 768;
   DimReduction.mkPersonData "Q2" "B" "" ["physicist"; "chemist"] "m" 768;
   DimReduction.mkPersonData "Q3" "C" "" ["chemist"; "painter"] "m" 768].

Definition idle_members : list DimReduction.PersonData :=
  [DimReduction.mkPersonData "Q4" "D" "" [] "m" 768].

(** A reducer after clustering two persons into two clusters. *)
Definition clustered : DimReduction.Reducer (L := Toy.library) :=
  DimReduction.mkReducer (L := Toy.library)
    (Some (mkPCA [] [] [])) (Some tt) 2 (Some 0%R)
    [DimReduction.mkPersonData "Q1" "A" "" [] "m" 768;
     DimReduction.mkPersonData "Q2" "B" "" [] "m" 768]
    None None (Some [[0; 0; 0]; [1; 2; 3]]%R) (Some [0; 1]) false.

Definition two_labels : dict Z string := [(0, "Cluster 0"); (1, "Cluster 1")].

(** Files that unpickle, and files of which the first holds [None]. *)
Definition good_files : Main.Files (L := Toy.library) :=
  Main.mkFiles (L := Toy.library)
    (Some (Return (Some (mkPCA [] [] [])))) (Some (Return (Some tt))).

Definition none_files : Main.Files (L := Toy.library) :=
  Main.mkFiles (L := Toy.library)
    (Some (Return None)) (Some (Return (Some tt))).

Definition cluster0 : Main.ClusterInfo :=
  Main.mkClusterInfo 0 "physicist" 2 ["physicist"] (Main.mkCoordinate3D 0 0 0).
Definition cluster1 : Main.ClusterInfo :=
  Main.mkClusterInfo 1 "poet" 1 ["poet"] (Main.mkCoordinate3D 5 5 5).

(** Collaborators of the backend that know two clusters and the person
    Q1. *)
Definition collaborators : Main.Collaborators :=
  {| Main.create_narrative_from_events := fun _ _ _ => Return "narrative";
     Main.generate_embedding := fun _ => Return Toy.short_vector;
     Main.get_clusters_info := Return [cluster0; cluster1];
     Main.get_all_coordinates := Return (["Q1"], [Main.mkCoordinate3D 0 0 0]);
     Main.get_person_by_id := fun id =>
       if String.eqb id "Q1"
       then Return (Some (Main.mkPerson "Q1" "A" None ["poet"] (Some 0)
                            (Some "physicist")))
       else Return None;
     Main.elapsed_ms := 0%R |}.


Definition person_row (id : string) : Api.PersonRow :=
  Api.mkPersonRow id id None None (Some 1) (Some "poet") None.

(** A lookup layer with three persons in every cluster. *)
Definition database : Api.Database :=
  {| Api.VisualizationPerson := string;
     Api.get_all_persons := fun _ _ => Raise (ExternalError "BigQuery is down");
     Api.get_persons_by_cluster := fun _ =>
       Return [person_row "Q1"; person_row "Q2"; person_row "Q3"];
     Api.get_person_by_id := fun _ => Return None;
     Api.get_visualization_data := Return [];
     Api.utcnow := "2025-10-22T00:00:00" |}.

End Samples.

(** * Properties *)

(** ** Concrete evaluations *)

Section Evaluations.
Import DimReduction.
Local Open Scope Z_scope.
Local Open Scope string_scope.

Example range_2_5 : range 2 5 = [2; 3; 4].
Proof. reflexivity. Qed.

Example k_range_of_three_points : k_range 15 Toy.three_points = [2].
Proof. reflexivity. Qed.

Example k_range_of_a_large_corpus :
  k_range 15 (repeat [] 100) = [2; 3; 4; 5; 6; 7; 8; 9; 10; 11; 12; 13; 14; 15].
Proof. reflexivity. Qed.

Example sorted_by_value_desc_is_stable :
  sorted_by_value_desc [("a", 1); ("b", 2); ("c", 2); ("d", 1)]
  = [("b", 2); ("c", 2); ("a", 1); ("d", 1)].
Proof. reflexivity. Qed.

Example label_of_three_occupations :
  label_of_cluster 0
    [mkPersonData "Q1" "A" "" ["poet"; "physicist"] "m" 768;
     mkPersonData "Q2" "B" "" ["physicist"; "chemist"] "m" 768;
     mkPersonData "Q3" "C" "" ["chemist"; "painter"] "m" 768]
  = "physicist, chemist, poet".
Proof. reflexivity. Qed.

Example label_without_occupations :
  label_of_cluster 3 [mkPersonData "Q1" "A" "" [] "m" 768] = "Cluster 3".
Proof. reflexivity. Qed.

Example select_masked_keeps_marked :
  select_masked ["a"; "b"; "c"] [true; false; true; true] = Return ["a"; "c"].
Proof. reflexivity. Qed.

Example select_masked_short_mask :
  select_masked ["a"; "b"] [true] = Raise (IndexError "index out of bounds").
Proof. reflexivity. Qed.

Example argmax_is_first_maximum :
  Np.argmax [1; 3; 3; 2]%R = Return 1.
Proof.
  unfold Np.argmax, Np.argmax_from.
  repeat (destruct (Rlt_dec _ _); try lra). reflexivity.
Qed.

Example elbow_of_two_inertias : optimal_k_elbow [5; 1]%R = Return 2.
Proof. reflexivity. Qed.

Example similarity_score_at_5 : Main.similarity_score 5 = (3 / 4)%R.
Proof.
  unfold Main.similarity_score, Main.py_max, Main.max_distance.
  destruct (Rlt_dec 0 (1 - 5 / 20)); lra.
Qed.

Example startup_with_a_broken_file :
  Main.startup_event Toy.broken_files Main.initial =
  (Return tt,
   Main.mkApp (L := Toy.library) false (Some (mkPCA [] [] [])) None
     (Main.mkEmbeddingService (L := Toy.library) None None)).
Proof. reflexivity. Qed.

End Evaluations.

(** ** The monad *)

Section MonadFacts.
Context {S A B : Type}.

Lemma bind_Return (c : M S A) (k : A -> M S B) s a s' :
  c s = (Return a, s') -> bind c k s = k a s'.
Proof. unfold bind. intros ->. reflexivity. Qed.

Lemma bind_Raise (c : M S A) (k : A -> M S B) s e s' :
  c s = (Raise e, s') -> bind c k s = (Raise e, s').
Proof. unfold bind. intros ->. reflexivity. Qed.

Lemma bind_inv (c : M S A) (k : A -> M S B) s b s' :
  bind c k s = (Return b, s') ->
  exists a s1, c s = (Return a, s1) /\ k a s1 = (Return b, s').
Proof.
  unfold bind. destruct (c s) as [[a|e] s1]; intros H.
  - exists a, s1. split; [reflexivity | exact H].
  - discriminate H.
Qed.

Lemma try_except_Return (c : M S A) h s a s' :
  c s = (Return a, s') -> try_except c h s = (Return a, s').
Proof. unfold try_except. intros ->. reflexivity. Qed.

Lemma lift_inv (r : result A) (s s' : S) a :
  lift r s = (Return a, s') -> r = Return a /\ s' = s.
Proof. unfold lift. intros H. inversion H. split; reflexivity. Qed.

End MonadFacts.

(** ** The similarity score *)

Section SimilarityScore.
Local Open Scope R_scope.

Lemma py_max_Rmax a b : Main.py_max a b = Rmax a b.
Proof.
  unfold Main.py_max, Rmax.
  destruct (Rlt_dec a b), (Rle_dec a b); try reflexivity; lra.
Qed.

(** C7: the score of a result at distance [d] is [max(0, 1 - d / 20)]; it
    does not increase with the distance, lies in [0, 1] for distances in
    [0, 20], and is 0 from distance 20 on. *)
Theorem similarity_score_monotone_bounded :
  Main.max_distance = 20
  /\ (forall d, Main.similarity_score d = Rmax 0 (1 - d / Main.max_distance))
  /\ (forall d1 d2, d1 <= d2 ->
        Main.similarity_score d2 <= Main.similarity_score d1)
  /\ (forall d, 0 <= d <= Main.max_distance ->
        0 <= Main.similarity_score d <= 1)
  /\ (forall d, Main.max_distance <= d -> Main.similarity_score d = 0).
Proof.
  unfold Main.similarity_score, Main.max_distance.
  split; [reflexivity|].
  split; [intro d; apply py_max_Rmax|].
  split; [|split].
  - intros d1 d2 H. rewrite !py_max_Rmax. unfold Rmax.
    destruct (Rle_dec 0 (1 - d2 / 20)), (Rle_dec 0 (1 - d1 / 20)); lra.
  - intros d [H0 H1]. rewrite py_max_Rmax. unfold Rmax.
    destruct (Rle_dec 0 (1 - d / 20)); lra.
  - intros d H. rewrite py_max_Rmax. unfold Rmax.
    destruct (Rle_dec 0 (1 - d / 20)); lra.
Qed.

Lemma similarity_score_monotone_bounded_witness :
  Main.similarity_score 10 <= Main.similarity_score 5
  /\ 0 <= Main.similarity_score 5 <= 1
  /\ Main.similarity_score 25 = 0.
Proof.
  destruct similarity_score_monotone_bounded as (_ & _ & Hmono & Hbound & Hzero).
  split; [apply Hmono; lra|].
  split; [apply Hbound; unfold Main.max_distance; lra|].
  apply Hzero. unfold Main.max_distance. lra.
Defined.

End SimilarityScore.

(** ** The order of the similarity results *)

Section EntryOrder.
Local Open Scope R_scope.

Lemma ascii_compare_lt_trans a b c :
  Ascii.compare a b = Lt -> Ascii.compare b c = Lt -> Ascii.compare a c = Lt.
Proof.
  unfold Ascii.compare. rewrite !N.compare_lt_iff. apply N.lt_trans.
Qed.

Lemma string_compare_lt_trans s1 :
  forall s2 s3, String.compare s1 s2 = Lt -> String.compare s2 s3 = Lt ->
                String.compare s1 s3 = Lt.
Proof.
  induction s1 as [|a s1 IH]; intros [|b s2] [|c s3]; simpl;
    try discriminate; try reflexivity.
  destruct (Ascii.compare a b) eqn:Eab; try discriminate;
    destruct (Ascii.compare b c) eqn:Ebc; try discriminate; intros H1 H2.
  - apply Ascii.compare_eq_iff in Eab, Ebc. subst.
    replace (Ascii.compare c c) with Eq; [eauto|].
    symmetry. unfold Ascii.compare. apply N.compare_refl.
  - apply Ascii.compare_eq_iff in Eab. subst. rewrite Ebc. reflexivity.
  - apply Ascii.compare_eq_iff in Ebc. subst. rewrite Eab. reflexivity.
  - rewrite (ascii_compare_lt_trans _ _ _ Eab Ebc). reflexivity.
Qed.

Lemma string_leb_trans s1 s2 s3 :
  String.leb s1 s2 = true -> String.leb s2 s3 = true -> String.leb s1 s3 = true.
Proof.
  unfold String.leb.
  destruct (String.compare s1 s2) eqn:E12; try discriminate;
    destruct (String.compare s2 s3) eqn:E23; try discriminate; intros _ _.
  - apply String.compare_eq_iff in E12, E23. subst.
    destruct (String.compare s3 s3) eqn:E; try reflexivity.
    pose proof (String.compare_antisym s3 s3) as Ha. rewrite E in Ha.
    discriminate Ha.
  - apply String.compare_eq_iff in E12. subst. rewrite E23. reflexivity.
  - apply String.compare_eq_iff in E23. subst. rewrite E12. reflexivity.
  - rewrite (string_compare_lt_trans _ _ _ E12 E23). reflexivity.
Qed.

(** [entry_leb] decides the order: nearer first, and at the same distance
    the smaller id first. *)
Lemma entry_leb_spec a b :
  Main.entry_leb a b = true <->
  snd a < snd b \/ (snd a = snd b /\ String.leb (fst a) (fst b) = true).
Proof.
  unfold Main.entry_leb.
  destruct (Rlt_dec (snd a) (snd b)) as [Hab|Hab].
  - split; [intros _; left; exact Hab | reflexivity].
  - destruct (Rlt_dec (snd b) (snd a)) as [Hba|Hba].
    + split; [discriminate | intros [H|[H _]]; lra].
    + split.
      * intros H. right. split; [lra | exact H].
      * intros [H|[_ H]]; [lra | exact H].
Qed.

Lemma entry_leb_total a b :
  Main.entry_leb a b = false -> Main.entry_leb b a = true.
Proof.
  intros H. apply entry_leb_spec.
  destruct (Rtotal_order (snd a) (snd b)) as [Hlt|[Heq|Hgt]].
  - assert (Main.entry_leb a b = true) by (apply entry_leb_spec; auto).
    congruence.
  - right. split; [auto|].
    destruct (String.leb_total (fst a) (fst b)) as [Hs|Hs]; [|exact Hs].
    assert (Main.entry_leb a b = true) by (apply entry_leb_spec; auto).
    congruence.
  - left. lra.
Qed.

Lemma entry_leb_trans a b c :
  Main.entry_leb a b = true -> Main.entry_leb b c = true ->
  Main.entry_leb a c = true.
Proof.
  rewrite !entry_leb_spec.
  intros [H1|[H1 S1]] [H2|[H2 S2]]; try (left; lra).
  right. split; [lra | eapply string_leb_trans; eauto].
Qed.

Lemma insert_entry_length e l :
  List.length (Main.insert_entry e l) = Datatypes.S (List.length l).
Proof.
  induction l as [|h t IH]; simpl; [reflexivity|].
  destruct (Main.entry_leb e h); simpl; [reflexivity | now rewrite IH].
Qed.

Lemma sort_entries_length l :
  List.length (Main.sort_entries l) = List.length l.
Proof.
  induction l as [|h t IH]; simpl; [reflexivity|].
  rewrite insert_entry_length, IH. reflexivity.
Qed.

Lemma insert_entry_perm e l : Permutation (e :: l) (Main.insert_entry e l).
Proof.
  induction l as [|h t IH]; simpl; [apply Permutation_refl|].
  destruct (Main.entry_leb e h); [apply Permutation_refl|].
  eapply perm_trans; [apply perm_swap | apply perm_skip, IH].
Qed.

Lemma sort_entries_perm l : Permutation l (Main.sort_entries l).
Proof.
  induction l as [|h t IH]; simpl; [constructor|].
  eapply perm_trans; [apply perm_skip, IH | apply insert_entry_perm].
Qed.

Lemma insert_entry_sorted e l :
  StronglySorted Main.entry_le l -> StronglySorted Main.entry_le (Main.insert_entry e l).
Proof.
  induction 1 as [|h t Hs IH Hall]; simpl.
  - repeat constructor.
  - destruct (Main.entry_leb e h) eqn:E.
    + constructor; [constructor; assumption|].
      constructor; [exact E|].
      eapply Forall_impl; [|exact Hall].
      intros c Hc. eapply entry_leb_trans; eauto.
    + constructor; [exact IH|].
      eapply Permutation_Forall; [apply insert_entry_perm|].
      constructor; [apply entry_leb_total, E | exact Hall].
Qed.

Lemma sort_entries_sorted l : StronglySorted Main.entry_le (Main.sort_entries l).
Proof.
  induction l as [|h t IH]; simpl; [constructor | now apply insert_entry_sorted].
Qed.

Lemma StronglySorted_app_inv {A} (R : A -> A -> Prop) l1 l2 :
  StronglySorted R (l1 ++ l2) ->
  StronglySorted R l1 /\ forall a b, In a l1 -> In b l2 -> R a b.
Proof.
  induction l1 as [|h t IH]; simpl; intros H.
  - split; [constructor | intros a b []].
  - inversion H as [|? ? Hs Hall]; subst.
    destruct (IH Hs) as [Hs1 Hcross].
    apply Forall_app in Hall. destruct Hall as [Hall1 Hall2].
    split; [constructor; assumption|].
    intros a b [->|Ha] Hb.
    + rewrite Forall_forall in Hall2. auto.
    + auto.
Qed.

Lemma StronglySorted_nth_error {A} (R : A -> A -> Prop) l :
  StronglySorted R l ->
  forall i j a b, (i < j)%nat ->
    nth_error l i = Some a -> nth_error l j = Some b -> R a b.
Proof.
  induction 1 as [|h t Hs IH Hall]; intros i j a b Hij Hi Hj.
  - destruct i; discriminate.
  - destruct j as [|j]; [lia|]. simpl in Hj.
    destruct i as [|i]; simpl in Hi.
    + inversion Hi; subst. rewrite Forall_forall in Hall.
      apply Hall. eapply nth_error_In; eauto.
    + apply (IH i j a b); [lia | exact Hi | exact Hj].
Qed.

End EntryOrder.

(** ** The similarity engine *)

Section SimilarityEngine.
Local Open Scope R_scope.

(** C6: [top_k_similar] returns [min(k, corpus size)] pairs (id, distance
    to the query point), in non-decreasing distance, equal distances in
    ascending id; the pairs it leaves out are no nearer than those it
    returns. *)
Theorem top_k_similar_sorted :
  forall (point : Main.Coordinate3D)
         (corpus_points : list (string * Main.Coordinate3D)) (k : nat),
    let result := Main.top_k_similar point corpus_points k in
    List.length result = Nat.min k (List.length corpus_points)
    /\ (forall i j a b, (i < j)%nat ->
          nth_error result i = Some a -> nth_error result j = Some b ->
          snd a <= snd b
          /\ (snd a = snd b -> String.leb (fst a) (fst b) = true))
    /\ (exists rest,
          Permutation
            (map (fun ic => (fst ic, Main.euclidean point (snd ic))) corpus_points)
            (result ++ rest)
          /\ forall a b, In a result -> In b rest -> snd a <= snd b).
Proof.
  intros point corpus_points k result.
  set (pairs := map (fun ic => (fst ic, Main.euclidean point (snd ic)))
                  corpus_points) in *.
  assert (Hsorted : StronglySorted Main.entry_le (result ++ skipn k (Main.sort_entries pairs))).
  { unfold result, Main.top_k_similar. fold pairs.
    rewrite firstn_skipn. apply sort_entries_sorted. }
  apply StronglySorted_app_inv in Hsorted. destruct Hsorted as [Hres Hcross].
  assert (Hle : forall a b, Main.entry_le a b ->
            snd a <= snd b /\ (snd a = snd b -> String.leb (fst a) (fst b) = true)).
  { intros a b H. apply entry_leb_spec in H.
    destruct H as [H|[H1 H2]]; split; try lra; intros; auto; lra. }
  split; [|split].
  - unfold result, Main.top_k_similar. fold pairs.
    rewrite length_firstn, sort_entries_length. unfold pairs.
    rewrite length_map. reflexivity.
  - intros i j a b Hij Hi Hj. apply Hle.
    eapply StronglySorted_nth_error; eauto.
  - exists (skipn k (Main.sort_entries pairs)). split.
    + unfold result, Main.top_k_similar. fold pairs. rewrite firstn_skipn.
      apply sort_entries_perm.
    + intros a b Ha Hb. apply Hle. auto.
Qed.

End SimilarityEngine.

(** ** The query path *)

Section QueryPath.
Context {L : Library} {C : Main.Collaborators}.

Lemma read_only_ret {A} (a : A) : Main.read_only (ret a).
Proof. intros s. reflexivity. Qed.

Lemma read_only_raise {A} e : Main.read_only (raise (A := A) e).
Proof. intros s. reflexivity. Qed.

Lemma read_only_lift {A} (r : result A) : Main.read_only (lift r).
Proof. intros s. reflexivity. Qed.

Lemma read_only_gets {A} (f : Main.App -> A) : Main.read_only (gets f).
Proof. intros s. reflexivity. Qed.

Lemma read_only_bind {A B} (c : M Main.App A) (k : A -> M Main.App B) :
  Main.read_only c -> (forall a, Main.read_only (k a)) -> Main.read_only (bind c k).
Proof.
  intros Hc Hk s. unfold bind. specialize (Hc s).
  destruct (c s) as [[a|e] s1]; simpl in Hc; subst; [apply Hk | reflexivity].
Qed.

Lemma read_only_try_except {A} (c : M Main.App A) h :
  Main.read_only c -> (forall e, Main.read_only (h e)) -> Main.read_only (try_except c h).
Proof.
  intros Hc Hh s. unfold try_except. specialize (Hc s).
  destruct (c s) as [[a|e] s1]; simpl in Hc; subst; [reflexivity | apply Hh].
Qed.

(** The handler reads the globals and the service; it assigns nothing. *)
Lemma generate_user_embedding_read_only request :
  Main.read_only (Main.generate_user_embedding request).
Proof.
  unfold Main.generate_user_embedding.
  apply read_only_bind; [apply read_only_gets|]. intros loaded.
  destruct (negb loaded); [apply read_only_raise|].
  apply read_only_try_except.
  - unfold Main.generate_user_embedding_body.
    repeat (apply read_only_bind;
            [first [apply read_only_lift | apply read_only_gets]|]; intros ?).
    destruct (Main.pca_model _); [|apply read_only_raise].
    repeat (apply read_only_bind; [apply read_only_lift|]; intros ?).
    apply read_only_ret.
  - intros e. destruct (is_HTTPException e); apply read_only_raise.
Qed.

Lemma respond_state request app : snd (Main.respond request app) = app.
Proof.
  unfold Main.respond.
  pose proof (generate_user_embedding_read_only request app) as H.
  destruct (Main.generate_user_embedding request app) as [[body|e] app'];
    simpl in H; subst; [reflexivity|].
  destruct e; reflexivity.
Qed.

Lemma serve_state requests app : snd (Main.serve requests app) = app.
Proof.
  revert app. induction requests as [|r rs IH]; intros app; simpl;
    [reflexivity|].
  pose proof (respond_state r app) as H.
  destruct (Main.respond r app) as [resp app']. simpl in H. subst.
  specialize (IH app). destruct (Main.serve rs app) as [resps app''].
  simpl in *. exact IH.
Qed.

Lemma serve_cons request rest app :
  Main.serve (request :: rest) app =
  (fst (Main.respond request app) :: fst (Main.serve rest app), app).
Proof.
  simpl. pose proof (respond_state request app) as H.
  destruct (Main.respond request app) as [resp app']. simpl in H. subst.
  pose proof (serve_state rest app) as H.
  destruct (Main.serve rest app) as [resps app'']. simpl in *. now subst.
Qed.

Lemma serve_app before after app :
  Main.serve (before ++ after) app =
  (fst (Main.serve before app) ++ fst (Main.serve after app), app).
Proof.
  induction before as [|r rs IH].
  - simpl. pose proof (serve_state after app) as H.
    destruct (Main.serve after app); simpl in *. now subst.
  - change ((r :: rs) ++ after) with (r :: (rs ++ after)).
    rewrite !serve_cons, IH. reflexivity.
Qed.

Lemma unready_handler request app :
  Main._models_loaded app = false ->
  Main.generate_user_embedding request app =
  (Raise (HTTPException 503
            "Reduction models not loaded. Cannot generate user embeddings."),
   app).
Proof.
  intros H. unfold Main.generate_user_embedding, bind, gets.
  rewrite H. reflexivity.
Qed.

(** C2: while no model is loaded, every query gets the 503 "not loaded"
    outcome, the state stays as it is and the following queries are
    served; a load that fails at startup is caught, [startup_event]
    returns, and the service stays Unready. *)
Theorem unready_queries_unavailable :
  forall (app : Main.App) (fs : Main.Files)
         (request : Main.UserEmbeddingRequest)
         (requests : list Main.UserEmbeddingRequest),
    Main._models_loaded app = false ->
    Main.generate_user_embedding request app =
      (Raise (HTTPException 503
                "Reduction models not loaded. Cannot generate user embeddings."),
       app)
    /\ Main.serve requests app =
         (map (fun _ => Main.Failed 503
                 "Reduction models not loaded. Cannot generate user embeddings.")
              requests, app)
    /\ (Main.load_fails fs = true ->
        exists app', Main.startup_event fs app = (Return tt, app')
                     /\ Main._models_loaded app' = false).
Proof.
  intros app fs request requests H. split; [|split].
  - apply unready_handler, H.
  - induction requests as [|r rs IH]; [reflexivity|].
    rewrite serve_cons, IH. unfold Main.respond.
    rewrite (unready_handler r app H). reflexivity.
  - unfold Main.load_fails, Main.startup_event. intros Hfail.
    destruct (Main.pca_model_pkl fs) as [[pca|e]|];
      destruct (Main.umap_model_pkl fs) as [[umap|e']|];
      try discriminate Hfail;
      (eexists; split; [reflexivity | exact H]).
Qed.

(** C5: in state Ready, a query whose vector has a length other than 768
    is refused with [DimensionMismatchError] by [project] in place of a
    transform; the handler reports it as a failure of that query alone:
    the state is untouched and the queries before and after it get the
    responses they get without it. *)
Theorem dimension_mismatch_rejected :
  forall (app : Main.App) (request : Main.UserEmbeddingRequest)
         (narrative : string) (v : list R) (pca : PCAModel) (umap : UMAPModel)
         (before after : list Main.UserEmbeddingRequest),
    Main._models_loaded app = true ->
    Main.pca_model (Main.embedding_service app) = Some pca ->
    Main.umap_model (Main.embedding_service app) = Some umap ->
    Main.create_narrative_from_events (Main.life_events request)
      (Main.name request) (Main.description request) = Return narrative ->
    Main.generate_embedding narrative = Return v ->
    List.length v <> 768%nat ->
    Main.project_to_3d (Main.embedding_service app) v =
      Raise (DimensionMismatchError "expected a vector of length 768")
    /\ Main.generate_user_embedding request app =
         (Raise (HTTPException 500
                   "Error generating embedding: expected a vector of length 768"),
          app)
    /\ Main.serve (before ++ request :: after) app =
         (fst (Main.serve before app)
          ++ Main.Failed 500
               "Error generating embedding: expected a vector of length 768"
          :: fst (Main.serve after app), app).
Proof.
  intros app request narrative v pca umap before after
         Hloaded Hpca Humap Hnarr Hemb Hlen.
  assert (Hproj : Main.project_to_3d (Main.embedding_service app) v =
                  Raise (DimensionMismatchError "expected a vector of length 768")).
  { unfold Main.project_to_3d. rewrite Hpca, Humap.
    destruct (Nat.eqb_spec (List.length v) Main.EMBEDDING_DIMENSION) as [E|E];
      [|reflexivity].
    exfalso. apply Hlen. exact E. }
  assert (Hhandler : Main.generate_user_embedding request app =
            (Raise (HTTPException 500
                      "Error generating embedding: expected a vector of length 768"),
             app)).
  { unfold Main.generate_user_embedding, Main.generate_user_embedding_body,
      bind, gets, try_except, lift.
    rewrite Hloaded. simpl. rewrite Hnarr, Hemb, Hpca, Hproj. reflexivity. }
  split; [exact Hproj|]. split; [exact Hhandler|].
  rewrite serve_app, serve_cons. unfold Main.respond. rewrite Hhandler.
  reflexivity.
Qed.

End QueryPath.

Lemma unready_queries_unavailable_witness :
  Main.generate_user_embedding (L := Toy.library)
    (C := Toy.collaborators Toy.short_vector) Toy.request Main.initial =
    (Raise (HTTPException 503
              "Reduction models not loaded. Cannot generate user embeddings."),
     Main.initial)
  /\ exists app',
       Main.startup_event Toy.broken_files Main.initial = (Return tt, app')
       /\ Main._models_loaded app' = false.
Proof.
  destruct (unready_queries_unavailable (L := Toy.library)
              (C := Toy.collaborators Toy.short_vector)
              Main.initial Toy.broken_files Toy.request [Toy.request]
              eq_refl) as (H1 & _ & H3).
  split; [exact H1 | apply H3; reflexivity].
Defined.

Lemma dimension_mismatch_rejected_witness :
  List.length Toy.short_vector = 767%nat
  /\ Main.generate_user_embedding (L := Toy.library)
       (C := Toy.collaborators Toy.short_vector) Toy.request Toy.ready =
       (Raise (HTTPException 500
                 "Error generating embedding: expected a vector of length 768"),
        Toy.ready).
Proof.
  split; [reflexivity|].
  refine (proj1 (proj2 (@dimension_mismatch_rejected Toy.library
            (Toy.collaborators Toy.short_vector)
            Toy.ready Toy.request "narrative"%string Toy.short_vector
            (mkPCA [] [] []) tt [] [] eq_refl eq_refl eq_refl eq_refl eq_refl _))).
  unfold Toy.short_vector. rewrite repeat_length. discriminate.
Defined.

(** ** Ranges and [argmax] *)

Section RangeArgmax.
Local Open Scope Z_scope.

Lemma range_In a b k : In k (range a b) <-> a <= k < b.
Proof.
  unfold range. rewrite in_map_iff. split.
  - intros (i & <- & Hi). apply in_seq in Hi. lia.
  - intros H. exists (Z.to_nat (k - a)). split; [lia|].
    apply in_seq. lia.
Qed.

Lemma range_length a b : List.length (range a b) = Z.to_nat (b - a).
Proof. unfold range. now rewrite length_map, length_seq. Qed.

Lemma range_nth_error a b i k :
  nth_error (range a b) i = Some k -> k = a + Z.of_nat i.
Proof.
  unfold range. intros H. rewrite nth_error_map in H.
  destruct (nth_error (seq 0 (Z.to_nat (b - a))) i) as [j|] eqn:E;
    [|discriminate].
  simpl in H. inversion H; subst.
  pose proof (nth_error_nth _ _ 0%nat E) as Hn.
  assert (Hi : (i < Z.to_nat (b - a))%nat).
  { assert (Hs : (i < List.length (seq 0 (Z.to_nat (b - a))))%nat)
      by (apply nth_error_Some; congruence).
    rewrite length_seq in Hs. exact Hs. }
  rewrite seq_nth in Hn by exact Hi. simpl in Hn. subst. reflexivity.
Qed.

Lemma range_empty a b : b <= a -> range a b = [].
Proof.
  intros H. unfold range. replace (Z.to_nat (b - a)) with 0%nat by lia.
  reflexivity.
Qed.

Local Open Scope R_scope.

(** [argmax_from] run over the tail of [full] from position [i], with the
    best value so far at [besti]: the position returned holds a maximum of
    [full], and no earlier position does. *)
Lemma argmax_from_spec (full : list R) :
  forall l best besti i,
    nth_error full besti = Some best ->
    skipn i full = l ->
    (besti < i)%nat ->
    (forall j v, (j < i)%nat -> nth_error full j = Some v -> v <= best) ->
    (forall j v, (j < besti)%nat -> nth_error full j = Some v -> v < best) ->
    exists m,
      nth_error full (Np.argmax_from best besti i l) = Some m
      /\ (forall j v, nth_error full j = Some v -> v <= m)
      /\ (forall j v, (j < Np.argmax_from best besti i l)%nat ->
            nth_error full j = Some v -> v < m).
Proof.
  induction l as [|x t IH]; intros best besti i Hbest Hskip Hlt Hle Hfirst.
  - simpl. exists best. split; [exact Hbest|]. split; [|exact Hfirst].
    intros j v Hj. apply (Hle j v); [|exact Hj].
    assert (j < List.length full)%nat by (apply nth_error_Some; congruence).
    assert (List.length (skipn i full) = 0%nat) by (rewrite Hskip; reflexivity).
    rewrite length_skipn in *. lia.
  - assert (Hx : nth_error full i = Some x).
    { rewrite <- (firstn_skipn i full) at 1. rewrite Hskip.
      assert (Hi : (i <= List.length full)%nat).
      { destruct (Nat.le_gt_cases i (List.length full)) as [|Hgt]; [assumption|].
        rewrite skipn_all2 in Hskip by lia. discriminate. }
      rewrite nth_error_app2; rewrite length_firstn; [|lia].
      replace (i - Nat.min i (List.length full))%nat with 0%nat by lia.
      reflexivity. }
    assert (Ht : skipn (Datatypes.S i) full = t).
    { replace (Datatypes.S i) with (1 + i)%nat by lia.
      rewrite <- skipn_skipn, Hskip. reflexivity. }
    simpl. destruct (Rlt_dec best x) as [Hbx|Hbx].
    + apply IH; auto.
      * intros j v Hj Hv. destruct (Nat.eq_dec j i) as [->|Hne].
        -- rewrite Hx in Hv. inversion Hv. lra.
        -- assert (v <= best) by (apply (Hle j v); [lia | exact Hv]). lra.
      * intros j v Hj Hv.
        assert (v <= best) by (apply (Hle j v); [lia | exact Hv]). lra.
    + apply IH; auto.
      intros j v Hj Hv. destruct (Nat.eq_dec j i) as [->|Hne].
      * rewrite Hx in Hv. inversion Hv. lra.
      * apply (Hle j v); [lia | exact Hv].
Qed.

(** [np.argmax] of a sequence that is not empty: the first position of
    its maximum. *)
Lemma argmax_spec (l : list R) :
  l <> [] ->
  exists i m,
    Np.argmax l = Return (Z.of_nat i)
    /\ nth_error l i = Some m
    /\ (forall j v, nth_error l j = Some v -> v <= m)
    /\ (forall j v, (j < i)%nat -> nth_error l j = Some v -> v < m).
Proof.
  destruct l as [|x t]; [congruence|]. intros _.
  destruct (@argmax_from_spec (x :: t) t x 0%nat 1%nat) as (m & H1 & H2 & H3);
    try reflexivity; try lia.
  - intros j v Hj Hv. assert (j = 0%nat) by lia. subst. simpl in Hv.
    inversion Hv. lra.
  - exists (Np.argmax_from x 0 1 t), m. repeat split; auto.
Qed.

Lemma diff_length (l : list R) :
  List.length (Np.diff l) = (List.length l - 1)%nat.
Proof.
  induction l as [|x [|y t] IH]; try reflexivity.
  change (Np.diff (x :: y :: t)) with ((y - x) :: Np.diff (y :: t)).
  simpl List.length in *. rewrite IH. lia.
Qed.

End RangeArgmax.

(** ** Choice of the cluster count *)

Section ClusterCount.
Context {L : Library}.
Local Open Scope Z_scope.

Lemma k_range_In max_k coords k :
  In k (DimReduction.k_range max_k coords) <->
  2 <= k <= Z.min max_k (len coords - 1).
Proof. unfold DimReduction.k_range. rewrite range_In. lia. Qed.

(** What the loop records, candidate by candidate. *)
Lemma evaluate_candidates_inv coords :
  forall ks inertias scores,
    DimReduction.evaluate_candidates coords ks = Return (inertias, scores) ->
    forall i c, nth_error ks i = Some c ->
      exists km labels s,
        KMeans_fit_predict c 42 10 300 coords = Return (km, labels)
        /\ silhouette_score coords labels = Return s
        /\ nth_error inertias i = Some (inertia_ km)
        /\ nth_error scores i = Some s.
Proof.
  induction ks as [|k ks IH]; intros inertias scores H i c Hi.
  - destruct i; discriminate.
  - simpl in H.
    destruct (KMeans_fit_predict k 42 10 300 coords) as [[km labels]|] eqn:Ek;
      [|discriminate].
    simpl in H.
    destruct (silhouette_score coords labels) as [s|] eqn:Es; [|discriminate].
    simpl in H.
    destruct (DimReduction.evaluate_candidates coords ks) as [[ins ss]|] eqn:Er;
      [|discriminate].
    simpl in H. inversion H; subst.
    destruct i as [|i]; simpl in Hi.
    + inversion Hi; subst. exists km, labels, s. auto.
    + apply (IH ins ss eq_refl i c Hi).
Qed.

Lemma evaluate_candidates_length coords :
  forall ks inertias scores,
    DimReduction.evaluate_candidates coords ks = Return (inertias, scores) ->
    List.length inertias = List.length ks /\ List.length scores = List.length ks.
Proof.
  induction ks as [|k ks IH]; intros inertias scores H; simpl in H.
  - inversion H. auto.
  - destruct (KMeans_fit_predict k 42 10 300 coords) as [[km labels]|];
      [|discriminate].
    simpl in H. destruct (silhouette_score coords labels); [|discriminate].
    simpl in H.
    destruct (DimReduction.evaluate_candidates coords ks) as [[ins ss]|];
      [|discriminate].
    simpl in H. inversion H; subst. destruct (IH ins ss eq_refl). simpl. lia.
Qed.

(** The loop goes through when every fit and every score does. *)
Lemma evaluate_candidates_total coords :
  forall ks,
    (forall k, In k ks ->
       exists km labels s,
         KMeans_fit_predict k 42 10 300 coords = Return (km, labels)
         /\ silhouette_score coords labels = Return s) ->
    exists inertias scores,
      DimReduction.evaluate_candidates coords ks = Return (inertias, scores).
Proof.
  induction ks as [|k ks IH]; intros H; simpl.
  - eauto.
  - destruct (H k (or_introl eq_refl)) as (km & labels & s & Ek & Es).
    destruct IH as (ins & ss & Er); [intros; apply H; right; assumption|].
    rewrite Ek. simpl. rewrite Es. simpl. rewrite Er. simpl. eauto.
Qed.

(** The elbow heuristic always yields a value. *)
Lemma optimal_k_elbow_returns inertias :
  exists e, DimReduction.optimal_k_elbow inertias = Return e.
Proof.
  unfold DimReduction.optimal_k_elbow.
  destruct (Z.ltb_spec 2 (len inertias)) as [Hlen|Hlen]; [|eauto].
  destruct (@argmax_spec (Np.abs (Np.diff (Np.diff inertias))))
    as (i & m & -> & _).
  - intros E. apply (f_equal (@List.length R)) in E.
    unfold Np.abs in E. rewrite length_map, !diff_length in E.
    unfold len in Hlen. simpl in E. lia.
  - simpl. eauto.
Qed.

(** C3, as the code has it: for a corpus of at least three coordinates
    and [max_k >= 2], with every k-means fit and silhouette score of the
    candidates returning, the candidates are the k from 2 to
    [min(max_k, corpus size - 1)], an inertia and a silhouette score are
    recorded for each, and the k returned is the first candidate of maximal
    silhouette score: the argmax of the scores plus 2, whatever the elbow
    of the inertias is. *)
Theorem select_k_maximises_silhouette :
  forall (max_k : Z) (w : DimReduction.World) (coords : Np.ndarray),
    DimReduction.coordinates_3d (DimReduction.self w) = Some coords ->
    3 <= len coords ->
    2 <= max_k ->
    (forall k, 2 <= k <= Z.min max_k (len coords - 1) ->
       exists km labels s,
         KMeans_fit_predict k 42 10 300 coords = Return (km, labels)
         /\ silhouette_score coords labels = Return s) ->
    (forall k, In k (DimReduction.k_range max_k coords) <->
               2 <= k <= Z.min max_k (len coords - 1))
    /\ exists inertias scores k s_k,
         DimReduction.evaluate_candidates coords
           (DimReduction.k_range max_k coords) = Return (inertias, scores)
         /\ (forall i c,
               nth_error (DimReduction.k_range max_k coords) i = Some c ->
               exists km labels s,
                 KMeans_fit_predict c 42 10 300 coords = Return (km, labels)
                 /\ silhouette_score coords labels = Return s
                 /\ nth_error inertias i = Some (inertia_ km)
                 /\ nth_error scores i = Some s)
         /\ DimReduction.determine_optimal_clusters max_k w = (Return k, w)
         /\ In k (DimReduction.k_range max_k coords)
         /\ Np.argmax scores = Return (k - 2)
         /\ nth_error scores (Z.to_nat (k - 2)) = Some s_k
         /\ (forall j s, nth_error scores j = Some s -> (s <= s_k)%R)
         /\ (forall j s, (j < Z.to_nat (k - 2))%nat ->
               nth_error scores j = Some s -> (s < s_k)%R).
Proof.
  intros max_k w coords Hcoords Hn Hmax Hlib.
  split; [intros k; apply k_range_In|].
  destruct (@evaluate_candidates_total coords (DimReduction.k_range max_k coords))
    as (inertias & scores & Heval).
  { intros k Hk. apply Hlib. apply k_range_In. exact Hk. }
  destruct (evaluate_candidates_length _ _ Heval) as [_ Hlen].
  assert (Hne : scores <> []).
  { intros ->. unfold DimReduction.k_range in Hlen.
    rewrite range_length in Hlen. simpl in Hlen. lia. }
  destruct (argmax_spec Hne) as (i & m & Harg & Hi & Hmaxi & Hfirst).
  destruct (optimal_k_elbow_returns inertias) as (e & He).
  assert (Hilt : (i < List.length (DimReduction.k_range max_k coords))%nat).
  { rewrite <- Hlen. apply nth_error_Some. congruence. }
  exists inertias, scores, (Z.of_nat i + 2), m.
  replace (Z.of_nat i + 2 - 2) with (Z.of_nat i) by lia.
  rewrite Nat2Z.id.
  split; [exact Heval|].
  split; [intros j c Hc; eapply evaluate_candidates_inv; eauto|].
  split.
  { unfold DimReduction.determine_optimal_clusters, bind, gets, lift, ret,
      DimReduction.need.
    rewrite Hcoords, Heval. simpl. rewrite He, Harg. reflexivity. }
  split.
  { apply k_range_In. unfold DimReduction.k_range in Hilt.
    rewrite range_length in Hilt. lia. }
  auto.
Qed.

(** C10: with fewer than three coordinates there is no candidate, no
    silhouette score is recorded, and the automatic choice fails on the
    argmax of an empty sequence, in [determine_optimal_clusters] and so in
    [perform_clustering(None)]. *)
Theorem small_corpus_selection_fails :
  forall (max_k : Z) (w : DimReduction.World) (coords : Np.ndarray),
    DimReduction.coordinates_3d (DimReduction.self w) = Some coords ->
    (List.length coords < 3)%nat ->
    DimReduction.k_range max_k coords = []
    /\ DimReduction.evaluate_candidates coords
         (DimReduction.k_range max_k coords) = Return ([], [])
    /\ DimReduction.determine_optimal_clusters max_k w =
         (Raise (ValueError "attempt to get argmax of an empty sequence"), w)
    /\ DimReduction.perform_clustering None w =
         (Raise (ValueError "attempt to get argmax of an empty sequence"), w).
Proof.
  intros max_k w coords Hcoords Hn.
  assert (Hrange : DimReduction.k_range max_k coords = []).
  { unfold DimReduction.k_range. apply range_empty. unfold len. lia. }
  assert (Hdet : DimReduction.determine_optimal_clusters max_k w =
           (Raise (ValueError "attempt to get argmax of an empty sequence"), w)).
  { unfold DimReduction.determine_optimal_clusters, bind, gets, lift,
      DimReduction.need.
    rewrite Hcoords, Hrange. reflexivity. }
  assert (Hrange15 : DimReduction.k_range 15 coords = []).
  { unfold DimReduction.k_range. apply range_empty. unfold len. lia. }
  rewrite Hrange. repeat split; auto.
  unfold DimReduction.perform_clustering, bind.
  unfold DimReduction.determine_optimal_clusters, bind, gets, lift,
    DimReduction.need.
  rewrite Hcoords, Hrange15. reflexivity.
Qed.

End ClusterCount.

Lemma select_k_maximises_silhouette_witness :
  exists k,
    DimReduction.determine_optimal_clusters (L := Toy.library) 15 (Toy.with_coordinates Toy.three_points) =
    (Return k, Toy.with_coordinates Toy.three_points)
    /\ In k (DimReduction.k_range 15 Toy.three_points).
Proof.
  destruct (@select_k_maximises_silhouette Toy.library 15
              (Toy.with_coordinates Toy.three_points) Toy.three_points
              eq_refl) as (_ & inertias & scores & k & s_k & _ & _ & H & Hin & _).
  - unfold len. simpl. lia.
  - lia.
  - intros k _. simpl. eauto.
  - exists k. split; assumption.
Defined.

(** C3 fails on a corpus of two coordinates: no k is returned. *)
Lemma select_k_two_points_raises :
  DimReduction.determine_optimal_clusters (L := Toy.library) 15 (Toy.with_coordinates Toy.two_points) =
  (Raise (ValueError "attempt to get argmax of an empty sequence"),
   Toy.with_coordinates Toy.two_points).
Proof. reflexivity. Qed.

Lemma small_corpus_selection_fails_witness :
  DimReduction.k_range 15 Toy.two_points = []
  /\ DimReduction.perform_clustering (L := Toy.library)
       None (Toy.with_coordinates Toy.two_points) =
     (Raise (ValueError "attempt to get argmax of an empty sequence"),
      Toy.with_coordinates Toy.two_points).
Proof.
  destruct (@small_corpus_selection_fails Toy.library 15
              (Toy.with_coordinates Toy.two_points) Toy.two_points eq_refl)
    as (H1 & _ & _ & H4).
  - simpl. lia.
  - split; assumption.
Defined.

(** ** The steps of a training run *)

Section PipelineSteps.
Context {L : Library} {B : BigQuery}.
Import DimReduction.
Local Open Scope Z_scope.

Lemma reraising_eq {A} (c : M World A) w : reraising c w = c w.
Proof.
  unfold reraising, try_except, raise. destruct (c w) as [[a|e] w']; reflexivity.
Qed.

Lemma load_embeddings_eq w :
  load_embeddings_from_bigquery w =
  match query_embeddings with
  | Return rows =>
      (Return (len (map person_of_row rows)),
       mkWorld (set_embeddings_768d (Some (map row_embedding_vector rows))
                  (set_embeddings_data (map person_of_row rows) (self w)))
         (store w))
  | Raise e => (Raise e, w)
  end.
Proof.
  unfold load_embeddings_from_bigquery. rewrite reraising_eq.
  unfold bind, lift, on_self, modify, gets, ret.
  destruct query_embeddings; reflexivity.
Qed.

Lemma apply_pca_eq w :
  apply_pca w =
  match embeddings_768d (self w) with
  | None => (Raise (TypeError "NoneType"), w)
  | Some X =>
      match PCA_fit_transform pca_components 42 X with
      | Return fitted =>
          (Return (snd fitted),
           mkWorld (set_embeddings_50d (Some (snd fitted))
                      (set_pca_model (Some (fst fitted)) (self w)))
             (store w))
      | Raise e => (Raise e, w)
      end
  end.
Proof.
  unfold apply_pca. rewrite reraising_eq.
  unfold bind, lift, on_self, modify, gets, ret, need.
  destruct (embeddings_768d (self w)); [|reflexivity].
  destruct (PCA_fit_transform pca_components 42 _); reflexivity.
Qed.

Lemma apply_umap_eq w :
  apply_umap w =
  match embeddings_50d (self w) with
  | None => (Raise (TypeError "NoneType"), w)
  | Some X =>
      match UMAP_fit_transform umap_components umap_n_neighbors umap_min_dist
              umap_metric 42 X with
      | Return fitted =>
          (Return (snd fitted),
           mkWorld (set_coordinates_3d (Some (snd fitted))
                      (set_umap_model (Some (fst fitted)) (self w)))
             (store w))
      | Raise e => (Raise e, w)
      end
  end.
Proof.
  unfold apply_umap. rewrite reraising_eq.
  unfold bind, lift, on_self, modify, gets, ret, need.
  destruct (embeddings_50d (self w)); [|reflexivity].
  destruct (UMAP_fit_transform _ _ _ _ _ _); reflexivity.
Qed.

(** Clustering with a given count. *)
Lemma perform_clustering_eq k w :
  perform_clustering (Some k) w =
  match coordinates_3d (self w) with
  | None => (Raise (TypeError "NoneType"),
             mkWorld (set_n_clusters k (self w)) (store w))
  | Some coords =>
      match KMeans_fit_predict k 42 20 300 coords with
      | Raise e => (Raise e, mkWorld (set_n_clusters k (self w)) (store w))
      | Return fitted =>
          let w' :=
            mkWorld (set_cluster_labels (Some (snd fitted))
                       (set_kmeans_model (Some (fst fitted))
                          (set_n_clusters k (self w))))
              (store w) in
          match silhouette_score coords (snd fitted) with
          | Raise e => (Raise e, w')
          | Return _ =>
              match davies_bouldin_score coords (snd fitted) with
              | Raise e => (Raise e, w')
              | Return _ => (Return (snd fitted), w')
              end
          end
      end
  end.
Proof.
  unfold perform_clustering. unfold bind at 1. unfold ret at 1.
  unfold bind at 1. unfold on_self at 1. unfold modify at 1.
  rewrite reraising_eq.
  unfold bind, lift, on_self, modify, gets, ret, need. simpl.
  destruct (coordinates_3d (self w)); [|reflexivity].
  destruct (KMeans_fit_predict k 42 20 300 _); [|reflexivity].
  simpl.
  destruct (silhouette_score _ _); [|reflexivity].
  destruct (davies_bouldin_score _ _); reflexivity.
Qed.

Lemma generate_cluster_labels_eq w :
  generate_cluster_labels w = (cluster_label_map (self w), w).
Proof. reflexivity. Qed.

Lemma save_coordinates_locally_eq w :
  save_coordinates_locally w =
  match cluster_label_map (self w) with
  | Raise e => (Raise e, w)
  | Return cmap =>
      match pca_model (self w) with
      | None => (Raise (AttributeError "explained_variance_ratio_"), w)
      | Some pca =>
          match local_coordinates (self w) cmap with
          | Raise e => (Raise e, w)
          | Return coords =>
              (Return tt,
               mkWorld (set_coordinates_saved_locally true (self w))
                 (set_file_coordinates
                    (Some {| metadata := local_metadata (self w) pca;
                             ld_cluster_labels := cmap;
                             coordinates := coords |})
                    (store w)))
          end
      end
  end.
Proof.
  unfold save_coordinates_locally, bind. rewrite generate_cluster_labels_eq.
  destruct (cluster_label_map (self w)); [|reflexivity].
  unfold get, lift.
  destruct (pca_model (self w)); [|reflexivity].
  destruct (local_coordinates (self w) a); reflexivity.
Qed.


Lemma save_coordinates_to_bigquery_eq w :
  save_coordinates_to_bigquery w =
  match cluster_label_map (self w) with
  | Raise e => (Raise e, w)
  | Return cmap =>
      match prepare_records (self w) cmap with
      | Raise e => (Raise e, w)
      | Return records =>
          if 0 <? len (table_coordinates_3d (store w)) then
            match save_coordinates_locally w with
            | (Return _, w1) =>
                (Return (len (table_coordinates_3d (store w))),
                 mkWorld (set_coordinates_saved_locally true (self w1))
                   (store w1))
            | (Raise e, w1) => (Raise e, w1)
            end
          else
            match insert_errors records with
            | _ :: _ => (Return 0, w)
            | [] =>
                (Return (len records),
                 mkWorld (self w)
                   (set_table (table_coordinates_3d (store w) ++ records)
                      (store w)))
            end
      end
  end.
Proof.
  unfold save_coordinates_to_bigquery, bind. rewrite generate_cluster_labels_eq.
  destruct (cluster_label_map (self w)) as [cmap|e]; [|reflexivity].
  unfold get, lift.
  destruct (prepare_records (self w) cmap) as [records|e]; [|reflexivity].
  rewrite reraising_eq. unfold bind, gets.
  destruct (0 <? len (table_coordinates_3d (store w))).
  - destruct (save_coordinates_locally w) as [[u|e] w1]; reflexivity.
  - destruct (insert_errors records); reflexivity.
Qed.

Lemma save_models_eq w :
  save_models w =
  (Return tt,
   mkWorld (self w)
     (set_file_umap (Some (umap_model (self w)))
        (set_file_pca (Some (pca_model (self w))) (store w)))).
Proof. unfold save_models. rewrite reraising_eq. reflexivity. Qed.

Lemma visualize_3d_clusters_eq w :
  visualize_3d_clusters w =
  match coordinates_3d (self w) with
  | None => (Raise (TypeError "NoneType"), w)
  | Some coords =>
      match cluster_labels (self w) with
      | None => (Raise (TypeError "NoneType"), w)
      | Some labels =>
          match savefig coords labels (n_clusters (self w)) with
          | Return _ => (Return tt, mkWorld (self w) (set_file_png true (store w)))
          | Raise e => (Raise e, w)
          end
      end
  end.
Proof.
  unfold visualize_3d_clusters, bind, get, lift, need, on_store, modify.
  destruct (coordinates_3d (self w)); [|reflexivity].
  destruct (cluster_labels (self w)); [|reflexivity].
  destruct (savefig _ _ _); reflexivity.
Qed.

(** The automatic choice reads the coordinates and changes nothing. *)
Lemma determine_optimal_clusters_state max_k w :
  snd (determine_optimal_clusters max_k w) = w.
Proof.
  unfold determine_optimal_clusters, bind, gets, lift, ret, need.
  destruct (coordinates_3d (self w)); [|reflexivity].
  destruct (evaluate_candidates _ _); [|reflexivity].
  destruct (optimal_k_elbow _); [|reflexivity].
  destruct (Np.argmax _); reflexivity.
Qed.

Lemma perform_clustering_None_eq w :
  perform_clustering None w =
  match fst (determine_optimal_clusters 15 w) with
  | Return k => perform_clustering (Some k) w
  | Raise e => (Raise e, w)
  end.
Proof.
  unfold perform_clustering. unfold bind at 1.
  pose proof (determine_optimal_clusters_state 15 w) as H.
  destruct (determine_optimal_clusters 15 w) as [[k|e] w1]; simpl in *; subst;
    reflexivity.
Qed.

(** The steps after the load, once the cluster count is settled. *)
Lemma run_full_pipeline_eq n w :
  run_full_pipeline n w =
  match load_embeddings_from_bigquery w with
  | (Raise e, w1) => (Raise e, w1)
  | (Return num, w1) =>
      if num =? 0 then (Return tt, w1)
      else
        (apply_pca ;;;
         apply_umap ;;;
         perform_clustering n ;;;
         num_inserted <- save_coordinates_to_bigquery ;;
         saved <- gets (fun w => coordinates_saved_locally (self w)) ;;
         (if (num_inserted =? 0) || negb saved
          then save_coordinates_locally else ret tt) ;;;
         save_models ;;;
         visualize_3d_clusters ;;;
         ret tt)%py w1
  end.
Proof.
  unfold run_full_pipeline. unfold bind at 1.
  destruct (load_embeddings_from_bigquery w) as [[num|e] w1]; [|reflexivity].
  destruct (num =? 0); reflexivity.
Qed.

Lemma run_full_pipeline_inv n w w' rows :
  query_embeddings = Return rows ->
  rows <> [] ->
  coordinates_saved_locally (self w) = false ->
  run_full_pipeline n w = (Return tt, w') ->
  exists pca X50 um coords km labels cmap records lcs,
    PCA_fit_transform pca_components 42 (map row_embedding_vector rows)
      = Return (pca, X50)
    /\ UMAP_fit_transform umap_components umap_n_neighbors umap_min_dist
         umap_metric 42 X50 = Return (um, coords)
    /\ KMeans_fit_predict (n_clusters (self w')) 42 20 300 coords
         = Return (km, labels)
    /\ (forall k, n = Some k -> n_clusters (self w') = k)
    /\ self w' =
         mkReducer (Some pca) (Some um) (n_clusters (self w')) (Some km)
           (map person_of_row rows) (Some (map row_embedding_vector rows))
           (Some X50) (Some coords) (Some labels) true
    /\ cluster_label_map (self w') = Return cmap
    /\ prepare_records (self w') cmap = Return records
    /\ local_coordinates (self w') cmap = Return lcs
    /\ store w' =
         mkStore
           (match table_coordinates_3d (store w) with
            | [] => match insert_errors records with
                    | [] => records
                    | _ :: _ => []
                    end
            | _ :: _ => table_coordinates_3d (store w)
            end)
           (Some {| metadata := local_metadata (self w') pca;
                    ld_cluster_labels := cmap;
                    coordinates := lcs |})
           (Some (Some pca)) (Some (Some um)) true.
Proof.
  intros Hq Hne Hfresh H.
  rewrite run_full_pipeline_eq, load_embeddings_eq, Hq in H.
  assert (Hz : (len (map person_of_row rows) =? 0) = false).
  { destruct rows; [congruence|]. reflexivity. }
  rewrite Hz in H. clear Hz.
  apply bind_inv in H. destruct H as (x50 & w2 & Hpca & H).
  rewrite apply_pca_eq in Hpca. simpl in Hpca.
  destruct (PCA_fit_transform pca_components 42 _) as [[pca X50]|e] eqn:Epca;
    [|discriminate].
  inversion Hpca; subst x50 w2; clear Hpca.
  apply bind_inv in H. destruct H as (c3 & w3 & Humap & H).
  rewrite apply_umap_eq in Humap. simpl in Humap.
  destruct (UMAP_fit_transform _ _ _ _ _ _) as [[um coords]|e] eqn:Eumap;
    [|discriminate].
  inversion Humap; subst c3 w3; clear Humap.
  apply bind_inv in H. destruct H as (ls & w4 & Hclu & H).
  assert (Hk : exists k, perform_clustering (Some k)
                 {| self :=
                      set_coordinates_3d (Some (snd (um, coords)))
                        (set_umap_model (Some (fst (um, coords)))
                           (set_embeddings_50d (Some (snd (pca, X50)))
                              (set_pca_model (Some (fst (pca, X50)))
                                 (set_embeddings_768d
                                    (Some (map row_embedding_vector rows))
                                    (set_embeddings_data
                                       (map person_of_row rows) (self w))))));
                    store := store w |} = (Return ls, w4)
               /\ forall k', n = Some k' -> k = k').
  { destruct n as [k|].
    - exists k. split; [exact Hclu|]. intros k' E. inversion E. reflexivity.
    - rewrite perform_clustering_None_eq in Hclu.
      destruct (fst (determine_optimal_clusters 15 _)) as [k|e];
        [|discriminate].
      exists k. split; [exact Hclu | discriminate]. }
  clear Hclu. destruct Hk as (k & Hclu & Hn).
  rewrite perform_clustering_eq in Hclu. simpl in Hclu.
  destruct (KMeans_fit_predict k 42 20 300 coords) as [[km labels]|e] eqn:Ekm;
    [|discriminate].
  simpl in Hclu.
  destruct (silhouette_score coords labels); [|discriminate].
  destruct (davies_bouldin_score coords labels); [|discriminate].
  inversion Hclu; subst ls w4; clear Hclu.
  apply bind_inv in H. destruct H as (num_inserted & w5 & Hbq & H).
  apply bind_inv in H. destruct H as (saved & w6 & Hsaved & H).
  unfold gets in Hsaved. inversion Hsaved; subst saved w6; clear Hsaved.
  apply bind_inv in H. destruct H as (u & w7 & Hloc & H).
  apply bind_inv in H. destruct H as (u' & w8 & Hmod & H).
  apply bind_inv in H. destruct H as (u'' & w9 & Hviz & H).
  unfold ret in H. inversion H; subst w9; clear H.
  rewrite save_models_eq in Hmod. inversion Hmod; subst u' w8; clear Hmod.
  rewrite visualize_3d_clusters_eq in Hviz.
  rewrite save_coordinates_to_bigquery_eq in Hbq.
  cbn [self store] in Hbq.
  match type of Hbq with
  | context [cluster_label_map ?r] => set (r5 := r) in *
  end.
  destruct (cluster_label_map r5) as [cmap|e] eqn:Ecmap; [|discriminate].
  destruct (prepare_records r5 cmap) as [records|e] eqn:Erec; [|discriminate].
  assert (Hlocal : forall s5,
            save_coordinates_locally (mkWorld r5 s5) =
            match local_coordinates r5 cmap with
            | Return lcs =>
                (Return tt,
                 mkWorld (set_coordinates_saved_locally true r5)
                   (set_file_coordinates
                      (Some {| metadata := local_metadata r5 pca;
                               ld_cluster_labels := cmap;
                               coordinates := lcs |}) s5))
            | Raise e => (Raise e, mkWorld r5 s5)
            end).
  { intros s5. rewrite save_coordinates_locally_eq. cbn [self store].
    rewrite Ecmap. reflexivity. }
  assert (Hunsaved : coordinates_saved_locally r5 = false) by exact Hfresh.
  assert (H7 : exists lcs,
            local_coordinates r5 cmap = Return lcs
            /\ self w7 = set_coordinates_saved_locally true r5
            /\ file_coordinates_3d_json (store w7) =
                 Some {| metadata := local_metadata r5 pca;
                         ld_cluster_labels := cmap;
                         coordinates := lcs |}
            /\ table_coordinates_3d (store w7) =
                 match table_coordinates_3d (store w) with
                 | [] => match insert_errors records with
                         | [] => records
                         | _ :: _ => []
                         end
                 | _ :: _ => table_coordinates_3d (store w)
                 end).
  { destruct (table_coordinates_3d (store w)) as [|c t] eqn:Etab.
    - change (0 <? len (@nil CoordinateRecord)) with false in Hbq.
      cbv iota in Hbq.
      destruct (insert_errors records) as [|err errs] eqn:Eerr;
        inversion Hbq; subst num_inserted w5; clear Hbq;
        cbn [self store] in Hloc; rewrite Hunsaved, orb_true_r in Hloc;
        rewrite Hlocal in Hloc;
        destruct (local_coordinates r5 cmap) as [lcs|e]; try discriminate;
        inversion Hloc; subst w7; exists lcs; cbn [self store];
        repeat split; try reflexivity; simpl; rewrite ?Etab; auto.
    - change (0 <? len (c :: t)) with true in Hbq. cbv iota in Hbq.
      rewrite Hlocal in Hbq.
      destruct (local_coordinates r5 cmap) as [lcs|e]; [|discriminate].
      inversion Hbq; subst num_inserted w5; clear Hbq.
      change (len (c :: t) =? 0) with false in Hloc.
      cbn in Hloc. inversion Hloc; subst w7.
      exists lcs. cbn [self store].
      repeat split; try reflexivity; simpl; rewrite ?Etab; auto. }
  destruct H7 as (lcs & Elcs & Hself7 & Hfile7 & Htab7).
  cbn [self store] in Hviz. rewrite Hself7 in Hviz. cbn in Hviz.
  destruct (savefig coords labels k); [|discriminate].
  inversion Hviz; subst w'; clear Hviz.
  exists pca, X50, um, coords, km, labels, cmap, records, lcs.
  cbn [self store].
  split; [reflexivity|]. split; [exact Eumap|]. split; [exact Ekm|].
  split; [intros k0 E; apply (Hn k0 E)|].
  split; [reflexivity|].
  split; [exact Ecmap|]. split; [exact Erec|]. split; [exact Elcs|].
  unfold set_file_png, set_file_umap, set_file_pca. cbn [table_coordinates_3d
    file_coordinates_3d_json file_pca_model_pkl file_umap_model_pkl].
  rewrite Hfile7, Htab7. reflexivity.
Qed.

End PipelineSteps.

(** ** Comprehensions, labels and records *)

Section Records.
Context {L : Library} {B : BigQuery}.
Import DimReduction.
Local Open Scope Z_scope.

Lemma rmap_Forall2 {X Y} (f : X -> result Y) :
  forall l ys, rmap f l = Return ys ->
               Forall2 (fun x y => f x = Return y) l ys.
Proof.
  induction l as [|x l IH]; intros ys H; simpl in H.
  - inversion H. constructor.
  - destruct (f x) as [y|] eqn:Ey; [|discriminate]. simpl in H.
    destruct (rmap f l) as [ys'|]; [|discriminate]. simpl in H.
    inversion H; subst. constructor; auto.
Qed.

Lemma rmap_total {X Y} (f : X -> result Y) :
  forall l, (forall x, In x l -> exists y, f x = Return y) ->
            exists ys, rmap f l = Return ys.
Proof.
  induction l as [|x l IH]; intros H; simpl.
  - eauto.
  - destruct (H x (or_introl eq_refl)) as [y Ey].
    destruct IH as [ys Eys]; [intros; apply H; right; assumption|].
    rewrite Ey. simpl. rewrite Eys. simpl. eauto.
Qed.

Lemma rmap_length {X Y} (f : X -> result Y) l ys :
  rmap f l = Return ys -> List.length ys = List.length l.
Proof.
  intros H. apply rmap_Forall2 in H. symmetry.
  eapply Forall2_length; eauto.
Qed.

Lemma enumerate_length {X} (l : list X) :
  List.length (enumerate l) = List.length l.
Proof.
  unfold enumerate. rewrite length_combine, length_seq. lia.
Qed.

Lemma enumerate_snd {X} (l : list X) : map snd (enumerate l) = l.
Proof.
  unfold enumerate. generalize 0%nat.
  induction l as [|x l IH]; intros a; simpl; [reflexivity|].
  now rewrite IH.
Qed.

Lemma enumerate_In {X} (l : list X) i x :
  In (i, x) (enumerate l) -> nth_error l i = Some x.
Proof.
  unfold enumerate.
  assert (H : forall a, In (i, x) (combine (seq a (List.length l)) l) ->
                        (a <= i)%nat /\ nth_error l (i - a) = Some x).
  { induction l as [|y l IH]; intros a Hin; simpl in Hin; [contradiction|].
    destruct Hin as [Heq|Hin].
    - inversion Heq; subst. rewrite Nat.sub_diag. auto.
    - destruct (IH _ Hin) as [Hle Hnth]. split; [lia|].
      replace (i - a)%nat with (Datatypes.S (i - Datatypes.S a)) by lia.
      exact Hnth. }
  intros Hin. destruct (H 0%nat Hin) as [_ Hnth].
  now rewrite Nat.sub_0_r in Hnth.
Qed.

Lemma enumerate_nth {X} (l : list X) i x :
  nth_error l i = Some x -> In (i, x) (enumerate l).
Proof.
  unfold enumerate.
  assert (H : forall a, nth_error l i = Some x ->
                        In ((a + i)%nat, x) (combine (seq a (List.length l)) l)).
  { revert i. induction l as [|y l IH]; intros i a Hnth.
    - destruct i; discriminate.
    - destruct i as [|i]; simpl in *.
      + inversion Hnth; subst. left. now rewrite Nat.add_0_r.
      + right. replace (a + Datatypes.S i)%nat with (Datatypes.S a + i)%nat by lia.
        apply IH, Hnth. }
  intros Hnth. exact (H 0%nat Hnth).
Qed.

Lemma dict_getitem_In (d : dict Z string) k v :
  dict_getitem Z.eqb d k = Return v -> In k (map fst d).
Proof.
  unfold dict_getitem.
  induction d as [|[k' v'] d IH]; simpl; [discriminate|].
  destruct (Z.eqb_spec k' k) as [->|Hne]; [auto|].
  intros H. right. apply IH, H.
Qed.

Lemma dict_getitem_total (d : dict Z string) k :
  In k (map fst d) -> exists v, dict_getitem Z.eqb d k = Return v.
Proof.
  unfold dict_getitem.
  induction d as [|[k' v'] d IH]; simpl; [contradiction|].
  destruct (Z.eqb_spec k' k) as [->|Hne]; [eauto|].
  intros [H|H]; [contradiction | apply IH, H].
Qed.

(** The keys of the label dictionary are the ids of [range(n_clusters)]. *)
Lemma cluster_label_map_keys r cmap :
  cluster_label_map r = Return cmap ->
  map fst cmap = range 0 (n_clusters r).
Proof.
  unfold cluster_label_map. intros H. apply rmap_Forall2 in H.
  induction H as [|c y cs ys Hy _ IH]; [reflexivity|].
  simpl. rewrite IH. f_equal.
  destruct (cluster_persons _ _ c); [|discriminate].
  simpl in Hy. inversion Hy. reflexivity.
Qed.

Lemma select_masked_total {X} (data : list X) :
  forall mask,
    (List.length data <= List.length mask)%nat ->
    exists kept,
      select_masked data mask = Return kept
      /\ List.length kept =
         List.length (filter (fun b => b) (firstn (List.length data) mask)).
Proof.
  induction data as [|x data IH]; intros mask Hlen; simpl.
  - exists []. auto.
  - destruct mask as [|b mask]; simpl in Hlen; [lia|].
    destruct (IH mask) as (kept & -> & Hk); [lia|]. simpl.
    destruct b; simpl; eexists; split; try reflexivity; simpl; lia.
Qed.

Lemma cluster_label_map_total r labels :
  cluster_labels r = Some labels ->
  (List.length (embeddings_data r) <= List.length labels)%nat ->
  exists cmap, cluster_label_map r = Return cmap.
Proof.
  intros Hl Hlen. unfold cluster_label_map. apply rmap_total.
  intros c _. rewrite Hl. unfold cluster_persons.
  destruct (@select_masked_total _ (embeddings_data r)
              (map (fun l => l =? c) labels)) as (kept & -> & _).
  - now rewrite length_map.
  - simpl. eauto.
Qed.

(** An entry of the local file carries the label found at its position,
    and that label is a key of the dictionary. *)
Lemma local_coordinate_inv r cmap i p lc :
  local_coordinate r cmap i p = Return lc ->
  exists labels l,
    cluster_labels r = Some labels
    /\ nth_error labels i = Some l
    /\ lc_cluster_id lc = l
    /\ lc_person_id lc = person_id p
    /\ In l (map fst cmap).
Proof.
  unfold local_coordinate, need, getitem.
  destruct (cluster_labels r) as [labels|]; [|discriminate]. simpl.
  destruct (nth_error labels i) as [l|] eqn:El; [|discriminate]. simpl.
  destruct (coordinates_3d r) as [coords|]; [|discriminate]. simpl.
  destruct (Np.getitem2 coords i 0); [|discriminate]. simpl.
  destruct (Np.getitem2 coords i 1); [|discriminate]. simpl.
  destruct (Np.getitem2 coords i 2); [|discriminate]. simpl.
  destruct (dict_getitem Z.eqb cmap l) as [lab|] eqn:Ed; [|discriminate].
  simpl. intros H. inversion H; subst. simpl.
  exists labels, l. repeat split; auto.
  eapply dict_getitem_In; eauto.
Qed.

Lemma coordinate_record_inv r cmap t i p rec :
  coordinate_record r cmap t i p = Return rec ->
  exists labels l,
    cluster_labels r = Some labels
    /\ nth_error labels i = Some l
    /\ rec_cluster_id rec = l
    /\ rec_person_id rec = person_id p
    /\ In l (map fst cmap).
Proof.
  unfold coordinate_record, need, getitem.
  destruct (coordinates_3d r) as [coords|]; [|discriminate]. simpl.
  destruct (Np.getitem2 coords i 0); [|discriminate]. simpl.
  destruct (Np.getitem2 coords i 1); [|discriminate]. simpl.
  destruct (Np.getitem2 coords i 2); [|discriminate]. simpl.
  destruct (cluster_labels r) as [labels|]; [|discriminate]. simpl.
  destruct (nth_error labels i) as [l|] eqn:El; [|discriminate]. simpl.
  destruct (dict_getitem Z.eqb cmap l) as [lab|] eqn:Ed; [|discriminate].
  simpl. intros H. inversion H; subst. simpl.
  exists labels, l. repeat split; auto.
  eapply dict_getitem_In; eauto.
Qed.

End Records.

(** ** Cluster sizes *)

Section ClusterSizes.
Import DimReduction.
Local Open Scope Z_scope.







End ClusterSizes.

(** ** The record set of a run *)

Section RecordSet.
Context {L : Library} {B : BigQuery}.
Import DimReduction.
Local Open Scope Z_scope.

Lemma skipn_nth_error {X} (l : list X) :
  forall a v, nth_error l a = Some v ->
              skipn a l = v :: skipn (Datatypes.S a) l.
Proof.
  induction l as [|x l IH]; intros [|a] v H; try discriminate.
  - inversion H. reflexivity.
  - simpl in H. change (skipn a l = v :: skipn (Datatypes.S a) l).
    apply IH, H.
Qed.

(** Entries built position by position carry the labels of the leading
    positions, in order. *)
Lemma labels_by_position {X Y} (g : Y -> Z) (labels : list Z) :
  forall (data : list X) a ys,
    Forall2 (fun (ip : nat * X) y => nth_error labels (fst ip) = Some (g y))
      (combine (seq a (List.length data)) data) ys ->
    map g ys = firstn (List.length data) (skipn a labels).
Proof.
  induction data as [|x data IH]; intros a ys H; simpl in H.
  - inversion H. reflexivity.
  - inversion H as [|ip y l ys' Hy Hrest]; subst. simpl in Hy.
    rewrite (skipn_nth_error _ _ Hy).
    change (g y :: map g ys' =
            g y :: firstn (List.length data) (skipn (Datatypes.S a) labels)).
    f_equal. apply IH, Hrest.
Qed.

Lemma Forall2_map_eq {X Y V} (g : Y -> V) (h : X -> V) l ys :
  Forall2 (fun x y => g y = h x) l ys -> map g ys = map h l.
Proof. induction 1; simpl; congruence. Qed.

Lemma Forall2_Forall_r {X Y} (P : X -> Y -> Prop) (Q : Y -> Prop) l ys :
  Forall2 P l ys -> (forall x y, P x y -> Q y) -> Forall Q ys.
Proof. induction 1; intros HPQ; constructor; eauto. Qed.

(** What a complete set of local entries tells of the labels. *)
Lemma local_coordinates_inv r cmap lcs labels :
  local_coordinates r cmap = Return lcs ->
  cluster_labels r = Some labels ->
  List.length lcs = List.length (embeddings_data r)
  /\ map lc_person_id lcs = map person_id (embeddings_data r)
  /\ map lc_cluster_id lcs = firstn (List.length (embeddings_data r)) labels
  /\ Forall (fun lc => In (lc_cluster_id lc) (map fst cmap)) lcs.
Proof.
  unfold local_coordinates. intros H Hl.
  pose proof (rmap_length _ _ H) as Hlen. rewrite enumerate_length in Hlen.
  apply rmap_Forall2 in H.
  split; [exact Hlen|]. split; [|split].
  - rewrite <- (enumerate_snd (embeddings_data r)) at 1. rewrite map_map.
    apply Forall2_map_eq. eapply Forall2_impl; [|exact H].
    intros ip lc Hlc. apply local_coordinate_inv in Hlc.
    destruct Hlc as (? & ? & _ & _ & _ & Hid & _). exact Hid.
  - change (firstn (List.length (embeddings_data r)) labels)
      with (firstn (List.length (embeddings_data r)) (skipn 0 labels)).
    apply labels_by_position. eapply Forall2_impl; [|exact H].
    intros ip lc Hlc. apply local_coordinate_inv in Hlc.
    destruct Hlc as (labels' & l & Hl' & Hnth & Hcid & _).
    rewrite Hl in Hl'. inversion Hl'; subst. exact Hnth.
  - eapply Forall2_Forall_r; [exact H|].
    intros ip lc Hlc. apply local_coordinate_inv in Hlc.
    destruct Hlc as (? & l & _ & _ & Hcid & _ & Hin). now rewrite Hcid.
Qed.

Lemma prepare_records_inv r cmap records labels :
  prepare_records r cmap = Return records ->
  cluster_labels r = Some labels ->
  List.length records = List.length (embeddings_data r)
  /\ map rec_person_id records = map person_id (embeddings_data r)
  /\ map rec_cluster_id records = firstn (List.length (embeddings_data r)) labels
  /\ Forall (fun rec => In (rec_cluster_id rec) (map fst cmap)) records.
Proof.
  unfold prepare_records. intros H Hl.
  pose proof (rmap_length _ _ H) as Hlen. rewrite enumerate_length in Hlen.
  apply rmap_Forall2 in H.
  split; [exact Hlen|]. split; [|split].
  - rewrite <- (enumerate_snd (embeddings_data r)) at 1. rewrite map_map.
    apply Forall2_map_eq. eapply Forall2_impl; [|exact H].
    intros ip rec Hrec. apply coordinate_record_inv in Hrec.
    destruct Hrec as (? & ? & _ & _ & _ & Hid & _). exact Hid.
  - change (firstn (List.length (embeddings_data r)) labels)
      with (firstn (List.length (embeddings_data r)) (skipn 0 labels)).
    apply labels_by_position. eapply Forall2_impl; [|exact H].
    intros ip rec Hrec. apply coordinate_record_inv in Hrec.
    destruct Hrec as (labels' & l & Hl' & Hnth & Hcid & _).
    rewrite Hl in Hl'. inversion Hl'; subst. exact Hnth.
  - eapply Forall2_Forall_r; [exact H|].
    intros ip rec Hrec. apply coordinate_record_inv in Hrec.
    destruct Hrec as (? & l & _ & _ & Hcid & _ & Hin). now rewrite Hcid.
Qed.

End RecordSet.

(** ** A run that goes through *)

Section Completion.
Context {L : Library} {B : BigQuery}.
Import DimReduction.
Local Open Scope Z_scope.

Lemma getitem_total {X} (l : list X) i :
  (i < List.length l)%nat -> exists v, getitem l i = Return v.
Proof.
  intros H. unfold getitem.
  destruct (nth_error l i) as [v|] eqn:E; [eauto|].
  apply nth_error_None in E. lia.
Qed.

Lemma getitem2_total (coords : Np.ndarray) i j :
  (i < List.length coords)%nat ->
  Forall (fun row => (j < List.length row)%nat) coords ->
  exists v, Np.getitem2 coords i j = Return v.
Proof.
  intros Hi Hrows. unfold Np.getitem2, getitem.
  destruct (nth_error coords i) as [row|] eqn:E.
  - simpl. apply nth_error_In in E. rewrite Forall_forall in Hrows.
    apply (getitem_total row (Hrows row E)).
  - apply nth_error_None in E. lia.
Qed.

(** With a coordinate of three components and a label of [[0, k)] at every
    position of the corpus, all records and all local entries are built. *)
Lemma records_total r cmap labels coords :
  cluster_labels r = Some labels ->
  coordinates_3d r = Some coords ->
  map fst cmap = range 0 (n_clusters r) ->
  List.length labels = List.length (embeddings_data r) ->
  Forall (fun l => 0 <= l < n_clusters r) labels ->
  List.length coords = List.length (embeddings_data r) ->
  Forall (fun row => (3 <= List.length row)%nat) coords ->
  (exists records, prepare_records r cmap = Return records)
  /\ (exists lcs, local_coordinates r cmap = Return lcs).
Proof.
  intros Hl Hc Hkeys Hnl Hrange Hnc Hrows.
  assert (Hpos : forall ip, In ip (enumerate (embeddings_data r)) ->
            exists x y z l lab,
              Np.getitem2 coords (fst ip) 0 = Return x
              /\ Np.getitem2 coords (fst ip) 1 = Return y
              /\ Np.getitem2 coords (fst ip) 2 = Return z
              /\ getitem labels (fst ip) = Return l
              /\ dict_getitem Z.eqb cmap l = Return lab).
  { intros [i p] Hin. apply enumerate_In in Hin. simpl.
    assert (Hi : (i < List.length (embeddings_data r))%nat)
      by (apply nth_error_Some; congruence).
    destruct (@getitem2_total coords i 0) as [x Hx]; [lia| |].
    { eapply Forall_impl; [|exact Hrows]. simpl. intros; lia. }
    destruct (@getitem2_total coords i 1) as [y Hy]; [lia| |].
    { eapply Forall_impl; [|exact Hrows]. simpl. intros; lia. }
    destruct (@getitem2_total coords i 2) as [z Hz]; [lia| |].
    { eapply Forall_impl; [|exact Hrows]. simpl. intros; lia. }
    destruct (@getitem_total _ labels i) as [l Hlab]; [lia|].
    assert (Hinl : In l labels).
    { unfold getitem in Hlab.
      destruct (nth_error labels i) eqn:E; [|discriminate].
      inversion Hlab; subst. eapply nth_error_In; eauto. }
    rewrite Forall_forall in Hrange. specialize (Hrange l Hinl).
    destruct (@dict_getitem_total cmap l) as [lab Hd].
    { rewrite Hkeys. apply range_In. lia. }
    exists x, y, z, l, lab. auto. }
  split.
  - unfold prepare_records. apply rmap_total. intros ip Hin.
    destruct (Hpos ip Hin) as (x & y & z & l & lab & Hx & Hy & Hz & Hlab & Hd).
    unfold coordinate_record, need. rewrite Hc, Hl. simpl.
    rewrite Hx. simpl. rewrite Hy. simpl. rewrite Hz. simpl.
    rewrite Hlab. simpl. rewrite Hd. simpl. eauto.
  - unfold local_coordinates. apply rmap_total. intros ip Hin.
    destruct (Hpos ip Hin) as (x & y & z & l & lab & Hx & Hy & Hz & Hlab & Hd).
    unfold local_coordinate, need. rewrite Hc, Hl. simpl.
    rewrite Hlab. simpl. rewrite Hx. simpl. rewrite Hy. simpl.
    rewrite Hz. simpl. rewrite Hd. simpl. eauto.
Qed.


End Completion.

(** ** Training runs *)

Section TrainingRuns.
Context {L : Library} {B : BigQuery}.
Import DimReduction.
Local Open Scope Z_scope.



(** C4, as the code has it: a run that returned, on a corpus that is not
    empty, has prepared one record per entry of the corpus; it writes them
    to the coordinate table only when the table is empty, and then the
    table holds these records and no other (none if the insert reports
    errors); a table that already holds rows is left as it is, rows of the
    earlier run and all; in every case the local coordinate file is
    rewritten as a whole with the entries of this run. *)
Theorem run_writes_table_only_when_empty :
  forall (n : option Z) (w w' : World) (rows : list Row),
    query_embeddings = Return rows ->
    rows <> [] ->
    coordinates_saved_locally (self w) = false ->
    run_full_pipeline n w = (Return tt, w') ->
    exists cmap records lcs pca,
      cluster_label_map (self w') = Return cmap
      /\ prepare_records (self w') cmap = Return records
      /\ local_coordinates (self w') cmap = Return lcs
      /\ map rec_person_id records = map row_person_id rows
      /\ map lc_person_id lcs = map row_person_id rows
      /\ (table_coordinates_3d (store w) = [] ->
          insert_errors records = [] ->
          table_coordinates_3d (store w') = records)
      /\ (table_coordinates_3d (store w) = [] ->
          insert_errors records <> [] ->
          table_coordinates_3d (store w') = [])
      /\ (table_coordinates_3d (store w) <> [] ->
          table_coordinates_3d (store w') = table_coordinates_3d (store w))
      /\ file_coordinates_3d_json (store w') =
           Some {| metadata := local_metadata (self w') pca;
                   ld_cluster_labels := cmap;
                   coordinates := lcs |}.
Proof.
  intros n w w' rows Hq Hne Hfresh Hrun.
  pose proof Hrun as Hinv.
  eapply run_full_pipeline_inv in Hinv; [|exact Hq|exact Hne|exact Hfresh].
  destruct Hinv
    as (pca & X50 & um & coords & km & labels & cmap & records & lcs
        & _ & _ & _ & _ & Hself & Ecmap & Erec & Elcs & Hstore).
  assert (Hlabels : cluster_labels (self w') = Some labels)
    by (rewrite Hself; reflexivity).
  assert (Hdata : embeddings_data (self w') = map person_of_row rows)
    by (rewrite Hself; reflexivity).
  pose proof Elcs as Hl. eapply local_coordinates_inv in Hl; [|exact Hlabels].
  destruct Hl as (_ & Hids & _).
  pose proof Erec as Hr. eapply prepare_records_inv in Hr; [|exact Hlabels].
  destruct Hr as (_ & Hrids & _).
  exists cmap, records, lcs, pca.
  split; [exact Ecmap|]. split; [exact Erec|]. split; [exact Elcs|].
  split; [rewrite Hrids, Hdata, map_map; reflexivity|].
  split; [rewrite Hids, Hdata, map_map; reflexivity|].
  rewrite Hstore. cbn [table_coordinates_3d file_coordinates_3d_json].
  split; [intros -> ->; reflexivity|].
  split; [intros ->; destruct (insert_errors records); congruence|].
  split; [|reflexivity].
  destruct (table_coordinates_3d (store w)); congruence.
Qed.

End TrainingRuns.

(** ** Runs of the concrete setting *)

Section ConcreteRuns.
Import DimReduction.
Local Open Scope Z_scope.


(** So does the run with a row of an earlier run in the table. *)
Lemma toy_run_used_table :
  exists w',
    run_full_pipeline (L := Toy.library) (B := Toy.bigquery Toy.corpus)
      (Some 2) (Toy.start Toy.used_store) = (Return tt, w').
Proof. eexists. vm_compute. reflexivity. Qed.




(** C4 fails when the table holds a row: after the run of the persons Q1,
    Q2 and Q3 the table still holds the record of Q0, left by an earlier
    run, and none of this run. *)
Lemma earlier_rows_survive_a_run :
  exists w',
    run_full_pipeline (L := Toy.library) (B := Toy.bigquery Toy.corpus)
      (Some 2) (Toy.start Toy.used_store) = (Return tt, w')
    /\ table_coordinates_3d (store w') = [Toy.earlier_record]
    /\ map rec_person_id (table_coordinates_3d (store w')) = ["Q0"%string]
    /\ map row_person_id Toy.corpus = ["Q1"; "Q2"; "Q3"]%string.
Proof.
  eexists. split; [vm_compute; reflexivity|]. repeat split.
Qed.

Lemma run_writes_table_only_when_empty_witness :
  exists w',
    run_full_pipeline (L := Toy.library) (B := Toy.bigquery Toy.corpus)
      (Some 2) (Toy.start Toy.used_store) = (Return tt, w')
    /\ table_coordinates_3d (store w') = [Toy.earlier_record].
Proof.
  destruct toy_run_used_table as [w' Hrun].
  destruct (@run_writes_table_only_when_empty Toy.library
              (Toy.bigquery Toy.corpus) (Some 2) (Toy.start Toy.used_store)
              w' Toy.corpus eq_refl ltac:(discriminate) eq_refl Hrun)
    as (cmap & records & lcs & pca & _ & _ & _ & _ & _ & _ & _ & Hkept & _).
  exists w'. split; [exact Hrun|].
  apply Hkept. discriminate.
Defined.

End ConcreteRuns.

(** ** Occupation counts and cluster labels *)

Section Labels.
Import DimReduction.
Local Open Scope Z_scope.

Lemma dict_find_setitem_same (d : dict string Z) k v :
  dict_find String.eqb (dict_setitem String.eqb d k v) k = Some v.
Proof.
  induction d as [|[k' v'] d IH]; simpl.
  - now rewrite String.eqb_refl.
  - destruct (String.eqb_spec k' k) as [->|Hne]; simpl.
    + now rewrite String.eqb_refl.
    + destruct (String.eqb_spec k' k); [contradiction | exact IH].
Qed.

Lemma dict_find_setitem_other (d : dict string Z) k k2 v :
  k <> k2 ->
  dict_find String.eqb (dict_setitem String.eqb d k v) k2 =
  dict_find String.eqb d k2.
Proof.
  intros Hne. induction d as [|[k' v'] d IH]; simpl.
  - destruct (String.eqb_spec k k2); [contradiction | reflexivity].
  - destruct (String.eqb_spec k' k) as [->|Hk]; simpl.
    + destruct (String.eqb_spec k k2); [contradiction | reflexivity].
    + destruct (String.eqb_spec k' k2); [reflexivity | exact IH].
Qed.

Lemma dict_find_In_keys (d : dict string Z) k :
  In k (map fst d) <-> dict_find String.eqb d k <> None.
Proof.
  induction d as [|[k' v'] d IH]; simpl.
  - split; [contradiction | congruence].
  - destruct (String.eqb_spec k' k) as [->|Hne].
    + split; [discriminate | auto].
    + rewrite <- IH. split; [intros [H|H]; [contradiction | exact H] | auto].
Qed.

(** Assigning to a key keeps the keys and their order; a new key comes
    last. *)
Lemma dict_setitem_keys (d : dict string Z) k v :
  map fst (dict_setitem String.eqb d k v) =
  if in_dec string_dec k (map fst d) then map fst d else map fst d ++ [k].
Proof.
  induction d as [|[k' v'] d IH]; simpl; [reflexivity|].
  destruct (String.eqb_spec k' k) as [->|Hne]; simpl.
  - destruct (string_dec k k); [reflexivity | contradiction].
  - rewrite IH. destruct (string_dec k' k); [contradiction|].
    destruct (in_dec string_dec k (map fst d)); reflexivity.
Qed.

(** One step of the counting loop. *)
Lemma count_step_find (d : dict string Z) occ k :
  dict_find String.eqb
    (dict_setitem String.eqb d occ (dict_get_default String.eqb d occ 0 + 1)) k =
  if string_dec occ k
  then Some (dict_get_default String.eqb d occ 0 + 1)
  else dict_find String.eqb d k.
Proof.
  destruct (string_dec occ k) as [->|Hne].
  - apply dict_find_setitem_same.
  - apply dict_find_setitem_other, Hne.
Qed.

Lemma count_occupations_fold persons :
  count_occupations persons =
  fold_left
    (fun counts occ =>
       dict_setitem String.eqb counts occ
         (dict_get_default String.eqb counts occ 0 + 1))
    (List.concat (map occupation persons)) [].
Proof.
  unfold count_occupations. generalize (@nil (string * Z)).
  induction persons as [|p ps IH]; intros d; simpl; [reflexivity|].
  rewrite IH, fold_left_app. reflexivity.
Qed.

Lemma count_loop_spec (occs : list string) :
  forall d seen,
    NoDup (map fst d) ->
    (forall k, dict_find String.eqb d k =
               if Nat.eqb (count_occ string_dec seen k) 0 then None
               else Some (Z.of_nat (count_occ string_dec seen k))) ->
    let d' := fold_left
                (fun counts occ =>
                   dict_setitem String.eqb counts occ
                     (dict_get_default String.eqb counts occ 0 + 1))
                occs d in
    NoDup (map fst d')
    /\ forall k, dict_find String.eqb d' k =
                 if Nat.eqb (count_occ string_dec (seen ++ occs) k) 0 then None
                 else Some (Z.of_nat (count_occ string_dec (seen ++ occs) k)).
Proof.
  induction occs as [|occ occs IH]; intros d seen Hnd Hfind; simpl.
  - rewrite app_nil_r. auto.
  - replace (seen ++ occ :: occs) with ((seen ++ [occ]) ++ occs)
      by (rewrite <- app_assoc; reflexivity).
    apply IH.
    + rewrite dict_setitem_keys.
      destruct (in_dec string_dec occ (map fst d)) as [Hin|Hin]; [exact Hnd|].
      apply NoDup_app; [exact Hnd | repeat constructor; auto | ].
      intros x Hx [<-|[]]. contradiction.
    + intros k. rewrite count_step_find, count_occ_app. simpl.
      unfold dict_get_default. rewrite (Hfind occ), (Hfind k).
      destruct (string_dec occ k) as [->|Hne].
      * destruct (string_dec k k); [|contradiction].
        destruct (count_occ string_dec seen k) as [|c] eqn:Ec; simpl.
        -- reflexivity.
        -- replace (c + 1)%nat with (Datatypes.S c) by lia. simpl.
           f_equal. lia.
      * destruct (string_dec occ k); [contradiction|].
        rewrite Nat.add_0_r. reflexivity.
Qed.

Lemma count_occupations_find (persons : list PersonData) (occ : string) :
  NoDup (map fst (count_occupations persons))
  /\ dict_find String.eqb (count_occupations persons) occ =
       (let c := count_occ string_dec (List.concat (map occupation persons)) occ in
        if Nat.eqb c 0 then None else Some (Z.of_nat c)).
Proof.
  destruct (@count_loop_spec (List.concat (map occupation persons)) [] [])
    as [Hnd Hfind]; [constructor | reflexivity |].
  simpl in Hnd, Hfind. rewrite <- count_occupations_fold in Hnd, Hfind.
  split; [exact Hnd | apply Hfind].
Qed.

Lemma count_occupations_keys (persons : list PersonData) (occ : string) :
  In occ (map fst (count_occupations persons)) <->
  exists p, In p persons /\ In occ (occupation p).
Proof.
  rewrite dict_find_In_keys, (proj2 (count_occupations_find persons occ)).
  assert (Hocc : In occ (List.concat (map occupation persons)) <->
                 exists p, In p persons /\ In occ (occupation p)).
  { rewrite in_concat. split.
    - intros (l & Hl & Ho). apply in_map_iff in Hl.
      destruct Hl as (p & <- & Hp). eauto.
    - intros (p & Hp & Ho). exists (occupation p). split; [|exact Ho].
      apply in_map, Hp. }
  rewrite <- Hocc, (count_occ_In string_dec).
  destruct (count_occ string_dec (List.concat (map occupation persons)) occ);
    simpl; split; intros H; try lia; try congruence.
Qed.

(** X1: the counting loop of [generate_cluster_labels]: every occupation
    is a key once, and its count is the number of times it occurs in the
    occupation lists of the members; an occupation that occurs nowhere is
    no key. *)
Theorem count_occupations_counts :
  forall (persons : list PersonData) (occ : string),
    NoDup (map fst (count_occupations persons))
    /\ dict_find String.eqb (count_occupations persons) occ =
         (let c := count_occ string_dec (List.concat (map occupation persons)) occ in
          if Nat.eqb c 0 then None else Some (Z.of_nat c))
    /\ (In occ (map fst (count_occupations persons)) <->
        exists p, In p persons /\ In occ (occupation p)).
Proof.
  intros persons occ.
  destruct (count_occupations_find persons occ) as [Hnd Hfind].
  split; [exact Hnd|]. split; [exact Hfind|].
  apply count_occupations_keys.
Qed.

Lemma insert_desc_perm {A} (x : A * Z) l : Permutation (x :: l) (insert_desc x l).
Proof.
  induction l as [|y t IH]; simpl; [apply Permutation_refl|].
  destruct (snd x <? snd y); [|apply Permutation_refl].
  eapply perm_trans; [apply perm_swap | apply perm_skip, IH].
Qed.

Lemma sorted_by_value_desc_perm {A} (l : list (A * Z)) :
  Permutation l (sorted_by_value_desc l).
Proof.
  induction l as [|x l IH]; simpl; [constructor|].
  eapply perm_trans; [apply perm_skip, IH | apply insert_desc_perm].
Qed.

Lemma insert_desc_sorted {A} (x : A * Z) l :
  StronglySorted (fun a b => snd b <= snd a) l ->
  StronglySorted (fun a b => snd b <= snd a) (insert_desc x l).
Proof.
  induction 1 as [|y t Hs IH Hall]; simpl.
  - repeat constructor.
  - destruct (Z.ltb_spec (snd x) (snd y)) as [Hlt|Hge].
    + constructor; [exact IH|].
      eapply Permutation_Forall; [apply insert_desc_perm|].
      constructor; [lia | exact Hall].
    + constructor; [constructor; assumption|].
      constructor; [exact Hge|].
      eapply Forall_impl; [|exact Hall]. simpl. intros; lia.
Qed.

Lemma sorted_by_value_desc_sorted {A} (l : list (A * Z)) :
  StronglySorted (fun a b => snd b <= snd a) (sorted_by_value_desc l).
Proof.
  induction l as [|x l IH]; simpl; [constructor | now apply insert_desc_sorted].
Qed.

(** X2: the label of a cluster in which some member has an occupation: it
    names the occupations of the three highest counts (all of them when
    there are fewer), by decreasing count; no occupation left out has a
    higher count than one that is named. *)
Theorem label_names_most_frequent :
  forall (cluster_id : Z) (persons : list PersonData) (p : PersonData),
    In p persons ->
    occupation p <> [] ->
    exists top rest,
      label_of_cluster cluster_id persons = join ", " (map fst top)
      /\ Permutation (count_occupations persons) (top ++ rest)
      /\ List.length top =
           Nat.min 3 (List.length (count_occupations persons))
      /\ top <> []
      /\ StronglySorted (fun a b => snd b <= snd a) top
      /\ forall a b, In a top -> In b rest -> snd b <= snd a.
Proof.
  intros cluster_id persons p Hp Hocc.
  assert (Hne : count_occupations persons <> []).
  { destruct (occupation p) as [|o os] eqn:Eo; [congruence|].
    pose proof (count_occupations_keys persons o) as Hin.
    intros E. rewrite E in Hin. simpl in Hin. apply Hin.
    exists p. split; [exact Hp|]. rewrite Eo. left. reflexivity. }
  set (counts := count_occupations persons) in *.
  exists (firstn 3 (sorted_by_value_desc counts)),
         (skipn 3 (sorted_by_value_desc counts)).
  pose proof (sorted_by_value_desc_sorted counts) as Hsorted.
  rewrite <- (firstn_skipn 3 (sorted_by_value_desc counts)) in Hsorted.
  apply StronglySorted_app_inv in Hsorted. destruct Hsorted as [Htop Hcross].
  assert (Hlen : List.length (sorted_by_value_desc counts) = List.length counts).
  { symmetry. apply Permutation_length, sorted_by_value_desc_perm. }
  split; [|split; [|split; [|split; [|split]]]].
  - unfold label_of_cluster. fold counts.
    destruct counts; [congruence | reflexivity].
  - rewrite firstn_skipn. apply sorted_by_value_desc_perm.
  - rewrite length_firstn, Hlen. reflexivity.
  - intros E. apply (f_equal (@List.length (string * Z))) in E.
    rewrite length_firstn, Hlen in E. simpl in E.
    destruct counts; [congruence | simpl in E; lia].
  - exact Htop.
  - exact Hcross.
Qed.

(** X3: a cluster whose members carry no occupation, an empty cluster among
    them, gets the generic label. *)
Theorem label_without_occupation_is_generic :
  forall (cluster_id : Z) (persons : list PersonData),
    (forall p, In p persons -> occupation p = []) ->
    label_of_cluster cluster_id persons = ("Cluster " ++ str_of_int cluster_id)%string.
Proof.
  intros cluster_id persons H. unfold label_of_cluster.
  assert (E : count_occupations persons = []).
  { rewrite count_occupations_fold.
    assert (Hnil : List.concat (map occupation persons) = []).
    { induction persons as [|q qs IH]; [reflexivity|]. simpl.
      rewrite (H q (or_introl eq_refl)), IH; [reflexivity|].
      intros r Hr. apply H. right. exact Hr. }
    rewrite Hnil. reflexivity. }
  rewrite E. reflexivity.
Qed.

(** X4: the members [generate_cluster_labels] collects for a cluster: with a
    label for every person, the persons whose label is the cluster id, in
    the order of the corpus; with fewer labels than persons the mask is
    indexed out of bounds. *)
Theorem cluster_persons_by_label :
  forall (data : list PersonData) (labels : list Z) (cluster_id : Z),
    ((List.length data <= List.length labels)%nat ->
     cluster_persons data (Some labels) cluster_id =
       Return (map fst (filter (fun pl => snd pl =? cluster_id)
                          (combine data labels))))
    /\ ((List.length labels < List.length data)%nat ->
        cluster_persons data (Some labels) cluster_id =
          Raise (IndexError "index out of bounds")).
Proof.
  intros data labels cluster_id. unfold cluster_persons. split.
  - revert labels. induction data as [|x data IH]; intros labels Hlen;
      [reflexivity|].
    destruct labels as [|l labels]; simpl in Hlen; [lia|].
    simpl. rewrite IH by lia. simpl. destruct (l =? cluster_id); reflexivity.
  - revert labels. induction data as [|x data IH]; intros labels Hlen;
      simpl in Hlen; [lia|].
    destruct labels as [|l labels]; [reflexivity|].
    simpl in *. rewrite IH by lia. reflexivity.
Qed.

End Labels.

(** ** The coordinate table under a run *)

Section TableRows.
Context {L : Library} {B : BigQuery}.
Import DimReduction.
Local Open Scope Z_scope.

Lemma keeps_rows_same {A} (c : M World A) :
  (forall w, store (snd (c w)) = store w \/
             table_coordinates_3d (store (snd (c w))) =
             table_coordinates_3d (store w)) ->
  Invariants.keeps_rows c.
Proof.
  intros H w.
  assert (E : table_coordinates_3d (store (snd (c w))) =
              table_coordinates_3d (store w))
    by (destruct (H w) as [->|E]; [reflexivity | exact E]).
  split; [intros _; exact E|]. exists []. rewrite app_nil_r. exact E.
Qed.

Lemma keeps_rows_ret {A} (a : A) : Invariants.keeps_rows (ret (S := World) a).
Proof. apply keeps_rows_same. intros w. left. reflexivity. Qed.

Lemma keeps_rows_raise {A} e : Invariants.keeps_rows (raise (S := World) (A := A) e).
Proof. apply keeps_rows_same. intros w. left. reflexivity. Qed.

Lemma keeps_rows_lift {A} (r : result A) : Invariants.keeps_rows (lift (S := World) r).
Proof. apply keeps_rows_same. intros w. left. reflexivity. Qed.

Lemma keeps_rows_gets {A} (f : World -> A) : Invariants.keeps_rows (gets f).
Proof. apply keeps_rows_same. intros w. left. reflexivity. Qed.

Lemma keeps_rows_get : Invariants.keeps_rows (get (S := World)).
Proof. apply keeps_rows_same. intros w. left. reflexivity. Qed.

Lemma keeps_rows_on_self f : Invariants.keeps_rows (on_self f).
Proof. apply keeps_rows_same. intros w. left. reflexivity. Qed.

Lemma keeps_rows_on_store f :
  (forall s, table_coordinates_3d (f s) = table_coordinates_3d s) ->
  Invariants.keeps_rows (on_store f).
Proof. intros H. apply keeps_rows_same. intros w. right. apply H. Qed.

Lemma keeps_rows_bind {A C} (c : M World A) (k : A -> M World C) :
  Invariants.keeps_rows c -> (forall a, Invariants.keeps_rows (k a)) ->
  Invariants.keeps_rows (bind c k).
Proof.
  intros Hc Hk w. unfold bind. specialize (Hc w).
  destruct (c w) as [[a|e] w1]; simpl in Hc; [|exact Hc].
  destruct Hc as [Hsame [added1 Hadd1]].
  destruct (Hk a w1) as [Hsame2 [added2 Hadd2]]. split.
  - intros Hne. rewrite Hsame2; [auto|]. rewrite Hsame; auto.
  - exists (added1 ++ added2). rewrite Hadd2, Hadd1, app_assoc. reflexivity.
Qed.

Lemma keeps_rows_gets_dep {A C} (f : World -> A) (k : A -> M World C) :
  (forall w,
     (table_coordinates_3d (store w) <> [] ->
      table_coordinates_3d (store (snd (k (f w) w))) =
      table_coordinates_3d (store w))
     /\ exists added,
          table_coordinates_3d (store (snd (k (f w) w))) =
          table_coordinates_3d (store w) ++ added) ->
  Invariants.keeps_rows (bind (gets f) k).
Proof. intros H w. exact (H w). Qed.

Lemma keeps_rows_reraising {A} (c : M World A) :
  Invariants.keeps_rows c -> Invariants.keeps_rows (reraising c).
Proof. intros Hc w. rewrite reraising_eq. apply Hc. Qed.

Lemma keeps_rows_determine max_k :
  Invariants.keeps_rows (determine_optimal_clusters max_k).
Proof.
  apply keeps_rows_same. intros w. left.
  now rewrite determine_optimal_clusters_state.
Qed.

Lemma keeps_rows_generate_cluster_labels :
  Invariants.keeps_rows generate_cluster_labels.
Proof. apply keeps_rows_same. intros w. left. reflexivity. Qed.

Lemma keeps_rows_save_coordinates_locally :
  Invariants.keeps_rows save_coordinates_locally.
Proof.
  unfold save_coordinates_locally.
  apply keeps_rows_bind; [apply keeps_rows_generate_cluster_labels|]. intros cmap.
  apply keeps_rows_bind; [apply keeps_rows_get|]. intros w.
  apply keeps_rows_bind; [apply keeps_rows_lift|]. intros pca.
  apply keeps_rows_bind; [apply keeps_rows_lift|]. intros coords.
  apply keeps_rows_bind; [apply keeps_rows_on_store; reflexivity|]. intros _.
  apply keeps_rows_on_self.
Qed.

(** The insert is the one step that touches the table, and it is taken
    only when the table is empty. *)
Lemma keeps_rows_save_coordinates_to_bigquery :
  Invariants.keeps_rows save_coordinates_to_bigquery.
Proof.
  unfold save_coordinates_to_bigquery.
  apply keeps_rows_bind; [apply keeps_rows_generate_cluster_labels|]. intros cmap.
  apply keeps_rows_bind; [apply keeps_rows_get|]. intros w0.
  apply keeps_rows_bind; [apply keeps_rows_lift|]. intros records.
  apply keeps_rows_reraising.
  apply keeps_rows_gets_dep. intros w.
  destruct (Z.ltb_spec 0 (len (table_coordinates_3d (store w)))) as [Hpos|Hpos].
  - assert (Hk : Invariants.keeps_rows
              (bind save_coordinates_locally (fun _ =>
               bind (on_self (set_coordinates_saved_locally true)) (fun _ =>
               ret (len (table_coordinates_3d (store w))))))).
    { apply keeps_rows_bind; [apply keeps_rows_save_coordinates_locally|].
      intros _. apply keeps_rows_bind; [apply keeps_rows_on_self|].
      intros _. apply keeps_rows_ret. }
    apply Hk.
  - assert (Hempty : table_coordinates_3d (store w) = []).
    { destruct (table_coordinates_3d (store w)); [reflexivity|].
      unfold len in Hpos. simpl in Hpos. lia. }
    destruct (insert_errors records).
    + split; [intros Hne; congruence|].
      exists records. cbn. reflexivity.
    + split; [intros Hne; congruence|].
      exists []. cbn. now rewrite app_nil_r.
Qed.

Lemma keeps_rows_perform_clustering n :
  Invariants.keeps_rows (perform_clustering n).
Proof.
  unfold perform_clustering.
  apply keeps_rows_bind.
  { destruct n; [apply keeps_rows_ret | apply keeps_rows_determine]. }
  intros k. apply keeps_rows_bind; [apply keeps_rows_on_self|]. intros _.
  apply keeps_rows_reraising.
  apply keeps_rows_bind; [apply keeps_rows_gets|]. intros k'.
  apply keeps_rows_bind; [apply keeps_rows_gets|]. intros c.
  apply keeps_rows_bind; [apply keeps_rows_lift|]. intros coords.
  apply keeps_rows_bind; [apply keeps_rows_lift|]. intros fitted.
  apply keeps_rows_bind; [apply keeps_rows_on_self|]. intros _.
  apply keeps_rows_bind; [apply keeps_rows_on_self|]. intros _.
  apply keeps_rows_bind; [apply keeps_rows_lift|]. intros s1.
  apply keeps_rows_bind; [apply keeps_rows_lift|]. intros s2.
  apply keeps_rows_ret.
Qed.

Lemma keeps_rows_run_full_pipeline n :
  Invariants.keeps_rows (run_full_pipeline n).
Proof.
  unfold run_full_pipeline.
  apply keeps_rows_bind.
  { unfold load_embeddings_from_bigquery. apply keeps_rows_reraising.
    apply keeps_rows_bind; [apply keeps_rows_lift|]. intros rows.
    apply keeps_rows_bind; [apply keeps_rows_on_self|]. intros _.
    apply keeps_rows_bind; [apply keeps_rows_on_self|]. intros _.
    apply keeps_rows_bind; [apply keeps_rows_gets|]. intros d.
    apply keeps_rows_ret. }
  intros num. destruct (num =? 0); [apply keeps_rows_ret|].
  apply keeps_rows_bind.
  { unfold apply_pca. apply keeps_rows_reraising.
    apply keeps_rows_bind; [apply keeps_rows_gets|]. intros X.
    apply keeps_rows_bind; [apply keeps_rows_lift|]. intros X'.
    apply keeps_rows_bind; [apply keeps_rows_lift|]. intros fitted.
    apply keeps_rows_bind; [apply keeps_rows_on_self|]. intros _.
    apply keeps_rows_bind; [apply keeps_rows_on_self|]. intros _.
    apply keeps_rows_ret. }
  intros _. apply keeps_rows_bind.
  { unfold apply_umap. apply keeps_rows_reraising.
    apply keeps_rows_bind; [apply keeps_rows_gets|]. intros X.
    apply keeps_rows_bind; [apply keeps_rows_lift|]. intros X'.
    apply keeps_rows_bind; [apply keeps_rows_lift|]. intros fitted.
    apply keeps_rows_bind; [apply keeps_rows_on_self|]. intros _.
    apply keeps_rows_bind; [apply keeps_rows_on_self|]. intros _.
    apply keeps_rows_ret. }
  intros _. apply keeps_rows_bind; [apply keeps_rows_perform_clustering|].
  intros _. apply keeps_rows_bind; [apply keeps_rows_save_coordinates_to_bigquery|].
  intros num_inserted. apply keeps_rows_bind; [apply keeps_rows_gets|].
  intros saved. apply keeps_rows_bind.
  { destruct ((num_inserted =? 0) || negb saved);
      [apply keeps_rows_save_coordinates_locally | apply keeps_rows_ret]. }
  intros _. apply keeps_rows_bind.
  { unfold save_models. apply keeps_rows_reraising.
    apply keeps_rows_bind; [apply keeps_rows_get|]. intros w.
    apply keeps_rows_bind; [apply keeps_rows_on_store; reflexivity|]. intros _.
    apply keeps_rows_on_store. reflexivity. }
  intros _. apply keeps_rows_bind.
  { unfold visualize_3d_clusters.
    apply keeps_rows_bind; [apply keeps_rows_get|]. intros w.
    apply keeps_rows_bind; [apply keeps_rows_lift|]. intros coords.
    apply keeps_rows_bind; [apply keeps_rows_lift|]. intros labels.
    apply keeps_rows_bind; [apply keeps_rows_lift|]. intros _.
    apply keeps_rows_on_store. reflexivity. }
  intros _. apply keeps_rows_ret.
Qed.

(** X5: whatever a run does, return or raise at any step, it deletes and
    alters no row of the coordinate table: the rows it found are still
    there, in place, followed by what it added; and a table that held rows
    is left exactly as it was. The same holds of the whole process. *)
Theorem run_never_removes_rows :
  forall (n : option Z) (w : World) (clusters : Z) (s : Store),
    ((table_coordinates_3d (store w) <> [] ->
      table_coordinates_3d (store (snd (run_full_pipeline n w))) =
      table_coordinates_3d (store w))
     /\ exists added,
          table_coordinates_3d (store (snd (run_full_pipeline n w))) =
          table_coordinates_3d (store w) ++ added)
    /\ ((table_coordinates_3d s <> [] ->
         table_coordinates_3d (snd (main clusters s)) = table_coordinates_3d s)
        /\ exists added,
             table_coordinates_3d (snd (main clusters s)) =
             table_coordinates_3d s ++ added).
Proof.
  intros n w clusters s. split; [apply keeps_rows_run_full_pipeline|].
  unfold main.
  pose proof (keeps_rows_run_full_pipeline
                (if clusters =? 0 then None else Some clusters)
                {| self := init; store := s |}) as H.
  destruct (run_full_pipeline _ _) as [[u|e] w']; exact H.
Qed.

End TableRows.

(** ** Outcomes of a run *)

Section Outcomes.
Context {L : Library} {B : BigQuery}.
Import DimReduction.
Local Open Scope Z_scope.

Lemma nonempty_len_nonzero (rows : list Row) :
  rows <> [] -> (len (map person_of_row rows) =? 0) = false.
Proof. destruct rows; [congruence | reflexivity]. Qed.

(** X6: a fit that raises ends the run before anything is saved: the
    exception of the stage-1 fit, of the stage-2 fit or of the k-means fit
    is the exception of the run, the table and the files are as they were,
    and the process exits with status 1. *)
Theorem failed_fit_saves_nothing :
  forall (k : Z) (w : World) (rows : list Row) (e : exn)
         (pca : PCAModel) (X50 : Np.ndarray) (um : UMAPModel)
         (coords : Np.ndarray),
    query_embeddings = Return rows ->
    rows <> [] ->
    PCA_fit_transform pca_components 42 (map row_embedding_vector rows)
      = Raise e
    \/ (PCA_fit_transform pca_components 42 (map row_embedding_vector rows)
          = Return (pca, X50)
        /\ (UMAP_fit_transform umap_components umap_n_neighbors umap_min_dist
              umap_metric 42 X50 = Raise e
            \/ (UMAP_fit_transform umap_components umap_n_neighbors
                  umap_min_dist umap_metric 42 X50 = Return (um, coords)
                /\ KMeans_fit_predict k 42 20 300 coords = Raise e))) ->
    (exists w', run_full_pipeline (Some k) w = (Raise e, w')
                /\ store w' = store w)
    /\ forall s, k <> 0 -> main k s = (1, s).
Proof.
  intros k w rows e pca X50 um coords Hq Hne Hfail.
  assert (Hrun : forall w0, exists w',
             run_full_pipeline (Some k) w0 = (Raise e, w')
             /\ store w' = store w0).
  { intros w0.
    rewrite run_full_pipeline_eq, load_embeddings_eq, Hq,
      (nonempty_len_nonzero Hne).
    unfold bind at 1. rewrite apply_pca_eq. cbn.
    destruct Hfail as [Epca|[Epca Hfail]]; rewrite Epca;
      [eexists; split; reflexivity|].
    cbn [fst snd]. unfold bind at 1. rewrite apply_umap_eq. cbn.
    destruct Hfail as [Eumap|[Eumap Ekm]]; rewrite Eumap;
      [eexists; split; reflexivity|].
    cbn [fst snd]. unfold bind at 1. rewrite perform_clustering_eq. cbn.
    rewrite Ekm. eexists; split; reflexivity. }
  split; [apply Hrun|].
  intros s Hk. unfold main.
  destruct (Z.eqb_spec k 0); [contradiction|].
  destruct (Hrun {| self := init; store := s |}) as (w' & -> & Hs).
  simpl in Hs. now rewrite Hs.
Qed.

(** X7: with [--clusters 0] the count is chosen by the script; when the
    stage-2 fit yields fewer than three coordinates the choice fails, the
    process exits with status 1, and nothing has been saved. *)
Theorem auto_detect_on_small_corpus_exits_1 :
  forall (s : Store) (rows : list Row) (pca : PCAModel) (X50 : Np.ndarray)
         (um : UMAPModel) (coords : Np.ndarray),
    query_embeddings = Return rows ->
    rows <> [] ->
    PCA_fit_transform pca_components 42 (map row_embedding_vector rows)
      = Return (pca, X50) ->
    UMAP_fit_transform umap_components umap_n_neighbors umap_min_dist
      umap_metric 42 X50 = Return (um, coords) ->
    (List.length coords < 3)%nat ->
    main 0 s = (1, s).
Proof.
  intros s rows pca X50 um coords Hq Hne Epca Eumap Hn.
  unfold main. change (0 =? 0) with true. cbv iota.
  rewrite run_full_pipeline_eq, load_embeddings_eq, Hq,
    (nonempty_len_nonzero Hne).
  unfold bind at 1. rewrite apply_pca_eq. cbn. rewrite Epca. cbn [fst snd].
  unfold bind at 1. rewrite apply_umap_eq. cbn. rewrite Eumap. cbn [fst snd].
  unfold bind at 1. rewrite perform_clustering_None_eq.
  unfold determine_optimal_clusters, bind, gets, lift, need. cbn.
  assert (Hrange : k_range 15 coords = []).
  { unfold k_range. apply range_empty. unfold len. lia. }
  rewrite Hrange. reflexivity.
Qed.

(** X8: the elbow suggestion always exists, is at least 2, and with three
    inertias or more it is at most their number minus 1: it is one of the
    candidates, never one of the last two. *)
Theorem elbow_suggestion_bounds :
  forall inertias : list R,
    exists e,
      optimal_k_elbow inertias = Return e
      /\ 2 <= e
      /\ (2 < len inertias -> e <= len inertias - 1)
      /\ (len inertias <= 2 -> e = 2).
Proof.
  intros inertias. unfold optimal_k_elbow.
  destruct (Z.ltb_spec 2 (len inertias)) as [Hlen|Hlen].
  - assert (Hl : List.length (Np.abs (Np.diff (Np.diff inertias)))
                 = (List.length inertias - 2)%nat).
    { unfold Np.abs. rewrite length_map, !diff_length. lia. }
    destruct (@argmax_spec (Np.abs (Np.diff (Np.diff inertias))))
      as (i & m & -> & Hi & _).
    { intros E. rewrite E in Hl. unfold len in Hlen. simpl in Hl. lia. }
    assert (Hlt : (i < List.length inertias - 2)%nat).
    { rewrite <- Hl. apply nth_error_Some. congruence. }
    simpl. exists (Z.of_nat i + 2). unfold len in *.
    repeat split; try reflexivity; lia.
  - exists 2. repeat split; try reflexivity; lia.
Qed.

Lemma Forall2_same_source {X Y Z' V} (P : X -> Y -> Prop) (Q : X -> Z' -> Prop)
      (g : Y -> V) (h : Z' -> V) :
  forall l ys zs,
    Forall2 P l ys -> Forall2 Q l zs ->
    (forall x y z, P x y -> Q x z -> g y = h z) ->
    map g ys = map h zs.
Proof.
  induction l as [|x l IH]; intros ys zs Hy Hz Hgh;
    inversion Hy; inversion Hz; subst; simpl; [reflexivity|].
  f_equal; eauto.
Qed.

(** X9: the two artifacts tell the same: whenever the records for the table
    and the entries of the local file are both built, they agree, entry by
    entry, on person, coordinates, cluster id and cluster label; the label
    of an entry is the one the dictionary of the file gives for its
    cluster id; and the coordinates of entry [i] are row [i] of the
    stage-2 output. *)
Theorem table_records_agree_with_local_file :
  forall (r : Reducer) (cmap : dict Z string)
         (records : list CoordinateRecord) (lcs : list LocalCoordinate),
    prepare_records r cmap = Return records ->
    local_coordinates r cmap = Return lcs ->
    map (fun rec => (rec_person_id rec, rec_x rec, rec_y rec, rec_z rec,
                     rec_cluster_id rec, rec_cluster_label rec)) records
    = map (fun lc => (lc_person_id lc, lc_x lc, lc_y lc, lc_z lc,
                      lc_cluster_id lc, lc_cluster_label lc)) lcs
    /\ Forall (fun lc => dict_getitem Z.eqb cmap (lc_cluster_id lc)
                         = Return (lc_cluster_label lc)) lcs
    /\ (forall i lc coords,
          nth_error lcs i = Some lc ->
          coordinates_3d r = Some coords ->
          Np.getitem2 coords i 0 = Return (lc_x lc)
          /\ Np.getitem2 coords i 1 = Return (lc_y lc)
          /\ Np.getitem2 coords i 2 = Return (lc_z lc)).
Proof.
  intros r cmap records lcs Hrec Hloc.
  unfold prepare_records in Hrec. unfold local_coordinates in Hloc.
  apply rmap_Forall2 in Hrec. apply rmap_Forall2 in Hloc.
  assert (Hboth : forall (ip : nat * PersonData) lc,
            local_coordinate r cmap (fst ip) (snd ip) = Return lc ->
            exists coords labels,
              coordinates_3d r = Some coords
              /\ cluster_labels r = Some labels
              /\ Np.getitem2 coords (fst ip) 0 = Return (lc_x lc)
              /\ Np.getitem2 coords (fst ip) 1 = Return (lc_y lc)
              /\ Np.getitem2 coords (fst ip) 2 = Return (lc_z lc)
              /\ getitem labels (fst ip) = Return (lc_cluster_id lc)
              /\ dict_getitem Z.eqb cmap (lc_cluster_id lc)
                 = Return (lc_cluster_label lc)
              /\ lc_person_id lc = person_id (snd ip)).
  { intros [i p] lc. unfold local_coordinate, need. simpl.
    destruct (cluster_labels r) as [labels|]; [|discriminate]. simpl.
    destruct (getitem labels i) as [l|] eqn:El; [|discriminate]. simpl.
    destruct (coordinates_3d r) as [coords|]; [|discriminate]. simpl.
    destruct (Np.getitem2 coords i 0) as [x|] eqn:Ex; [|discriminate]. simpl.
    destruct (Np.getitem2 coords i 1) as [y|] eqn:Ey; [|discriminate]. simpl.
    destruct (Np.getitem2 coords i 2) as [z|] eqn:Ez; [|discriminate]. simpl.
    destruct (dict_getitem Z.eqb cmap l) as [lab|] eqn:Ed; [|discriminate].
    simpl. intros H. inversion H; subst; simpl.
    exists coords, labels. repeat split; auto. }
  split; [|split].
  - eapply Forall2_same_source; [exact Hrec | exact Hloc |].
    intros ip rec lc Hr Hl.
    destruct (Hboth ip lc Hl)
      as (coords & labels & Hc & Hlab & Hx & Hy & Hz & Hi & Hd & Hid).
    unfold coordinate_record, need in Hr. rewrite Hc, Hlab in Hr. simpl in Hr.
    rewrite Hx in Hr. simpl in Hr. rewrite Hy in Hr. simpl in Hr.
    rewrite Hz in Hr. simpl in Hr. rewrite Hi in Hr. simpl in Hr.
    rewrite Hd in Hr. simpl in Hr. inversion Hr; subst; simpl.
    rewrite Hid. reflexivity.
  - eapply Forall2_Forall_r; [exact Hloc|].
    intros ip lc Hl. destruct (Hboth ip lc Hl) as (? & ? & H). tauto.
  - intros i lc coords Hnth Hc.
    assert (Hin : exists ip, In ip (enumerate (embeddings_data r))
                             /\ fst ip = i
                             /\ local_coordinate r cmap (fst ip) (snd ip) = Return lc).
    { clear Hrec Hboth. unfold enumerate in *.
      revert Hloc Hnth. generalize (embeddings_data r). intros data.
      assert (Hgen : forall a ys j,
                Forall2 (fun (ip : nat * PersonData) lc0 =>
                           local_coordinate r cmap (fst ip) (snd ip) = Return lc0)
                  (combine (seq a (List.length data)) data) ys ->
                nth_error ys j = Some lc ->
                exists ip, In ip (combine (seq a (List.length data)) data)
                           /\ fst ip = (a + j)%nat
                           /\ local_coordinate r cmap (fst ip) (snd ip) = Return lc).
      { induction data as [|p data IH]; intros a ys j H2 Hj; simpl in H2.
        - inversion H2; subst. destruct j; discriminate.
        - inversion H2 as [|ip y l ys' Hy Hrest]; subst.
          destruct j as [|j]; simpl in Hj.
          + inversion Hj; subst. exists (a, p). simpl.
            repeat split; auto; lia.
          + destruct (IH (Datatypes.S a) ys' j Hrest Hj) as (ip & Hin & Hf & Hl).
            exists ip. simpl. repeat split; auto; lia. }
      intros Hloc Hnth. destruct (Hgen 0%nat lcs i Hloc Hnth) as (ip & H1 & H2 & H3).
      exists ip. auto. }
    destruct Hin as (ip & _ & <- & Hl).
    destruct (Hboth ip lc Hl) as (coords' & labels & Hc' & _ & Hx & Hy & Hz & _).
    rewrite Hc in Hc'. inversion Hc'; subst. auto.
Qed.

(** X10: exit status 0 on a corpus that is not empty means that everything has
    been written: the coordinate file with one entry per person, both
    fitted models and the plot; and, when a count was asked for, that
    count is the one recorded. *)
Theorem exit_0_means_all_artifacts :
  forall (clusters : Z) (s s' : Store) (rows : list Row),
    query_embeddings = Return rows ->
    rows <> [] ->
    main clusters s = (0, s') ->
    exists data pca um,
      file_coordinates_3d_json s' = Some data
      /\ List.length (coordinates data) = List.length rows
      /\ num_persons (metadata data) = len rows
      /\ (clusters <> 0 -> num_clusters (metadata data) = clusters)
      /\ map fst (ld_cluster_labels data) = range 0 (num_clusters (metadata data))
      /\ file_pca_model_pkl s' = Some (Some pca)
      /\ file_umap_model_pkl s' = Some (Some um)
      /\ file_visualization_3d_png s' = true.
Proof.
  intros clusters s s' rows Hq Hne Hmain. unfold main in Hmain.
  destruct (run_full_pipeline _ _) as [[u|e] w'] eqn:Hrun;
    [|inversion Hmain]. destruct u.
  inversion Hmain; subst s'. clear Hmain.
  pose proof Hrun as Hinv.
  eapply run_full_pipeline_inv in Hinv; [|exact Hq|exact Hne|reflexivity].
  destruct Hinv
    as (pca & X50 & um & coords & km & labels & cmap & records & lcs
        & _ & _ & _ & Hn & Hself & Ecmap & _ & Elcs & Hstore).
  assert (Hlabels : cluster_labels (self w') = Some labels)
    by (rewrite Hself; reflexivity).
  assert (Hdata : embeddings_data (self w') = map person_of_row rows)
    by (rewrite Hself; reflexivity).
  pose proof Elcs as Hl. eapply local_coordinates_inv in Hl; [|exact Hlabels].
  destruct Hl as (Hlen & _).
  exists {| metadata := local_metadata (self w') pca;
            ld_cluster_labels := cmap; coordinates := lcs |}, pca, um.
  rewrite Hstore. cbn.
  split; [reflexivity|].
  split; [rewrite Hlen, Hdata; apply length_map|].
  split; [rewrite Hdata; unfold len; now rewrite length_map|].
  split.
  { intros Hc. apply Hn. destruct (Z.eqb_spec clusters 0); [contradiction|].
    reflexivity. }
  split; [apply cluster_label_map_keys, Ecmap|].
  repeat split.
Qed.

End Outcomes.

(** ** The plot comes last *)

Section PlotLast.
Context {L : Library} {B : BigQuery}.
Import DimReduction.
Local Open Scope Z_scope.

(** Up to the plot: with the fits and scores returning, one label of
    [[0, k)] and one coordinate of three components per person, the run
    has saved the coordinates and the models when it comes to
    [visualize_3d_clusters]. *)
Lemma run_reaches_plot k w rows pca X50 um coords km labels s1 s2 :
  query_embeddings = Return rows ->
  rows <> [] ->
  coordinates_saved_locally (self w) = false ->
  PCA_fit_transform pca_components 42 (map row_embedding_vector rows)
    = Return (pca, X50) ->
  UMAP_fit_transform umap_components umap_n_neighbors umap_min_dist
    umap_metric 42 X50 = Return (um, coords) ->
  KMeans_fit_predict k 42 20 300 coords = Return (km, labels) ->
  silhouette_score coords labels = Return s1 ->
  davies_bouldin_score coords labels = Return s2 ->
  List.length labels = List.length rows ->
  Forall (fun l => 0 <= l < k) labels ->
  List.length coords = List.length rows ->
  Forall (fun row => (3 <= List.length row)%nat) coords ->
  exists w8 data,
    run_full_pipeline (Some k) w =
      bind visualize_3d_clusters (fun _ => ret tt) w8
    /\ coordinates_3d (self w8) = Some coords
    /\ cluster_labels (self w8) = Some labels
    /\ n_clusters (self w8) = k
    /\ file_coordinates_3d_json (store w8) = Some data
    /\ List.length (coordinates data) = List.length rows
    /\ file_pca_model_pkl (store w8) = Some (Some pca)
    /\ file_umap_model_pkl (store w8) = Some (Some um)
    /\ file_visualization_3d_png (store w8) = file_visualization_3d_png (store w).
Proof.
  intros Hq Hne Hfresh Epca Eumap Ekm Es1 Es2 Hnl Hrange Hnc Hrows.
  rewrite run_full_pipeline_eq, load_embeddings_eq, Hq,
    (nonempty_len_nonzero Hne).
  unfold bind at 1. rewrite apply_pca_eq. cbn [self store]. cbn.
  rewrite Epca. cbn [fst snd].
  unfold bind at 1. rewrite apply_umap_eq. cbn. rewrite Eumap. cbn [fst snd].
  unfold bind at 1. rewrite perform_clustering_eq. cbn. rewrite Ekm.
  cbn. rewrite Es1, Es2.
  match goal with
  | |- context [mkWorld ?r (store w)] => set (r5 := r)
  end.
  destruct (@cluster_label_map_total _ r5 labels) as [cmap Ecmap];
    [reflexivity | cbn; rewrite length_map; lia |].
  assert (Hbuilt : (exists records, prepare_records r5 cmap = Return records)
                   /\ (exists lcs, local_coordinates r5 cmap = Return lcs)).
  { apply records_total with (labels := labels) (coords := coords);
      try reflexivity; try assumption.
    - apply cluster_label_map_keys. exact Ecmap.
    - cbn. rewrite length_map. exact Hnl.
    - cbn. rewrite length_map. exact Hnc. }
  destruct Hbuilt as [[records Erec] [lcs Elcs]].
  assert (Hlcs : List.length lcs = List.length rows).
  { pose proof Elcs as Hl.
    eapply local_coordinates_inv in Hl; [|reflexivity].
    destruct Hl as (Hlen & _). rewrite Hlen. cbn. apply length_map. }
  assert (Hlocal : forall s5,
            save_coordinates_locally (mkWorld r5 s5) =
            (Return tt,
             mkWorld (set_coordinates_saved_locally true r5)
               (set_file_coordinates
                  (Some {| metadata := local_metadata r5 pca;
                           ld_cluster_labels := cmap;
                           coordinates := lcs |}) s5))).
  { intros s5. rewrite save_coordinates_locally_eq. cbn [self store].
    rewrite Ecmap, Elcs. reflexivity. }
  unfold bind at 1. rewrite save_coordinates_to_bigquery_eq. cbn [self store].
  rewrite Ecmap, Erec.
  destruct (Z.ltb_spec 0 (len (table_coordinates_3d (store w)))) as [Hpos|Hpos].
  - rewrite Hlocal. unfold bind at 1. unfold gets at 1. cbn.
    rewrite orb_false_r.
    destruct (Z.eqb_spec (len (table_coordinates_3d (store w))) 0) as [E0|E0];
      [lia|].
    unfold bind at 1. unfold ret at 1.
    unfold bind at 1. rewrite save_models_eq.
    eexists. eexists. split; [reflexivity|]. cbn.
    repeat split; try reflexivity. exact Hlcs.
  - assert (Hcond : forall num s5,
              (if (num =? 0) || negb (coordinates_saved_locally (self (mkWorld r5 s5)))
               then save_coordinates_locally
               else ret tt) (mkWorld r5 s5) =
              save_coordinates_locally (mkWorld r5 s5)).
    { intros num s5. cbn [self]. change (coordinates_saved_locally r5)
        with (coordinates_saved_locally (self w)).
      rewrite Hfresh, orb_true_r. reflexivity. }
    destruct (insert_errors records);
      unfold bind at 1; unfold gets at 1;
      unfold bind at 1; rewrite Hcond, Hlocal;
      unfold bind at 1; rewrite save_models_eq;
      (eexists; eexists; split; [reflexivity|]; cbn;
       repeat split; try reflexivity; exact Hlcs).
Qed.

(** X11: a plot that fails fails the run after the saving: the process exits
    with status 1, and the coordinate file, with one entry per person, and
    both fitted models have been written all the same. *)
Theorem failed_plot_comes_after_saving :
  forall (k : Z) (s : Store) (rows : list Row) (e : exn)
         (pca : PCAModel) (X50 : Np.ndarray) (um : UMAPModel)
         (coords : Np.ndarray) (km : KMeansModel) (labels : list Z)
         (s1 s2 : R),
    k <> 0 ->
    query_embeddings = Return rows ->
    rows <> [] ->
    PCA_fit_transform pca_components 42 (map row_embedding_vector rows)
      = Return (pca, X50) ->
    UMAP_fit_transform umap_components umap_n_neighbors umap_min_dist
      umap_metric 42 X50 = Return (um, coords) ->
    KMeans_fit_predict k 42 20 300 coords = Return (km, labels) ->
    silhouette_score coords labels = Return s1 ->
    davies_bouldin_score coords labels = Return s2 ->
    List.length labels = List.length rows ->
    Forall (fun l => 0 <= l < k) labels ->
    List.length coords = List.length rows ->
    Forall (fun row => (3 <= List.length row)%nat) coords ->
    savefig coords labels k = Raise e ->
    exists s' data,
      main k s = (1, s')
      /\ file_coordinates_3d_json s' = Some data
      /\ List.length (coordinates data) = List.length rows
      /\ file_pca_model_pkl s' = Some (Some pca)
      /\ file_umap_model_pkl s' = Some (Some um)
      /\ file_visualization_3d_png s' = file_visualization_3d_png s.
Proof.
  intros k s rows e pca X50 um coords km labels s1 s2 Hk Hq Hne
         Epca Eumap Ekm Es1 Es2 Hnl Hrange Hnc Hrows Efig.
  destruct (@run_reaches_plot k {| self := init; store := s |} rows pca X50 um
              coords km labels s1 s2)
    as (w8 & data & Hrun & Hc & Hl & Hn & Hfile & Hlen & Hpca & Humap & Hpng);
    try assumption; try reflexivity.
  exists (store w8), data. unfold main.
  destruct (Z.eqb_spec k 0); [contradiction|].
  rewrite Hrun. unfold bind. rewrite visualize_3d_clusters_eq.
  rewrite Hc, Hl, Hn, Efig.
  repeat split; auto.
Qed.

End PlotLast.

(** ** Startup and the embedding endpoint *)

Section Startup.
Context {L : Library} {C : Main.Collaborators}.
Local Open Scope R_scope.


(** X12: [startup_event] always returns. From the state Unready the service is
    Ready afterwards exactly when both files are there and unpickle; the
    service object then holds the two unpickled models, and after a load
    that fails it is untouched. *)
Theorem startup_ready_iff_files_load :
  forall (fs : Main.Files) (app : Main.App),
    Main._models_loaded app = false ->
    exists app',
      Main.startup_event fs app = (Return tt, app')
      /\ Main._models_loaded app' = negb (Main.load_fails fs)
      /\ (Main.load_fails fs = true ->
          Main.embedding_service app' = Main.embedding_service app)
      /\ (forall pca umap,
            Main.pca_model_pkl fs = Some (Return pca) ->
            Main.umap_model_pkl fs = Some (Return umap) ->
            Main.embedding_service app' = Main.mkEmbeddingService pca umap
            /\ Main._pca_model app' = pca
            /\ Main._umap_model app' = umap).
Proof.
  intros fs app H. unfold Main.load_fails, Main.startup_event.
  destruct (Main.pca_model_pkl fs) as [[pca|e]|];
    destruct (Main.umap_model_pkl fs) as [[umap|e']|];
    (eexists; split; [reflexivity|]); cbn;
    (split; [try exact H; reflexivity|]);
    (split; [try reflexivity; discriminate|]);
    intros pca' umap' Hp Hu; try discriminate.
  inversion Hp; inversion Hu; subst. auto.
Qed.


(** X14: files that unpickle make the service Ready even when the PCA file
    holds [None]; a query then has its narrative built and its embedding
    generated before the second test turns it down with status 503. *)
Theorem pickled_none_passes_startup :
  forall (fs : Main.Files) (umap : option UMAPModel)
         (request : Main.UserEmbeddingRequest) (narrative : string)
         (v : list R),
    Main.pca_model_pkl fs = Some (Return None) ->
    Main.umap_model_pkl fs = Some (Return umap) ->
    Main.create_narrative_from_events (Main.life_events request)
      (Main.name request) (Main.description request) = Return narrative ->
    Main.generate_embedding narrative = Return v ->
    exists app',
      Main.startup_event fs Main.initial = (Return tt, app')
      /\ Main._models_loaded app' = true
      /\ Main.generate_user_embedding request app' =
           (Raise (HTTPException 503
                     "PCA/UMAP models not available. Run dim_reduction.py first."),
            app').
Proof.
  intros fs umap request narrative v Hp Hu Hn He.
  unfold Main.startup_event. rewrite Hp, Hu.
  eexists. split; [reflexivity|]. split; [reflexivity|].
  unfold Main.generate_user_embedding, Main.generate_user_embedding_body,
    bind, gets, try_except, lift. cbn.
  rewrite Hn, He. reflexivity.
Qed.


End Startup.

(** ** The record endpoints *)

Section RecordEndpoints.
Context {L : Library} {C : Main.Collaborators} {D : Api.Database}.
Local Open Scope Z_scope.

Lemma firstn_add {X} (l : list X) :
  forall n m, firstn (n + m) l = firstn n l ++ firstn m (skipn n l).
Proof.
  induction l as [|x l IH]; intros [|n] m; simpl;
    try reflexivity; try now rewrite firstn_nil.
  now rewrite IH.
Qed.

(** A slice from an offset that is not negative, of a length that is not
    negative. *)
Lemma slice_page {X} (l : list X) offset limit :
  0 <= offset -> 0 <= limit ->
  Api.slice l offset (offset + limit) =
  firstn (Z.to_nat limit) (skipn (Z.to_nat offset) l).
Proof.
  intros Ho Hl. unfold Api.slice, Api.clamp, len.
  destruct (Z.ltb_spec offset 0); [lia|].
  destruct (Z.ltb_spec (offset + limit) 0); [lia|].
  destruct (Z_le_gt_dec (Z.of_nat (List.length l)) offset) as [Hout|Hin].
  - rewrite !Z.min_r by lia.
    replace (Z.of_nat (List.length l) - Z.of_nat (List.length l)) with 0 by lia.
    rewrite Nat2Z.id, skipn_all. simpl.
    rewrite skipn_all2 by lia. now rewrite firstn_nil.
  - rewrite (Z.min_l offset) by lia.
    destruct (Z_le_gt_dec (offset + limit) (Z.of_nat (List.length l))) as [Hfit|Hcut].
    + rewrite Z.min_l by lia. f_equal. lia.
    + rewrite Z.min_r by lia.
      rewrite !firstn_all2; try reflexivity; rewrite length_skipn; lia.
Qed.

(** X16: the listing of a cluster, page by page: with an offset and a limit
    that are not negative, the page holds the summaries of the rows from
    position [offset] on, at most [limit] of them, in the order of the
    lookup; and a page followed by the next one is the page of both
    limits. *)
Theorem get_persons_pages_of_a_cluster :
  forall (limit limit' offset cluster : Z) (rows : list Api.PersonRow),
    0 <= offset -> 0 <= limit -> 0 <= limit' ->
    Api.get_persons_by_cluster cluster = Return rows ->
    exists page next,
      Api.get_persons limit offset (Some cluster) = Return page
      /\ page = map Api.person_summary
                  (firstn (Z.to_nat limit) (skipn (Z.to_nat offset) rows))
      /\ (List.length page <= Z.to_nat limit)%nat
      /\ Api.get_persons limit' (offset + limit) (Some cluster) = Return next
      /\ Api.get_persons (limit + limit') offset (Some cluster)
         = Return (page ++ next).
Proof.
  intros limit limit' offset cluster rows Ho Hl Hl' Hrows.
  assert (Hpage : forall lim off, 0 <= off -> 0 <= lim ->
            Api.get_persons lim off (Some cluster) =
            Return (map Api.person_summary
                      (firstn (Z.to_nat lim) (skipn (Z.to_nat off) rows)))).
  { intros lim off H1 H2. unfold Api.get_persons. rewrite Hrows. simpl.
    rewrite slice_page by assumption. reflexivity. }
  eexists. eexists.
  split; [apply Hpage; assumption|]. split; [reflexivity|].
  split; [rewrite length_map, length_firstn; lia|].
  split; [apply Hpage; lia|].
  rewrite Hpage by lia. f_equal. rewrite <- map_app. f_equal.
  rewrite Z2Nat.inj_add by lia. rewrite firstn_add, skipn_skipn.
  do 3 f_equal. lia.
Qed.

(** X17: what the record endpoints raise: the listings raise nothing but an
    [HTTPException] of status 500, whatever the lookup raised; the person
    and the cluster endpoint raise nothing but an [HTTPException]. *)
Theorem record_endpoints_raise_only_http :
  forall (limit offset : Z) (cluster : option Z) (id : string) (cid : Z),
    (forall e, Api.get_persons limit offset cluster = Raise e ->
               exists detail, e = HTTPException 500 detail)
    /\ (forall e, Api.get_clusters = Raise e ->
                  exists detail, e = HTTPException 500 detail)
    /\ (forall e, Api.get_visualization_data_endpoint = Raise e ->
                  exists detail, e = HTTPException 500 detail)
    /\ (forall e, Api.get_person id = Raise e -> is_HTTPException e = true)
    /\ (forall e, Api.get_cluster cid = Raise e -> is_HTTPException e = true).
Proof.
  intros limit offset cluster id cid.
  assert (H500 : forall {X} prefix (r : result X) e,
            Api.or_500 prefix r = Raise e ->
            exists detail, e = HTTPException 500 detail).
  { intros X prefix [a|e0] e H; simpl in H; inversion H. eauto. }
  assert (Hhttp : forall {X} prefix (r : result X) e,
            Api.or_500_keeping_http prefix r = Raise e ->
            is_HTTPException e = true).
  { intros X prefix [a|e0] e H; simpl in H; [discriminate|].
    destruct (is_HTTPException e0) eqn:E; inversion H; subst; auto. }
  repeat split; intros e He.
  - eapply H500; exact He.
  - eapply H500; exact He.
  - eapply H500; exact He.
  - eapply Hhttp; exact He.
  - eapply Hhttp; exact He.
Qed.

(** X18: the person endpoint: the detail of the person when the lookup finds
    one; status 404, naming the id, when it finds none; status 500 when
    the lookup raises what is no [HTTPException]. *)
Theorem get_person_found_or_404 :
  forall (id : string),
    (forall person, Api.get_person_by_id id = Return (Some person) ->
       Api.get_person id = Return (Api.person_detail person))
    /\ (Api.get_person_by_id id = Return None ->
        Api.get_person id =
          Raise (HTTPException 404 ("Person " ++ id ++ " not found")))
    /\ (forall e, Api.get_person_by_id id = Raise e ->
          is_HTTPException e = false ->
          Api.get_person id =
            Raise (HTTPException 500 ("Error fetching person: " ++ str e))).
Proof.
  intros id. unfold Api.get_person. repeat split.
  - intros person ->. reflexivity.
  - intros ->. reflexivity.
  - intros e -> He. simpl. rewrite He. reflexivity.
Qed.

(** X19: the cluster endpoint answers with the first cluster of the lookup
    that has the id asked for, and with status 404, naming the id, exactly
    when no cluster has it. *)
Theorem get_cluster_first_match_or_404 :
  forall (id : Z) (clusters : list Main.ClusterInfo),
    Main.get_clusters_info = Return clusters ->
    ((forall c, In c clusters -> Main.cluster_id c <> id) ->
     Api.get_cluster id =
       Raise (HTTPException 404 ("Cluster " ++ str_of_int id ++ " not found")))
    /\ (forall before c after,
          clusters = before ++ c :: after ->
          Main.cluster_id c = id ->
          (forall b, In b before -> Main.cluster_id b <> id) ->
          Api.get_cluster id = Return c)
    /\ (forall c, Api.get_cluster id = Return c ->
          In c clusters /\ Main.cluster_id c = id).
Proof.
  intros id clusters Hc. unfold Api.get_cluster, Api.first_with_id.
  rewrite Hc. simpl. repeat split.
  - intros Hnone.
    destruct (find _ clusters) as [c|] eqn:Ef; [|reflexivity].
    apply find_some in Ef. destruct Ef as [Hin Heq].
    apply Z.eqb_eq in Heq. exfalso. exact (Hnone c Hin Heq).
  - intros before c after -> Hid Hbefore.
    assert (Hf : find (fun c0 => Main.cluster_id c0 =? id) (before ++ c :: after)
                 = Some c).
    { clear Hc. induction before as [|b before IH]; simpl.
      - rewrite Hid, Z.eqb_refl. reflexivity.
      - destruct (Z.eqb_spec (Main.cluster_id b) id) as [E|_].
        + exfalso. apply (Hbefore b); [left; reflexivity | exact E].
        + apply IH. intros b' Hb'. apply Hbefore. right. exact Hb'. }
    rewrite Hf. reflexivity.
  - destruct (find _ clusters) as [c'|] eqn:Ef; simpl in H; [|discriminate].
    inversion H; subst. apply find_some in Ef. tauto.
  - destruct (find _ clusters) as [c'|] eqn:Ef; simpl in H; [|discriminate].
    inversion H; subst. apply find_some in Ef. destruct Ef as [_ Heq].
    now apply Z.eqb_eq in Heq.
Qed.

(** X20: a load that fails at startup shows in the health check, which
    answers all the same: the overall status stays ["healthy"], the entry
    for the reduction models reads ["not loaded"], and a lookup that
    raises is reported in the entry for BigQuery. *)
Theorem health_check_after_failed_load :
  forall (fs : Main.Files) (app : Main.App),
    Main._models_loaded app = false ->
    Main.load_fails fs = true ->
    let app' := snd (Main.startup_event fs app) in
    Api.status (Api.health_check app') = "healthy"%string
    /\ dict_find String.eqb (Api.services (Api.health_check app'))
         "reduction_models"%string = Some "not loaded"%string
    /\ (forall e, Api.get_all_persons 1 None = Raise e ->
          dict_find String.eqb (Api.services (Api.health_check app'))
            "bigquery"%string = Some ("unhealthy: " ++ str e)%string)
    /\ (forall rows, Api.get_all_persons 1 None = Return rows ->
          dict_find String.eqb (Api.services (Api.health_check app'))
            "bigquery"%string = Some "healthy"%string).
Proof.
  intros fs app H Hfail app'.
  assert (Hl : Main._models_loaded app' = false).
  { unfold app', Main.startup_event. unfold Main.load_fails in Hfail.
    destruct (Main.pca_model_pkl fs) as [[pca|e]|];
      destruct (Main.umap_model_pkl fs) as [[umap|e']|];
      try discriminate; exact H. }
  unfold Api.health_check. cbn. rewrite Hl.
  repeat split.
  - intros e ->. reflexivity.
  - intros rows ->. reflexivity.
Qed.

End RecordEndpoints.

(** ** The further properties on the concrete settings *)

Section FurtherRuns.
Import DimReduction.
Local Open Scope Z_scope.

Lemma label_names_most_frequent_witness :
  exists top rest,
    label_of_cluster 0 Samples.members = join ", " (map fst top)
    /\ Permutation (count_occupations Samples.members) (top ++ rest)
    /\ List.length top = 3%nat.
Proof.
  destruct (@label_names_most_frequent 0 Samples.members
              (mkPersonData "Q1" "A" "" ["poet"; "physicist"] "m" 768)%string
              (or_introl eq_refl) ltac:(discriminate))
    as (top & rest & H1 & H2 & H3 & _).
  exists top, rest. repeat split; assumption.
Defined.

Lemma label_without_occupation_is_generic_witness :
  label_of_cluster 3 Samples.idle_members = "Cluster 3"%string.
Proof.
  apply (@label_without_occupation_is_generic 3 Samples.idle_members).
  intros p [<-|[]]. reflexivity.
Defined.

Lemma failed_fit_saves_nothing_witness :
  main (L := Samples.few_samples_library) (B := Toy.bigquery Toy.corpus)
    10 Samples.few_samples_store = (1, Samples.few_samples_store).
Proof.
  refine (proj2 (@failed_fit_saves_nothing Samples.few_samples_library
            (Toy.bigquery Toy.corpus) 10
            {| self := init; store := Samples.few_samples_store |}
            Toy.corpus
            (ValueError "n_components=50 must be between 0 and min(n_samples, n_features)")
            (mkPCA [] [] []) [] tt [] eq_refl _ (or_introl eq_refl))
            Samples.few_samples_store _); discriminate.
Defined.

Lemma auto_detect_on_small_corpus_exits_1_witness :
  main (L := Toy.library) (B := Toy.bigquery Samples.two_rows) 0
    Toy.empty_store = (1, Toy.empty_store).
Proof.
  refine (@auto_detect_on_small_corpus_exits_1 Toy.library
            (Toy.bigquery Samples.two_rows) Toy.empty_store Samples.two_rows
            (mkPCA [] [] [])
            (map (firstn (Z.to_nat 50)) (map row_embedding_vector Samples.two_rows))
            tt
            (map (firstn (Z.to_nat 3))
               (map (firstn (Z.to_nat 50))
                  (map row_embedding_vector Samples.two_rows)))
            eq_refl _ eq_refl eq_refl _).
  - discriminate.
  - simpl. lia.
Defined.

Lemma table_records_agree_with_local_file_witness :
  exists records lcs,
    prepare_records (B := Toy.bigquery []) Samples.clustered Samples.two_labels
      = Return records
    /\ local_coordinates Samples.clustered Samples.two_labels = Return lcs
    /\ map (fun rec => (rec_person_id rec, rec_x rec, rec_y rec, rec_z rec,
                        rec_cluster_id rec, rec_cluster_label rec)) records
       = map (fun lc => (lc_person_id lc, lc_x lc, lc_y lc, lc_z lc,
                         lc_cluster_id lc, lc_cluster_label lc)) lcs.
Proof.
  assert (Hr : exists records,
             prepare_records (B := Toy.bigquery []) Samples.clustered
               Samples.two_labels = Return records)
    by (eexists; vm_compute; reflexivity).
  assert (Hl : exists lcs,
             local_coordinates Samples.clustered Samples.two_labels
             = Return lcs)
    by (eexists; vm_compute; reflexivity).
  destruct Hr as [records Hr]. destruct Hl as [lcs Hl].
  exists records, lcs. split; [exact Hr|]. split; [exact Hl|].
  exact (proj1 (@table_records_agree_with_local_file Toy.library
                  (Toy.bigquery []) Samples.clustered Samples.two_labels
                  records lcs Hr Hl)).
Defined.

Lemma exit_0_means_all_artifacts_witness :
  exists s' data,
    main (L := Toy.library) (B := Toy.bigquery Toy.corpus) 2 Toy.empty_store
      = (0, s')
    /\ file_coordinates_3d_json s' = Some data
    /\ List.length (coordinates data) = 3%nat.
Proof.
  assert (Hmain : exists s',
             main (L := Toy.library) (B := Toy.bigquery Toy.corpus) 2
               Toy.empty_store = (0, s'))
    by (eexists; vm_compute; reflexivity).
  destruct Hmain as [s' Hmain].
  destruct (@exit_0_means_all_artifacts Toy.library (Toy.bigquery Toy.corpus)
              2 Toy.empty_store s' Toy.corpus eq_refl ltac:(discriminate) Hmain)
    as (data & pca & um & Hfile & Hlen & _).
  exists s', data. repeat split; assumption.
Defined.

Lemma failed_plot_comes_after_saving_witness :
  exists s' data,
    main (L := Samples.no_figure_library) (B := Toy.bigquery Toy.corpus) 2
      Samples.no_figure_store = (1, s')
    /\ file_coordinates_3d_json s' = Some data
    /\ file_pca_model_pkl s' = Some (Some (mkPCA [] [] [])).
Proof.
  destruct (@failed_plot_comes_after_saving Samples.no_figure_library
              (Toy.bigquery Toy.corpus) 2 Samples.no_figure_store Toy.corpus
              (ExternalError "cannot write the figure")
              (mkPCA [] [] [])
              (map (firstn (Z.to_nat 50)) (map row_embedding_vector Toy.corpus))
              tt
              (map (firstn (Z.to_nat 3))
                 (map (firstn (Z.to_nat 50))
                    (map row_embedding_vector Toy.corpus)))
              0%R [0; 1; 0] 0%R 0%R
              ltac:(discriminate) eq_refl ltac:(discriminate)
              eq_refl eq_refl eq_refl eq_refl eq_refl eq_refl
              ltac:(repeat constructor; lia) eq_refl
              ltac:(simpl; repeat constructor; simpl; lia) eq_refl)
    as (s' & data & Hmain & Hfile & _ & Hpca & _).
  exists s', data. repeat split; assumption.
Defined.

End FurtherRuns.

Section FurtherQueries.
Local Open Scope Z_scope.

Lemma startup_ready_iff_files_load_witness :
  exists app',
    Main.startup_event Samples.good_files Main.initial = (Return tt, app')
    /\ Main._models_loaded app' = true.
Proof.
  destruct (@startup_ready_iff_files_load Toy.library Samples.good_files
              Main.initial eq_refl) as (app' & H1 & H2 & _).
  exists app'. split; [exact H1 | exact H2].
Defined.

Lemma pickled_none_passes_startup_witness :
  exists app',
    Main.startup_event Samples.none_files Main.initial = (Return tt, app')
    /\ Main.generate_user_embedding (C := Samples.collaborators)
         Toy.request app' =
       (Raise (HTTPException 503
                 "PCA/UMAP models not available. Run dim_reduction.py first."),
        app').
Proof.
  destruct (@pickled_none_passes_startup Toy.library Samples.collaborators
              Samples.none_files (Some tt) Toy.request "narrative"%string
              Toy.short_vector eq_refl eq_refl eq_refl eq_refl)
    as (app' & H1 & _ & H3).
  exists app'. split; assumption.
Defined.


Lemma get_persons_pages_of_a_cluster_witness :
  exists page next,
    Api.get_persons (D := Samples.database) 2 0 (Some 1) = Return page
    /\ (List.length page <= 2)%nat
    /\ Api.get_persons (D := Samples.database) 4 0 (Some 1)
       = Return (page ++ next).
Proof.
  destruct (@get_persons_pages_of_a_cluster Samples.database 2 2 0 1
              [Samples.person_row "Q1"; Samples.person_row "Q2";
               Samples.person_row "Q3"]%string
              ltac:(lia) ltac:(lia) ltac:(lia) eq_refl)
    as (page & next & H1 & _ & H3 & _ & H5).
  exists page, next. repeat split; assumption.
Defined.

Lemma get_cluster_first_match_or_404_witness :
  Api.get_cluster (C := Samples.collaborators) 1 = Return Samples.cluster1
  /\ Api.get_cluster (C := Samples.collaborators) 7 =
     Raise (HTTPException 404 "Cluster 7 not found").
Proof.
  destruct (@get_cluster_first_match_or_404 Samples.collaborators 1
              [Samples.cluster0; Samples.cluster1] eq_refl) as (_ & Hfound & _).
  destruct (@get_cluster_first_match_or_404 Samples.collaborators 7
              [Samples.cluster0; Samples.cluster1] eq_refl) as (Hnone & _).
  split.
  - apply (Hfound [Samples.cluster0] Samples.cluster1 []); try reflexivity.
    intros b [<-|[]]. discriminate.
  - apply Hnone. intros c [<-|[<-|[]]]; discriminate.
Defined.

Lemma health_check_after_failed_load_witness :
  Api.status (Api.health_check (D := Samples.database)
                (snd (Main.startup_event Toy.broken_files Main.initial)))
    = "healthy"%string
  /\ dict_find String.eqb
       (Api.services (Api.health_check (D := Samples.database)
                        (snd (Main.startup_event Toy.broken_files Main.initial))))
       "bigquery"%string = Some "unhealthy: BigQuery is down"%string.
Proof.
  destruct (@health_check_after_failed_load Toy.library Samples.database
              Toy.broken_files Main.initial eq_refl eq_refl)
    as (H1 & _ & H3 & _).
  split; [exact H1|]. apply (H3 (ExternalError "BigQuery is down")).
  reflexivity.
Defined.

End FurtherQueries.
